(** * signgen: a shallow embedding of the sign generator's own logic

    The repository builds two-layer 3D-printable signs.  The geometry is
    delegated to the CadQuery kernel; what the repository itself computes is
    the heaviness table, the validation checks, the file naming, the STL
    export bookkeeping, the preset store and the CLI's exit protocol.  Those
    are embedded here, function by function, under the names they have in
    [src/].

    Conventions of the embedding
    - a Python [str] is a list of Unicode code points ([str := list N]);
    - a Python [int] is a [Z]; a Python [float] is a binary64 [float] of
      [PrimFloat], so every [+], [*], [/] rounds exactly as CPython's does;
    - a value that may be an [int] or a [float] at run time is a [num];
    - a raised exception is the [Raise] branch of [result];
    - the file system, [stdout], [stderr] and the log are explicit state;
    - the CadQuery calls are the operations of a [CadKernel], whose
      behaviour is left open. *)

From Stdlib Require Import ZArith NArith List String Ascii Bool Lia.
From Stdlib Require Import Floats.PrimFloat Floats.SpecFloat Floats.FloatOps
  Floats.FloatAxioms.
Import ListNotations.

Set Warnings "-inexact-float,-register-all".

Local Open Scope Z_scope.

(* ================================================================== *)
(** * Python strings *)
(* ================================================================== *)

Module PyStr.

(** A character is its code point, [ord c]. *)
Definition char := N.
Definition str := list char.

(** An ASCII literal of the source, as a [str]. *)
Definition py (s : string) : str :=
  List.map N_of_ascii (list_ascii_of_string s).

Definition char_eqb (a b : char) : bool := N.eqb a b.

Fixpoint str_eqb (a b : str) : bool :=
  match a, b with
  | [], [] => true
  | x :: a', y :: b' => char_eqb x y && str_eqb a' b'
  | _, _ => false
  end.

(** [c in s] for a character [c]. *)
Definition char_in (c : char) (s : str) : bool := existsb (char_eqb c) s.

Definition SPACE : char := 32%N.
Definition HYPHEN : char := 45%N.
Definition UNDERSCORE : char := 95%N.

(** [str.isspace] on one character: the code points CPython's
    [Py_UNICODE_ISSPACE] accepts. *)
Definition isspace (c : char) : bool :=
  ((9 <=? c) && (c <=? 13) || (28 <=? c) && (c <=? 32)
   || (c =? 133) || (c =? 160) || (c =? 5760)
   || (8192 <=? c) && (c <=? 8202)
   || (c =? 8232) || (c =? 8233) || (c =? 8239) || (c =? 8287)
   || (c =? 12288))%N.

(** [str.isalnum] restricted to ASCII; above 127 the Unicode tables decide
    and the embedding takes the predicate as a parameter. *)
Definition ascii_isalnum (c : char) : bool :=
  ((48 <=? c) && (c <=? 57) || (65 <=? c) && (c <=? 90)
   || (97 <=? c) && (c <=? 122))%N.

(** [s.lstrip()], [s.rstrip()], [s.strip()] with no argument. *)
Fixpoint lstrip (s : str) : str :=
  match s with
  | c :: s' => if isspace c then lstrip s' else s
  | [] => []
  end.

Definition rstrip (s : str) : str := rev (lstrip (rev s)).

Definition strip (s : str) : str := rstrip (lstrip s).

(** [s.replace(a, b)] for single characters [a], [b]. *)
Definition replace_char (a b : char) (s : str) : str :=
  List.map (fun c => if char_eqb c a then b else c) s.

(** [sep.join(parts)]. *)
Fixpoint join (sep : str) (parts : list str) : str :=
  match parts with
  | [] => []
  | [p] => p
  | p :: rest => p ++ sep ++ join sep rest
  end.

(** [str(n)] for an [int]. *)
Definition digit_char (d : N) : char := (48 + d)%N.

Fixpoint digits_fuel (fuel : nat) (n : N) (acc : str) : str :=
  match fuel with
  | O => acc
  | S fuel' =>
      let acc' := digit_char (n mod 10) :: acc in
      if (n <? 10)%N then acc' else digits_fuel fuel' (n / 10)%N acc'
  end.

Definition str_of_N (n : N) : str := digits_fuel (S (N.to_nat (N.log2 n))) n [].

Definition str_of_Z (z : Z) : str :=
  match z with
  | Z0 => py "0"
  | Zpos p => str_of_N (Npos p)
  | Zneg p => HYPHEN :: str_of_N (Npos p)
  end.

End PyStr.
Export PyStr.

(* ================================================================== *)
(** * Python numbers *)
(* ================================================================== *)

Module PyNum.

Local Open Scope float_scope.

(** [float(z)]: the binary64 nearest to [z], ties to even.  CPython raises
    [OverflowError] where this yields an infinity (|z| >= 2^1024). *)
Definition float_of_Z (z : Z) : float :=
  SF2Prim (binary_normalize prec emax z 0 false).

(** A number whose run-time type is [int] or [float]. *)
Inductive num : Type :=
| Int (z : Z)
| Float (f : float).

(** The conversion arithmetic applies to an [int] operand.  It is CPython's
    on the ints that convert unchanged ([exact_num] below); statements that
    depend on what is computed beyond them say so. *)
Definition to_float (n : num) : float :=
  match n with
  | Int z => float_of_Z z
  | Float f => f
  end.

(** Comparisons.  Two [int]s compare as integers; otherwise the [int] side
    is converted, which is exact below 2^53 in magnitude. *)
Definition num_ltb (a b : num) : bool :=
  match a, b with
  | Int x, Int y => Z.ltb x y
  | _, _ => to_float a <? to_float b
  end.

Definition num_leb (a b : num) : bool :=
  match a, b with
  | Int x, Int y => Z.leb x y
  | _, _ => to_float a <=? to_float b
  end.

Definition num_gtb (a b : num) : bool := num_ltb b a.

(** [a <= x <= b], a chained comparison. *)
Definition num_between (a x b : num) : bool := num_leb a x && num_leb x b.

(** [min(a, b)] and [max(a, b)] return one of their arguments, type
    included: the first one unless the second is strictly better. *)
Definition num_min (a b : num) : num := if num_ltb b a then b else a.
Definition num_max (a b : num) : num := if num_gtb b a then b else a.

Definition num_add (a b : num) : num :=
  match a, b with
  | Int x, Int y => Int (x + y)
  | _, _ => Float (to_float a + to_float b)
  end.

Definition num_mul (a b : num) : num :=
  match a, b with
  | Int x, Int y => Int (x * y)
  | _, _ => Float (to_float a * to_float b)
  end.

Definition num_is_zero (a : num) : bool :=
  match a with
  | Int z => Z.eqb z 0
  | Float f => f =? 0
  end.

(** [a / b], true division: [None] stands for [ZeroDivisionError]. *)
Definition num_div (a b : num) : option float :=
  if num_is_zero b then None else Some (to_float a / to_float b).

End PyNum.
Export PyNum.

(* ================================================================== *)
(** * sign_generator.py: heaviness table, weight label, file name *)
(* ================================================================== *)

Module FontParams.

Local Open Scope float_scope.

(** The [params] dictionary of [_calculate_font_params]; its keys are
    fixed, so it is a record. *)
Record font_params : Type := mk_font_params {
  font_family : str;
  size_multiplier : float;
  stroke_offset : float;
  cut_depth_multiplier : float;
  style : str
}.

(** [params.update({...})] with the three keys every branch sets. *)
Definition update (p : font_params) (sm so : float) (st : str) : font_params :=
  {| font_family := font_family p;
     size_multiplier := sm;
     stroke_offset := so;
     cut_depth_multiplier := cut_depth_multiplier p;
     style := st |}.

Definition _calculate_font_params (heaviness : Z) (family : str) : font_params :=
  let params :=
    {| font_family := family;
       size_multiplier := 1.0;
       stroke_offset := 0.0;
       cut_depth_multiplier := 1.0;
       style := py "Regular" |} in
  let params :=
    if (heaviness <=? 25)%Z then update params 0.90 0.0 (py "Light")
    else if (heaviness <=? 50)%Z then update params 1.00 0.0 (py "Regular")
    else if (heaviness <=? 75)%Z then update params 1.15 0.0 (py "Bold")
    else update params 1.30 0.0 (py "ExtraBold") in
  (* Fine-tune within range *)
  let range_position := float_of_Z (heaviness mod 25) / 25.0 in
  {| font_family := font_family params;
     size_multiplier := size_multiplier params + range_position * 0.05;
     stroke_offset := stroke_offset params;
     cut_depth_multiplier := cut_depth_multiplier params;
     style := style params |}.

Definition _get_weight_label (heaviness : num) : str :=
  if num_leb heaviness (Int 25) then py "light"
  else if num_leb heaviness (Int 50) then py "regular"
  else if num_leb heaviness (Int 75) then py "bold"
  else py "extrabold".

Section Sanitize.

(** [str.isalnum] on one character. *)
Variable isalnum : char -> bool.

Definition safe_char (c : char) : char :=
  if isalnum c || char_in c [SPACE; HYPHEN; UNDERSCORE] then c else UNDERSCORE.

Definition _sanitize_filename (text : str) : str :=
  let safe_chars := List.map safe_char text in
  match replace_char SPACE UNDERSCORE (strip (firstn 30 safe_chars)) with
  | [] => py "sign"
  | r => r
  end.

End Sanitize.

End FontParams.
Export FontParams.

(* ================================================================== *)
(** * exceptions.py and the builtin exceptions the code can meet *)
(* ================================================================== *)

Module Exceptions.

(** Everything here is an [Exception]: what [except Exception] catches.
    [KeyboardInterrupt] and the other bare [BaseException]s are outside the
    embedding; [sys.exit] is an outcome of [main], not an exception. *)
Inductive exn : Type :=
| ZeroDivisionError (msg : str)
| TypeError (msg : str)
| AttributeError (msg : str)
| JSONDecodeError (msg : str)
| UnicodeDecodeError (msg : str)             (* a ValueError, no JSONDecodeError *)
| OSError (msg : str)                        (* IOError, FileExistsError, ... *)
| KernelError (msg : str)                    (* any Exception out of cadquery *)
| STLExportError (layer reason : str) (suggestions : list str)
| ValidationError (field message : str) (valid_range : option str)
| GeometryError (operation details : str)
| FontError (font_name reason : str).

Definition is_STLExportError (e : exn) : bool :=
  match e with
  | STLExportError _ _ _ => true
  | _ => false
  end.

(** The bullet of [STLExportError.__init__] as the source file has it:
    U+00E2 U+20AC U+00A2. *)
Definition bullet : str := [226; 8364; 162]%N.

Definition NL : char := 10%N.

(** [str(e)]: the message each [__init__] hands to [super().__init__]. *)
Definition exn_str (e : exn) : str :=
  match e with
  | ZeroDivisionError msg | TypeError msg | AttributeError msg
  | JSONDecodeError msg | UnicodeDecodeError msg | OSError msg
  | KernelError msg => msg
  | STLExportError layer reason suggestions =>
      let message := py "Failed to export " ++ layer ++ py ": " ++ reason in
      match suggestions with
      | [] => message
      | _ => message ++ [NL] ++ py "Suggestions:" ++ [NL]
             ++ join [NL]
                  (List.map (fun s => py "  " ++ bullet ++ py " " ++ s) suggestions)
      end
  | ValidationError field message valid_range =>
      let full_message :=
        py "Validation error for " ++ field ++ py ": " ++ message in
      match valid_range with
      | Some r => full_message ++ py " (valid range: " ++ r ++ py ")"
      | None => full_message
      end
  | GeometryError operation details =>
      py "Geometry error during " ++ operation ++ py ": " ++ details
  | FontError font_name reason =>
      py "Font error with '" ++ font_name ++ py "': " ++ reason
  end.

(** The [suggestions] attribute of an [STLExportError]. *)
Definition suggestions_of (e : exn) : list str :=
  match e with
  | STLExportError _ _ s => s
  | _ => []
  end.

(** A computation that returns or raises. *)
Inductive result (A : Type) : Type :=
| Ok (a : A)
| Raise (e : exn).

Arguments Ok {A} a.
Arguments Raise {A} e.

Definition rbind {A B} (r : result A) (k : A -> result B) : result B :=
  match r with
  | Ok a => k a
  | Raise e => Raise e
  end.

End Exceptions.
Export Exceptions.

(* ================================================================== *)
(** * float formatting and rounding *)
(* ================================================================== *)

(** [repr(x)] and [format(x, '.Nf')] of a float are CPython's shortest and
    fixed decimal printers.  Only error, warning and log texts contain them,
    so the embedding takes them as an interface; [CPythonFormat] below
    implements it. *)
Class FloatFormat : Type := {
  repr_float : float -> str;
  format_fixed : nat -> float -> str
}.

Module PyRound.

(** Quotient of [a / b] rounded to the nearest integer, ties to even
    ([0 <= a], [0 < b]). *)
Definition div_half_even (a b : Z) : Z :=
  let q := a / b in
  let r := a mod b in
  match (2 * r ?= b) with
  | Lt => q
  | Gt => q + 1
  | Eq => if Z.even q then q else q + 1
  end.

(** [round(x, ndigits)] on a float, [ndigits >= 0]: the exact binary value
    is rounded half-even to [ndigits] decimals and the decimal is read back
    as the nearest float (CPython's dtoa and strtod pair). *)
Definition round_float (ndigits : nat) (x : float) : float :=
  match Prim2SF x with
  | S754_finite s m e =>
      let p := 10 ^ Z.of_nat ndigits in
      let n := if 0 <=? e then Zpos m * 2 ^ e * p
               else div_half_even (Zpos m * p) (2 ^ (- e)) in
      match n with
      | Zpos n' =>
          SF2Prim (SFdiv prec emax (S754_finite s n' 0)
                                   (S754_finite false (Z.to_pos p) 0))
      | _ => if s then neg_zero else zero
      end
  | _ => x
  end.

(** [round(x, ndigits)] on a number: an [int] is returned unchanged. *)
Definition round_num (ndigits : nat) (x : num) : num :=
  match x with
  | Int z => Int z
  | Float f => Float (round_float ndigits f)
  end.

End PyRound.
Export PyRound.

(* ================================================================== *)
(** * validators.py *)
(* ================================================================== *)

Module Validators.

Local Open Scope float_scope.

(** The four ranges [SignValidator.__init__] stores, each a (min, max)
    tuple. *)
Record SignValidator : Type := mk_SignValidator {
  width_range : num * num;
  height_range : num * num;
  font_size_range : num * num;
  thickness_range : num * num
}.

(** [SignValidator()]: the [else] branch of [__init__]. *)
Definition default_validator : SignValidator :=
  {| width_range := (Int 10, Int 500);
     height_range := (Int 5, Int 200);
     font_size_range := (Int 5, Int 50);
     thickness_range := (Float 0.2, Float 5.0) |}.

(** The alphabet [validate_text] lets through above code point 127. *)
Definition accented : str :=
  [228; 246; 252; 196; 214; 220; 223; 233; 232; 234; 235; 224; 226; 231; 241]%N.

(** [problematic_chars.add(char)] on a set kept as a duplicate-free list, in
    the order of first insertion.  Python walks a set in hash order; only the
    order of the characters in the warning text could show the difference. *)
Definition set_add (c : char) (s : list char) : list char :=
  if char_in c s then s else s ++ [c].

(** [not text or not text.strip()]. *)
Definition is_blank (text : str) : bool :=
  match text with
  | [] => true
  | _ => match strip text with
         | [] => true
         | _ => false
         end
  end.

(** [len(text)]. *)
Definition len (text : str) : Z := Z.of_nat (List.length text).

Section WithFormat.

Context {FF : FloatFormat}.

(** [f"{x}"] for a number. *)
Definition num_str (x : num) : str :=
  match x with
  | Int z => str_of_Z z
  | Float f => repr_float f
  end.

(** [f"{x:.Nf}"] for a number. *)
Definition num_fixed (n : nat) (x : num) : str := format_fixed n (to_float x).

(** [f"{name} must be between {lo}-{hi}mm"]. *)
Definition range_message (name : string) (r : num * num) : str :=
  py name ++ py " must be between " ++ num_str (fst r) ++ py "-"
    ++ num_str (snd r) ++ py "mm".

(** [return False, "; ".join(errors)] or [return True, None]. *)
Definition errors_result (errors : list str) : bool * option str :=
  match errors with
  | [] => (true, None)
  | _ => (false, Some (join (py "; ") errors))
  end.

Definition validate_dimensions (v : SignValidator) (width height : num)
  : bool * option str :=
  let errors := [] in
  let errors :=
    if negb (num_between (fst (width_range v)) width (snd (width_range v)))
    then errors ++ [range_message "Width" (width_range v)] else errors in
  let errors :=
    if negb (num_between (fst (height_range v)) height (snd (height_range v)))
    then errors ++ [range_message "Height" (height_range v)] else errors in
  (* Check aspect ratio *)
  let errors :=
    if num_gtb width (Int 0) && num_gtb height (Int 0) then
      let aspect_ratio := to_float width / to_float height in
      if (20 <? aspect_ratio) || (aspect_ratio <? 0.05)
      then errors ++ [py "Unusual aspect ratio ("
                        ++ format_fixed 1 aspect_ratio ++ py ":1)"]
      else errors
    else errors in
  errors_result errors.

Definition validate_text (text : str) (max_length : Z) : bool * option str :=
  if is_blank text then (false, Some (py "Text cannot be empty"))
  else if (max_length <? len text)%Z then
    (false, Some (py "Text too long (max " ++ str_of_Z max_length
                    ++ py " characters)"))
  else
    (* Check for problematic characters *)
    let problematic_chars :=
      fold_left
        (fun s c => if (127 <? c)%N && negb (char_in c accented)
                    then set_add c s else s)
        text [] in
    match problematic_chars with
    | [] => (true, None)
    | _ => (true,
            Some (py "Warning: Special characters may not render correctly: "
                    ++ join (py ", ")
                         (List.map (fun c => [c]) problematic_chars)))
    end.

Definition validate_font_size (v : SignValidator) (font_size : num)
    (text : str) (width : num) (auto_size : bool) : bool * option str :=
  if auto_size then (true, None)
  else if negb (num_between (fst (font_size_range v)) font_size
                            (snd (font_size_range v))) then
    (false, Some (range_message "Font size" (font_size_range v)))
  else
    (* Estimate if text will fit *)
    let avg_char_width := num_mul font_size (Float 0.6) in
    let estimated_text_width := num_mul (Int (len text)) avg_char_width in
    if num_gtb estimated_text_width (num_mul width (Float 1.2)) then
      (false, Some (py "Text likely too wide for sign (estimated "
                      ++ num_fixed 0 estimated_text_width
                      ++ py "mm, sign width " ++ num_fixed 0 width
                      ++ py "mm)"))
    else (true, None).

Definition validate_thickness (v : SignValidator) (bottom top : num)
  : bool * option str :=
  let errors := [] in
  let errors :=
    if negb (num_between (fst (thickness_range v)) bottom
                         (snd (thickness_range v)))
    then errors ++ [range_message "Bottom thickness" (thickness_range v)]
    else errors in
  let errors :=
    if negb (num_between (fst (thickness_range v)) top
                         (snd (thickness_range v)))
    then errors ++ [range_message "Top thickness" (thickness_range v)]
    else errors in
  let total := num_add bottom top in
  let errors :=
    if num_gtb total (Int 10)
    then errors ++ [py "Total thickness " ++ num_fixed 1 total
                      ++ py "mm may be excessive"]
    else errors in
  errors_result errors.

Definition validate_heaviness (heaviness : Z) (font_size top_thickness : num)
  : bool * option str :=
  let warnings := [] in
  if negb ((0 <=? heaviness)%Z && (heaviness <=? 100)%Z) then
    (false, Some (py "Heaviness must be between 0-100"))
  else
    (* Check if heavy text might cut through layer *)
    let warnings :=
      if (75 <? heaviness)%Z && num_gtb font_size (Int 20)
         && num_ltb top_thickness (Float 1.5)
      then warnings
             ++ [py "Heavy text with large font may cut through thin top layer"]
      else warnings in
    let warnings :=
      if (90 <? heaviness)%Z && num_ltb top_thickness (Float 2.0)
      then warnings ++ [py "Extra bold text may require thicker top layer"]
      else warnings in
    match warnings with
    | [] => (true, None)
    | _ => (true, Some (join (py "; ") warnings))
    end.

(** [errors.append(msg)] when invalid, [warnings.append(msg)] when the
    check passed with a message and [warns] says the call site keeps it.
    No check returns [(False, None)]; that case appends an empty text. *)
Definition collect (warns : bool) (r : bool * option str)
    (ew : list str * list str) : list str * list str :=
  let '(errors, warnings) := ew in
  match r with
  | (false, Some msg) => (errors ++ [msg], warnings)
  | (false, None) => (errors ++ [[]], warnings)
  | (true, Some msg) => if warns then (errors, warnings ++ [msg])
                        else (errors, warnings)
  | (true, None) => (errors, warnings)
  end.

Definition pre_validate_all (v : SignValidator) (text : str)
    (width height font_size : num) (heaviness : Z)
    (bottom_thickness top_thickness : num) (auto_size : bool)
  : bool * list str * list str :=
  let ew := ([], []) in
  (* Validate each component *)
  let ew := collect true (validate_text text 100) ew in
  let ew := collect false (validate_dimensions v width height) ew in
  let ew := collect false
              (validate_font_size v font_size text width auto_size) ew in
  let ew := collect false
              (validate_thickness v bottom_thickness top_thickness) ew in
  let ew := collect true
              (validate_heaviness heaviness font_size top_thickness) ew in
  let '(errors, warnings) := ew in
  (Nat.eqb (List.length errors) 0, errors, warnings).

End WithFormat.

Definition estimate_cut_area (text : str) (font_size : num) (heaviness : Z)
  : float :=
  (* Base character area estimation *)
  let char_area := to_float font_size * 0.7 * (to_float font_size * 0.9) in
  (* Adjust for heaviness *)
  let heaviness_factor := 1.0 + float_of_Z heaviness / float_of_Z 100 * 0.5 in
  float_of_Z (len text) * char_area * heaviness_factor.

Definition will_text_cut_through (text : str) (font_size : num)
    (heaviness : Z) (sign_width sign_height top_thickness : num)
  : result (bool * Z) :=
  let cut_area := estimate_cut_area text font_size heaviness in
  let sign_area := num_mul sign_width sign_height in
  match num_div (Float cut_area) sign_area with
  | None => Raise (ZeroDivisionError (py "float division by zero"))
  | Some coverage_ratio =>
      let risk_score := 0%Z in
      let risk_score :=
        if 0.7 <? coverage_ratio then (risk_score + 40)%Z else risk_score in
      let risk_score :=
        if (80 <? heaviness)%Z then (risk_score + 20)%Z else risk_score in
      let risk_score :=
        if num_gtb font_size (num_mul sign_height (Float 0.8))
        then (risk_score + 20)%Z else risk_score in
      let risk_score :=
        if num_ltb top_thickness (Float 1.0)
        then (risk_score + 20)%Z else risk_score in
      let risk_score :=
        if (75 <? heaviness)%Z then (risk_score + 10)%Z else risk_score in
      let will_cut_through := (60 <=? risk_score)%Z in
      let confidence := Z.min risk_score 100 in
      Ok (will_cut_through, confidence)
  end.

(** The dictionary [suggest_parameters] returns; its keys are fixed. *)
Record suggestion : Type := mk_suggestion {
  sg_font_size : num;
  sg_heaviness : Z;
  sg_bottom_thickness : float;
  sg_top_thickness : float;
  sg_auto_size : bool
}.

(** [min(height * a, width / (text_length * b))]; the division raises when
    the text is empty. *)
Definition font_for (width height : num) (text_length : Z) (a b : float)
  : result num :=
  match num_div width (num_mul (Int text_length) (Float b)) with
  | None => Raise (ZeroDivisionError (py "float division by zero"))
  | Some per_char => Ok (num_min (num_mul height (Float a)) (Float per_char))
  end.

Definition suggest_parameters (v : SignValidator) (text : str)
    (width height : num) : result suggestion :=
  let text_length := len text in
  (* Base font size on text length and dimensions *)
  rbind
    (if (text_length <=? 5)%Z then font_for width height text_length 0.6 0.8
     else if (text_length <=? 10)%Z then font_for width height text_length 0.5 0.7
     else font_for width height text_length 0.4 0.6)
    (fun suggested_font =>
       (* Clamp to valid range *)
       let suggested_font :=
         num_max (fst (font_size_range v))
                 (num_min suggested_font (snd (font_size_range v))) in
       (* Suggest moderate heaviness for reliability *)
       let suggested_heaviness := 50%Z in
       (* Standard thicknesses *)
       let suggested_bottom := 1.0 in
       let suggested_top := 1.0 in
       (* If text is large relative to sign, suggest thicker top *)
       let suggested_top :=
         if num_gtb suggested_font (num_mul height (Float 0.5))
         then 1.5 else suggested_top in
       Ok {| sg_font_size := round_num 1 suggested_font;
             sg_heaviness := suggested_heaviness;
             sg_bottom_thickness := suggested_bottom;
             sg_top_thickness := suggested_top;
             sg_auto_size := (15 <? text_length)%Z |}).

End Validators.
Export Validators.

(* ================================================================== *)
(** * Python values, dictionaries, and the world outside the program *)
(* ================================================================== *)

Module PyVal.

(** What [json.load] can return and [json.dump] can write. *)
Inductive pyval : Type :=
| PNone
| PBool (b : bool)
| PNum (n : num)
| PStr (s : str)
| PList (l : list pyval)
| PDict (d : list (str * pyval)).

(** A [dict] with string keys, in insertion order. *)
Definition dict := list (str * pyval).

Section Assoc.

Context {V : Type}.

(** [d.get(k)], [None] when the key is missing. *)
Fixpoint assoc_get (k : str) (d : list (str * V)) : option V :=
  match d with
  | [] => None
  | (k', v) :: d' => if str_eqb k k' then Some v else assoc_get k d'
  end.

(** [d[k] = v]: an existing key keeps its place, a new one goes last. *)
Fixpoint assoc_set (k : str) (v : V) (d : list (str * V)) : list (str * V) :=
  match d with
  | [] => [(k, v)]
  | (k', v') :: d' =>
      if str_eqb k k' then (k, v) :: d' else (k', v') :: assoc_set k v d'
  end.

(** [del d[k]] where the key may be missing. *)
Fixpoint assoc_del (k : str) (d : list (str * V)) : list (str * V) :=
  match d with
  | [] => []
  | (k', v') :: d' =>
      if str_eqb k k' then d' else (k', v') :: assoc_del k d'
  end.

(** [k in d]. *)
Definition assoc_mem (k : str) (d : list (str * V)) : bool :=
  match assoc_get k d with
  | Some _ => true
  | None => false
  end.

End Assoc.

(** A dictionary has each key once. *)
Definition unique_keys {V : Type} (d : list (str * V)) : Prop :=
  NoDup (List.map fst d).

Definition dict_get : str -> dict -> option pyval := assoc_get.
Definition dict_set : str -> pyval -> dict -> dict := assoc_set.
Definition dict_mem : str -> dict -> bool := assoc_mem.

End PyVal.
Export PyVal.

Module World.

(** A [pathlib.Path] is kept as its string, POSIX style.  [path_join]
    appends one component to a path that is already normalised and is
    neither ["."] nor a root; [Path] and [path_div] below are the
    constructor and the [/] operator on any string. *)
Definition SLASH : char := 47%N.

Definition path_join (d name : str) : str := d ++ [SLASH] ++ name.

(** [s.split('/')]. *)
Fixpoint split_slash (s : str) : list str :=
  match s with
  | [] => [[]]
  | c :: s' =>
      if char_eqb c SLASH then [] :: split_slash s'
      else match split_slash s' with
           | p :: ps => (c :: p) :: ps
           | [] => [[c]]
           end
  end.

(** The root of a POSIX path: exactly two leading slashes are kept, any
    other number of them is one. *)
Definition path_root (s : str) : str :=
  match s with
  | a :: s1 =>
      if char_eqb a SLASH then
        match s1 with
        | b :: s2 =>
            if char_eqb b SLASH then
              match s2 with
              | c :: _ => if char_eqb c SLASH then [SLASH] else [SLASH; SLASH]
              | [] => [SLASH; SLASH]
              end
            else [SLASH]
        | [] => [SLASH]
        end
      else []
  | [] => []
  end.

(** The components [pathlib] keeps: empty ones and ["."] go, [".."] stays. *)
Definition kept (p : str) : bool := negb (str_eqb p [] || str_eqb p (py ".")).

Definition path_parts (s : str) : list str := filter kept (split_slash s).

(** [str] of a path with this root and these components. *)
Definition path_str (root : str) (parts : list str) : str :=
  match root, parts with
  | [], [] => py "."
  | _, _ => root ++ join [SLASH] parts
  end.

(** [str(Path(s))]: ["./output/"] is ["output"], [""] is ["."]. *)
Definition Path (s : str) : str := path_str (path_root s) (path_parts s).

Definition starts_with_slash (s : str) : bool :=
  match s with
  | c :: _ => char_eqb c SLASH
  | [] => false
  end.

Definition ends_with_slash (s : str) : bool := starts_with_slash (rev s).

(** [os.path.join(d, name)]: an absolute [name] replaces [d]. *)
Definition os_path_join (d name : str) : str :=
  if starts_with_slash name then name
  else match d with
       | [] => name
       | _ => if ends_with_slash d then d ++ name else path_join d name
       end.

(** [str(Path(d) / name)]. *)
Definition path_div (d name : str) : str := Path (os_path_join d name).

(** Split at the last separator: ([parent], [name]). *)
Fixpoint path_split (p : str) : option str * str :=
  match p with
  | [] => (None, [])
  | c :: p' =>
      match path_split p' with
      | (Some d, n) => (Some (c :: d), n)
      | (None, n) => if char_eqb c SLASH then (Some [], n) else (None, c :: n)
      end
  end.

(** [Path(p).name]. *)
Definition path_name (p : str) : str := snd (path_split p).

(** [Path(p).parent]; a bare name has parent ["."]. *)
Definition path_parent (p : str) : str :=
  match fst (path_split p) with
  | Some [] => [SLASH]
  | Some d => d
  | None => py "."
  end.

(** A file holds a JSON document or something else, of which the size is
    all the program looks at: [Bytes] where the content reads as text in
    the encoding [open] assumes (an empty file too), [Garbled n] for [n + 1]
    bytes that do not. *)
Inductive file : Type :=
| Json (doc : pyval)
| Bytes (size : N)
| Garbled (more : N).

Inductive level : Type := DEBUG | INFO | WARNING | ERROR.

(** The machine, as far as the program's own calls reach it.  The logger is
    kept apart: [logs] holds the records handed to it, in order, and what
    its handlers make of them (the lines of the log file and, from [INFO]
    up, the console lines on the standard error stream) is not repeated in
    [files] and [stderr]. *)
Record world : Type := mk_world {
  dirs : list str;                 (* directories that exist *)
  files : list (str * file);       (* regular files, the log file apart *)
  unwritable : list str;           (* paths the process may not create or write *)
  stdout : list str;               (* one entry per [print] *)
  stderr : list str;               (* one entry per [print(file=sys.stderr)] *)
  logs : list (level * str)        (* records handed to the logger *)
}.

Definition set_dirs (w : world) (d : list str) : world :=
  mk_world d (files w) (unwritable w) (stdout w) (stderr w) (logs w).
Definition set_files (w : world) (f : list (str * file)) : world :=
  mk_world (dirs w) f (unwritable w) (stdout w) (stderr w) (logs w).
Definition set_stdout (w : world) (o : list str) : world :=
  mk_world (dirs w) (files w) (unwritable w) o (stderr w) (logs w).
Definition set_stderr (w : world) (o : list str) : world :=
  mk_world (dirs w) (files w) (unwritable w) (stdout w) o (logs w).
Definition set_logs (w : world) (l : list (level * str)) : world :=
  mk_world (dirs w) (files w) (unwritable w) (stdout w) (stderr w) l.

Definition str_mem (p : str) (l : list str) : bool := existsb (str_eqb p) l.

Definition is_dir (p : str) (w : world) : bool := str_mem p (dirs w).
Definition file_at (p : str) (w : world) : option file := assoc_get p (files w).

(** [Path.exists()]. *)
Definition path_exists (p : str) (w : world) : bool :=
  is_dir p w || assoc_mem p (files w).

(** The size of a regular file. *)
Definition file_size (f : file) : N :=
  match f with
  | Bytes n => n
  | Garbled n => N.succ n
  | Json _ => 1%N     (* a dumped document is never empty *)
  end.

(** [Path.stat().st_size]; a directory has some positive size. *)
Definition stat_size (p : str) (w : world) : option N :=
  match file_at p w with
  | Some f => Some (file_size f)
  | None => if is_dir p w then Some 4096%N else None
  end.

(** A computation over the world that returns or raises. *)
Definition M (A : Type) : Type := world -> result A * world.

Definition ret {A} (a : A) : M A := fun w => (Ok a, w).
Definition raise {A} (e : exn) : M A := fun w => (Raise e, w).

Definition bind {A B} (m : M A) (k : A -> M B) : M B :=
  fun w => match m w with
           | (Ok a, w') => k a w'
           | (Raise e, w') => (Raise e, w')
           end.

(** [try: body  except Exception as e: handler(e)]. *)
Definition try_except {A} (body : M A) (handler : exn -> M A) : M A :=
  fun w => match body w with
           | (Ok a, w') => (Ok a, w')
           | (Raise e, w') => handler e w'
           end.

(** A pure computation that may raise, run inside [M]. *)
Definition lift {A} (r : result A) : M A := fun w => (r, w).

(** A read of the world. *)
Definition gets {A} (f : world -> A) : M A := fun w => (Ok (f w), w).

(** A write to the world. *)
Definition modify (f : world -> world) : M unit := fun w => (Ok tt, f w).

(** [print(s)] and [print(s, file=sys.stderr)]. *)
Definition print (s : str) : M unit :=
  modify (fun w => set_stdout w (stdout w ++ [s])).
Definition print_err (s : str) : M unit :=
  modify (fun w => set_stderr w (stderr w ++ [s])).

(** [logger.info(s)] and the like: a record for the logger.  Its handlers
    then write a line of the log file and, from [INFO] up, a line on the
    console; both are read off [logs]. *)
Definition log (l : level) (s : str) : M unit :=
  modify (fun w => set_logs w (logs w ++ [(l, s)])).

(** The directories above [p], nearest first: for ["a/b/c"], ["a/b"] and
    ["a"].  The current directory and the root are not among them: they
    exist. *)
Definition parents (p : str) : list str :=
  let root := path_root p in
  let parts := path_parts p in
  List.map (fun k => path_str root (firstn k parts))
    (rev (seq 1 (List.length parts - 1))).

(** How [os.mkdir] fails. *)
Inductive mkdir_error : Type :=
| FileExists | FileNotFound | NotADirectory | PermissionDenied.

Definition mkdir_message (e : mkdir_error) (p : str) : exn :=
  match e with
  | FileExists => OSError (py "File exists: " ++ p)
  | FileNotFound => OSError (py "No such file or directory: " ++ p)
  | NotADirectory => OSError (py "Not a directory: " ++ p)
  | PermissionDenied => OSError (py "Permission denied: " ++ p)
  end.

(** [os.mkdir(q)], where [up] is the directory above [q] ([None] for the
    current directory and the root). *)
Definition os_mkdir (q : str) (up : option str) (w : world)
  : option mkdir_error * world :=
  let make :=
    if str_mem q (unwritable w) then (Some PermissionDenied, w)
    else (None, set_dirs w (dirs w ++ [q])) in
  if is_dir q w || assoc_mem q (files w) then (Some FileExists, w)
  else
    match up with
    | None => make
    | Some u =>
        if is_dir u w then make
        else if assoc_mem u (files w) then (Some NotADirectory, w)
        else (Some FileNotFound, w)
    end.

(** [Path.mkdir(parents=False, exist_ok=True)]: an error other than the
    missing parent is let go when the directory is there. *)
Definition mkdir_flat (q : str) (up : option str) : M unit :=
  fun w =>
    match os_mkdir q up w with
    | (None, w') => (Ok tt, w')
    | (Some FileNotFound, w') => (Raise (mkdir_message FileNotFound q), w')
    | (Some e, w') =>
        if is_dir q w' then (Ok tt, w') else (Raise (mkdir_message e q), w')
    end.

(** [Path.mkdir(parents=True, exist_ok=True)] on [q] with the directories
    [ups] above it: a missing parent is made first, in the same way, and
    [q] is then made without [parents]. *)
Fixpoint path_mkdir (q : str) (ups : list str) {struct ups} : M unit :=
  fun w =>
    match os_mkdir q (hd_error ups) w with
    | (None, w') => (Ok tt, w')
    | (Some FileNotFound, w') =>
        match ups with
        | [] => (Raise (mkdir_message FileNotFound q), w')
        | u :: ups' =>
            match path_mkdir u ups' w' with
            | (Ok _, w1) => mkdir_flat q (Some u) w1
            | (Raise e, w1) => (Raise e, w1)
            end
        end
    | (Some e, w') =>
        if is_dir q w' then (Ok tt, w') else (Raise (mkdir_message e q), w')
    end.

Definition mkdir_p (p : str) : M unit := path_mkdir p (parents p).

(** [Path.unlink()]. *)
Definition unlink (p : str) : M unit :=
  fun w =>
    match file_at p w with
    | Some _ => (Ok tt, set_files w (assoc_del p (files w)))
    | None => (Raise (OSError (py "No such file: " ++ p)), w)
    end.

(** [with open(p, 'w') as f: json.dump(doc, f, indent=2)]. *)
Definition write_json (p : str) (doc : pyval) : M unit :=
  fun w =>
    if is_dir p w then (Raise (OSError (py "Is a directory: " ++ p)), w)
    else if str_mem p (unwritable w) then
      (Raise (OSError (py "Permission denied: " ++ p)), w)
    else if negb (is_dir (path_parent p) w) then
      (Raise (OSError (py "No such file or directory: " ++ p)), w)
    else (Ok tt, set_files w (assoc_set p (Json doc) (files w))).

(** [with open(p, 'r') as f: json.load(f)]: reading decodes the bytes
    before [json] sees them. *)
Definition read_json (p : str) : M pyval :=
  fun w =>
    match file_at p w with
    | Some (Json doc) => (Ok doc, w)
    | Some (Bytes _) => (Raise (JSONDecodeError (py "Expecting value")), w)
    | Some (Garbled _) =>
        (Raise (UnicodeDecodeError (py "codec can't decode byte")), w)
    | None =>
        if is_dir p w then (Raise (OSError (py "Is a directory: " ++ p)), w)
        else (Raise (OSError (py "No such file or directory: " ++ p)), w)
    end.

End World.
Export World.

Declare Scope py_scope.
Delimit Scope py_scope with py.
Notation "x <- m ;; k" := (bind m (fun x => k))
  (at level 61, m at next level, right associativity) : py_scope.
Notation "m ;;; k" := (bind m (fun _ => k))
  (at level 61, right associativity) : py_scope.

(* ================================================================== *)
(** * config_manager.py *)
(* ================================================================== *)

Module Config.

Local Open Scope float_scope.
Local Open Scope py_scope.

Definition DEFAULT_CONFIG : dict :=
  [ (py "window", PDict
      [ (py "width", PNum (Int 1100));
        (py "height", PNum (Int 820));
        (py "resizable", PBool true);
        (py "min_width", PNum (Int 1000));
        (py "min_height", PNum (Int 750)) ]);
    (py "defaults", PDict
      [ (py "text", PStr (py "LABEL"));
        (py "font", PStr (py "Arial"));
        (py "width", PNum (Float 100.0));
        (py "height", PNum (Float 25.0));
        (py "font_size", PNum (Float 16.0));
        (py "auto_size", PBool false);
        (py "heaviness", PNum (Int 50));
        (py "bottom_thickness", PNum (Float 1.0));
        (py "top_thickness", PNum (Float 1.0));
        (py "corner_radius", PNum (Float 2.0)) ]);
    (py "output", PDict
      [ (py "directory", PStr (py "output"));
        (py "auto_open_folder", PBool true);
        (py "file_naming", PStr (py "{text}_{font}_{weight}")) ]);
    (py "advanced", PDict
      [ (py "debug_mode", PBool false);
        (py "show_preview", PBool true);
        (py "auto_preview_update", PBool true);
        (py "max_text_length", PNum (Int 100));
        (py "threading_enabled", PBool true) ]);
    (py "validation", PDict
      [ (py "width_min", PNum (Int 10));
        (py "width_max", PNum (Int 500));
        (py "height_min", PNum (Int 5));
        (py "height_max", PNum (Int 200));
        (py "font_size_min", PNum (Int 5));
        (py "font_size_max", PNum (Int 50));
        (py "thickness_min", PNum (Float 0.2));
        (py "thickness_max", PNum (Float 5.0)) ]);
    (py "recent_files", PList []);
    (py "favorite_fonts", PList
      [ PStr (py "Arial"); PStr (py "Helvetica");
        PStr (py "Verdana"); PStr (py "Impact") ]);
    (py "presets", PDict []) ].

(** The attributes of a [ConfigManager].  The embedding is by value: the
    nested dictionaries that [DEFAULT_CONFIG.copy()] shares with the class
    attribute are copies here. *)
Record ConfigManager : Type := mk_ConfigManager {
  config_dir : str;
  config_path : str;
  config : dict
}.

Definition set_config (cm : ConfigManager) (c : dict) : ConfigManager :=
  {| config_dir := config_dir cm; config_path := config_path cm; config := c |}.

(** What one step of the loop of [_merge_configs] stores under a key, with
    the recursive call as [merge]: the merge of the old and the new value
    when both are dictionaries, the new value otherwise. *)
Definition merged_entry (merge : dict -> pyval -> dict) (old : option pyval)
    (value : pyval) : pyval :=
  match old, value with
  | Some (PDict sub), PDict _ => PDict (merge sub value)
  | _, _ => value
  end.

(** The loop of [_merge_configs] over [loaded.items()]. *)
Definition merge_items (merge : dict -> pyval -> dict)
  : dict -> list (str * pyval) -> dict :=
  fix loop (result : dict) (items : list (str * pyval)) {struct items} : dict :=
    match items with
    | [] => result
    | (key, value) :: rest =>
        loop (dict_set key (merged_entry merge (dict_get key result) value) result)
             rest
    end.

(** [_merge_configs(default, loaded)]: [result = default.copy()], then one
    pass over [loaded.items()].  A [loaded] that is no dictionary has no
    [items]; the callers check that before the call. *)
Fixpoint _merge_configs (default : dict) (loaded : pyval) {struct loaded} : dict :=
  match loaded with
  | PDict items => merge_items _merge_configs default items
  | _ => default
  end.

(** [save_config(config)]: an [IOError] is reported and swallowed. *)
Definition save_config_to (path : str) (c : dict) : M unit :=
  try_except (write_json path (PDict c))
    (fun e =>
       match e with
       | OSError _ => print (py "Error saving config: " ++ exn_str e)
       | _ => raise e
       end).

(** [save_config()] with [config=None]. *)
Definition save_config (cm : ConfigManager) : M unit :=
  save_config_to (config_path cm) (config cm).

Definition load_config (path : str) : M dict :=
  ex <- gets (path_exists path) ;;
  if ex : bool then
    try_except
      (loaded <- read_json path ;;
       (* Merge with defaults to ensure all keys exist *)
       match loaded with
       | PDict _ => ret (_merge_configs DEFAULT_CONFIG loaded)
       | _ => raise (AttributeError (py "object has no attribute 'items'"))
       end)
      (fun e =>
         match e with
         | JSONDecodeError _ | OSError _ =>
             print (py "Error loading config: " ++ exn_str e
                      ++ py ". Using defaults.") ;;;
             ret DEFAULT_CONFIG
         | _ => raise e
         end)
  else
    (* Create default config file *)
    save_config_to path DEFAULT_CONFIG ;;;
    ret DEFAULT_CONFIG.

(** [ConfigManager(config_path)]; [home] is [Path.home()].  A path given
    is taken as [pathlib] would write it ([Path p = p]). *)
Definition ConfigManager_init (home : str) (path : option str) : M ConfigManager :=
  let '(dir, path) :=
    match path with
    | None =>
        let dir := path_join home (py ".sign_generator") in
        (dir, path_join dir (py "config.json"))
    | Some p => (path_parent p, p)
    end in
  mkdir_p dir ;;;
  c <- load_config path ;;
  ret {| config_dir := dir; config_path := path; config := c |}.

(** [key_path.split('.')]. *)
Fixpoint split_dots (s : str) : list str :=
  match s with
  | [] => [[]]
  | c :: s' =>
      if char_eqb c 46%N then [] :: split_dots s'
      else match split_dots s' with
           | k :: ks => (c :: k) :: ks
           | [] => [[c]]
           end
  end.

(** [get(key_path, default)]: walk the keys, falling back to [default] as
    soon as one is missing or the value is no dictionary. *)
Fixpoint get_keys (keys : list str) (value default : pyval) : pyval :=
  match keys with
  | [] => value
  | key :: keys' =>
      match value with
      | PDict d =>
          match dict_get key d with
          | Some v => get_keys keys' v default
          | None => default
          end
      | _ => default
      end
  end.

Definition get (cm : ConfigManager) (key_path : str) (default : pyval) : pyval :=
  get_keys (split_dots key_path) (PDict (config cm)) default.

(** [save_preset(name, settings)].  The item assignment raises when
    [config["presets"]] is no dictionary, before anything is saved. *)
Definition save_preset (cm : ConfigManager) (name : str) (settings : dict)
  : M ConfigManager :=
  let c := config cm in
  let c := if negb (dict_mem (py "presets") c)
           then dict_set (py "presets") (PDict []) c else c in
  match dict_get (py "presets") c with
  | Some (PDict presets) =>
      let cm' :=
        set_config cm
          (dict_set (py "presets") (PDict (dict_set name (PDict settings) presets)) c) in
      save_config cm' ;;;
      ret cm'
  | _ => raise (TypeError (py "object does not support item assignment"))
  end.

(** [load_preset(name)]: [self.config.get("presets", {}).get(name)]; a
    missing preset is [None]. *)
Definition load_preset (cm : ConfigManager) (name : str) : result pyval :=
  match dict_get (py "presets") (config cm) with
  | None => Ok PNone
  | Some (PDict presets) =>
      match dict_get name presets with
      | Some v => Ok v
      | None => Ok PNone
      end
  | Some _ => Raise (AttributeError (py "object has no attribute 'get'"))
  end.

(** [config["presets"]] is missing or a dictionary: the state in which the
    item assignment of [save_preset] is possible. *)
Definition presets_assignable (c : dict) : Prop :=
  match dict_get (py "presets") c with
  | None | Some (PDict _) => True
  | Some _ => False
  end.

(** [get_presets()]. *)
Definition get_presets (cm : ConfigManager) : pyval :=
  match dict_get (py "presets") (config cm) with
  | None => PDict []
  | Some v => v
  end.

(** [SignValidator(config)]: the ranges come from the configuration, with
    the defaults of the source as fall-backs.  [None] when an entry is no
    number: the ranges of the embedding are numbers. *)
Definition get_num (cm : ConfigManager) (key_path : string) (default : num)
  : option num :=
  match get cm (py key_path) (PNum default) with
  | PNum n => Some n
  | _ => None
  end.

Definition get_range (cm : ConfigManager) (kmin kmax : string) (dmin dmax : num)
  : option (num * num) :=
  match get_num cm kmin dmin, get_num cm kmax dmax with
  | Some lo, Some hi => Some (lo, hi)
  | _, _ => None
  end.

Definition SignValidator_init (cfg : option ConfigManager) : option SignValidator :=
  match cfg with
  | Some cm =>
      match get_range cm "validation.width_min" "validation.width_max"
              (Int 10) (Int 500),
            get_range cm "validation.height_min" "validation.height_max"
              (Int 5) (Int 200),
            get_range cm "validation.font_size_min" "validation.font_size_max"
              (Int 5) (Int 50),
            get_range cm "validation.thickness_min" "validation.thickness_max"
              (Float 0.2) (Float 5.0) with
      | Some w, Some h, Some f, Some t =>
          Some {| width_range := w; height_range := h;
                  font_size_range := f; thickness_range := t |}
      | _, _, _, _ => None
      end
  | None => Some default_validator
  end.

End Config.
Export Config.

(* ================================================================== *)
(** * The CAD kernel, as far as the program talks to it *)
(* ================================================================== *)

(** A kernel call returns or fails with the text of its exception. *)
Inductive kernel (A : Type) : Type :=
| Done (a : A)
| Failed (msg : str).

Arguments Done {A} a.
Arguments Failed {A} msg.

Definition of_kernel {A} (k : kernel A) : result A :=
  match k with
  | Done a => Ok a
  | Failed msg => Raise (KernelError msg)
  end.

(** The CadQuery calls of [sign_generator.py].  Geometry is opaque; only the
    exporter touches the world. *)
Class CadKernel : Type := {
  Workplane : Type;
  (** [cq.Workplane("XY")[.workplane(offset=o)].rect(w, h).extrude(t)] *)
  cq_extrude_rect : option num -> num -> num -> num -> kernel Workplane;
  (** [wp.edges("|Z").fillet(r)] *)
  cq_fillet : Workplane -> float -> kernel Workplane;
  (** [wp.faces(">Z").workplane().text(text, size, -depth, font=family,
       halign="center", valign="center")] *)
  cq_text_cut : Workplane -> str -> float -> float -> str -> kernel Workplane;
  (** [base.union(top)] *)
  cq_union : Workplane -> Workplane -> kernel Workplane;
  (** [wp.val() is not None] *)
  cq_val : Workplane -> kernel bool;
  (** [cq.exporters.export(wp, path)] *)
  cq_export : Workplane -> str -> world -> kernel unit * world
}.

(* ================================================================== *)
(** * sign_generator.py: generation and export *)
(* ================================================================== *)

Module Generator.

Local Open Scope float_scope.
Local Open Scope py_scope.

Record SignGenerator : Type := mk_SignGenerator {
  output_dir : str;
  validator : SignValidator;
  corner_radius : float;
  default_font : str
}.

(** [SignGenerator(output_dir, debug)], with the logger in place: the
    module keeps one logger for the process, which [main] has set up by the
    time it makes the generator, so that [get_logger] here only hands it
    back. *)
Definition SignGenerator_init (out : str) (debug : bool) : M SignGenerator :=
  let output_dir := Path out in
  mkdir_p output_dir ;;;
  ret {| output_dir := output_dir;
         validator := default_validator;
         (* Default parameters *)
         corner_radius := 2.0;
         default_font := py "Arial" |}.

(** Truth value of a number: [if font_size:]. *)
Definition num_truthy (n : num) : bool := negb (num_is_zero n).

(** [font_size or 12]. *)
Definition or_12 (font_size : option num) : num :=
  match font_size with
  | Some n => if num_truthy n then n else Int 12
  | None => Int 12
  end.

(** [min] and [max] of two floats, as the builtins order their arguments. *)
Definition fmin (a b : float) : float := if b <? a then b else a.
Definition fmax (a b : float) : float := if a <? b then b else a.

(** Font-specific width factors *)
Definition font_widths : list (str * float) :=
  [ (py "Impact", 0.45);
    (py "Arial", 0.55);
    (py "Arial Black", 0.65);
    (py "Helvetica", 0.55);
    (py "Verdana", 0.65);
    (py "Tahoma", 0.60);
    (py "Trebuchet MS", 0.58);
    (py "Gill Sans", 0.52);
    (py "Futura", 0.60) ].

Definition _calculate_auto_font_size (text : str) (width height : num)
    (family : str) (heaviness : Z) : result float :=
  let width_factor :=
    match assoc_get family font_widths with
    | Some f => f
    | None => 0.55
    end in
  (* Adjust for heaviness *)
  let width_factor :=
    width_factor + float_of_Z heaviness / float_of_Z 100 * 0.15 in
  (* Calculate based on width constraint *)
  let max_text_width := to_float width * 0.75 in
  let divisor := float_of_Z (len text) * width_factor in
  if divisor =? 0 then Raise (ZeroDivisionError (py "float division by zero"))
  else
    let font_size_width := max_text_width / divisor in
    (* Calculate based on height constraint *)
    let font_size_height := to_float height * 0.6 in
    (* Use the smaller to ensure fit *)
    let font_size := fmin font_size_width font_size_height in
    (* Clamp to reasonable range *)
    Ok (fmax 5.0 (fmin font_size 50.0)).

Section WithKernel.

Context {FF : FloatFormat} {K : CadKernel}.

Definition _validate_parameters (g : SignGenerator) (text : str)
    (width height : num) (font_size : option num) (heaviness : Z)
    (bottom_thickness top_thickness : num) (auto_size : bool) : M unit :=
  let '(is_valid, errors, warnings) :=
    pre_validate_all (validator g) text width height (or_12 font_size)
      heaviness bottom_thickness top_thickness auto_size in
  (* Log warnings *)
  fold_right (fun warning k => log WARNING warning ;;; k) (ret tt) warnings ;;;
  (* Raise exception for errors *)
  if negb is_valid then
    raise (ValidationError (py "parameters") (join (py "; ") errors) None)
  else
    (* Check if text will cut through *)
    match font_size with
    | Some fs =>
        if num_truthy fs then
          r <- lift (will_text_cut_through text fs heaviness width height
                       top_thickness) ;;
          let '(will_cut, confidence) := r in
          if will_cut && (70 <? confidence)%Z then
            log WARNING
              (py "Text may cut through top layer (confidence: "
                 ++ str_of_Z confidence ++ py "%). "
                 ++ py "Consider reducing font size or heaviness.")
          else ret tt
        else ret tt
    | None => ret tt
    end.

(** [_validate_geometry]: any exception of [val()] counts as invalid. *)
Definition _validate_geometry (workpiece : Workplane) : bool :=
  match cq_val workpiece with
  | Done b => b
  | Failed _ => false
  end.

Definition _create_base_layer (g : SignGenerator) (width height thickness : num)
  : result Workplane :=
  rbind (of_kernel (cq_extrude_rect None width height thickness)) (fun base =>
  if 0 <? corner_radius g
  then of_kernel (cq_fillet base (corner_radius g))
  else Ok base).

Definition _apply_text_cutout (workpiece : Workplane) (text family : str)
    (font_size : float) (font_params : font_params) (thickness : num)
  : result Workplane :=
  let cut_depth :=
    to_float thickness * cut_depth_multiplier font_params * 1.1 in
  of_kernel (cq_text_cut workpiece text font_size cut_depth family).

Definition _create_top_layer (g : SignGenerator)
    (width height bottom_thickness top_thickness : num) (text family : str)
    (font_size : float) (font_params : font_params) : result Workplane :=
  (* Create top layer base *)
  rbind (of_kernel (cq_extrude_rect (Some bottom_thickness) width height
                      top_thickness)) (fun top =>
  rbind (if 0 <? corner_radius g
         then of_kernel (cq_fillet top (corner_radius g))
         else Ok top) (fun top =>
  (* Apply text cutout *)
  rbind (_apply_text_cutout top text family font_size font_params
           top_thickness) (fun top =>
  (* Validate result *)
  if negb (_validate_geometry top) then
    Raise (GeometryError (py "top layer creation")
             (py "Text cutout may have removed all material"))
  else Ok top))).

Definition _create_combined_preview (base top : Workplane) : M Workplane :=
  try_except (lift (of_kernel (cq_union base top)))
    (fun e =>
       log WARNING (py "Union operation failed: " ++ exn_str e) ;;;
       ret base).  (* Return base as fallback *)

(** The dictionary [generate_sign] returns and [export_stl] walks: layer
    name to model, in insertion order; a value may be [None]. *)
Definition models := list (str * option Workplane).

Definition generate_sign (g : SignGenerator) (text : str) (width height : num)
    (family : str) (font_size : option num) (heaviness : Z)
    (bottom_thickness top_thickness : num) (auto_size validate : bool)
  : M models :=
  log INFO (py "Generating sign: '" ++ text ++ py "' (" ++ num_str width
              ++ py "x" ++ num_str height ++ py "mm)") ;;;
  (* Pre-validation if enabled *)
  (if validate then
     _validate_parameters g text width height font_size heaviness
       bottom_thickness top_thickness auto_size
   else ret tt) ;;;
  (* Calculate font size *)
  font_size <-
    match (if auto_size then None else font_size) with
    | None =>
        fs <- lift (_calculate_auto_font_size text width height family
                      heaviness) ;;
        log DEBUG (py "Auto-calculated font size: " ++ format_fixed 1 fs
                     ++ py "mm") ;;;
        ret (Float fs)
    | Some fs => ret fs
    end ;;
  (* Apply heaviness adjustments *)
  let font_params := _calculate_font_params heaviness family in
  let adjusted_font_size := to_float font_size * size_multiplier font_params in
  try_except
    ((* Generate base layer *)
     base_layer <- lift (_create_base_layer g width height bottom_thickness) ;;
     (* Generate top layer with text cutout *)
     top_layer <- lift (_create_top_layer g width height bottom_thickness
                          top_thickness text family adjusted_font_size
                          font_params) ;;
     (* Create combined preview *)
     combined <- _create_combined_preview base_layer top_layer ;;
     log INFO (py "Sign generation successful") ;;;
     ret [ (py "base", Some base_layer);
           (py "top", Some top_layer);
           (py "combined", Some combined) ])
    (fun e =>
       log ERROR (py "Sign generation failed: " ++ exn_str e) ;;;
       raise (GeometryError (py "sign generation") (exn_str e))).

Definition _export_single_stl (model : Workplane) (filepath layer_name : str)
  : M bool :=
  try_except
    ((* Validate geometry first *)
     (if negb (_validate_geometry model) then
        log ERROR (layer_name ++ py " has invalid geometry") ;;;
        raise (STLExportError layer_name (py "Invalid geometry")
                 [py "Check text size"; py "Reduce heaviness";
                  py "Increase layer thickness"])
      else ret tt) ;;;
     (* Attempt export *)
     (fun w => let '(r, w') := cq_export model filepath w in (of_kernel r, w')) ;;;
     (* Verify file was created and has content *)
     ex <- gets (path_exists filepath) ;;
     (if negb ex then
        raise (STLExportError layer_name (py "File not created")
                 [py "Try different parameters"; py "Check disk space"])
      else ret tt) ;;;
     st <- gets (stat_size filepath) ;;
     size <- match st with
             | Some n => ret n
             | None => raise (OSError (py "No such file or directory: "
                                         ++ filepath))
             end ;;
     (if (size =? 0)%N then
        unlink filepath ;;;  (* Remove empty file *)
        raise (STLExportError layer_name (py "Empty file created")
                 [py "Text may have cut through entirely";
                  py "Adjust parameters"])
      else ret tt) ;;;
     log INFO (py "Successfully exported: " ++ path_name filepath) ;;;
     ret true)
    (fun e =>
       match e with
       | STLExportError _ _ _ => raise e
       | _ =>
           log ERROR (py "Export failed for " ++ layer_name ++ py ": "
                        ++ exn_str e) ;;;
           raise (STLExportError layer_name (exn_str e)
                    [py "Check parameters"; py "Try simpler text"])
       end).

(** [metadata.get('heaviness', 50)], as the number the comparisons of
    [_get_weight_label] need. *)
Definition metadata_heaviness (metadata : option dict) : result num :=
  match metadata with
  | None => Ok (Int 50)
  | Some d =>
      match dict_get (py "heaviness") d with
      | None => Ok (Int 50)
      | Some (PNum n) => Ok n
      | Some (PBool b) => Ok (Int (if b then 1 else 0))
      | Some _ => Raise (TypeError (py "'<=' not supported"))
      end
  end.

(** The file name of a layer; [None] is the [else: continue]. *)
Definition layer_filename (safe_name weight_label layer_name : str)
  : option str :=
  if str_eqb layer_name (py "base") then
    Some (safe_name ++ py "_" ++ weight_label ++ py "_bottom_black.stl")
  else if str_eqb layer_name (py "top") then
    Some (safe_name ++ py "_" ++ weight_label ++ py "_top_yellow.stl")
  else if str_eqb layer_name (py "combined") then
    Some (safe_name ++ py "_" ++ weight_label ++ py "_combined_preview.stl")
  else None.

(** The [for layer_name, model in models.items()] loop. *)
Fixpoint export_loop (g : SignGenerator) (safe_name weight_label : str)
    (items : models) (created_files : list str) : M (list str) :=
  match items with
  | [] => ret created_files
  | (layer_name, model) :: rest =>
      match model, layer_filename safe_name weight_label layer_name with
      | Some model, Some filename =>
          let filepath := path_div (output_dir g) filename in
          (* Export with validation *)
          success <- _export_single_stl model filepath layer_name ;;
          export_loop g safe_name weight_label rest
            (if success : bool then created_files ++ [filepath]
             else created_files)
      | _, _ => export_loop g safe_name weight_label rest created_files
      end
  end.

Section ExportStl.

(** [str.isalnum], which [_sanitize_filename] consults. *)
Variable isalnum : char -> bool.

Definition export_stl (g : SignGenerator) (m : models)
    (base_filename : str) (metadata : option dict) : M (list str) :=
  (* Determine weight label *)
  heaviness <- lift (metadata_heaviness metadata) ;;
  let weight_label := _get_weight_label heaviness in
  (* Clean filename *)
  let safe_name := _sanitize_filename isalnum base_filename in
  (* Export each model *)
  export_loop g safe_name weight_label m [].

End ExportStl.

End WithKernel.

End Generator.
Export Generator.

(* ================================================================== *)
(** * CPython's float printers, as an instance of [FloatFormat] *)
(* ================================================================== *)

Module PyFormat.

(** [n] in decimal, left-padded with zeros to [width] characters. *)
Definition zeros (k : nat) : str := repeat 48%N k.

Definition pad_left (width : nat) (s : str) : str :=
  zeros (width - List.length s) ++ s.

Definition sign_str (s : bool) : str := if s then [HYPHEN] else [].

(** [format(x, '.Nf')]: the exact value rounded half-even to [n] decimals. *)
Definition py_format_fixed (n : nat) (x : float) : str :=
  let tail z :=
    let p := 10 ^ Z.of_nat n in
    str_of_Z (z / p)
      ++ match n with
         | O => []
         | _ => py "." ++ pad_left n (str_of_Z (z mod p))
         end in
  match Prim2SF x with
  | S754_nan => py "nan"
  | S754_infinity s => sign_str s ++ py "inf"
  | S754_zero s => sign_str s ++ tail 0
  | S754_finite s m e =>
      let p := 10 ^ Z.of_nat n in
      let z := if 0 <=? e then Zpos m * 2 ^ e * p
               else div_half_even (Zpos m * p) (2 ^ (- e)) in
      sign_str s ++ tail z
  end.

(** The decimal [digits * 10^exp10] read back as the nearest float. *)
Definition float_of_decimal (digits : positive) (exp10 : Z) : float :=
  if 0 <=? exp10 then float_of_Z (Zpos digits * 10 ^ exp10)
  else SF2Prim (SFdiv prec emax (S754_finite false digits 0)
                                (S754_finite false (Z.to_pos (10 ^ (- exp10))) 0)).

(** [m * 2^e * 10^k], rounded half-even to an integer. *)
Definition scaled (m : positive) (e k : Z) : Z :=
  let num := Zpos m * (if 0 <=? e then 2 ^ e else 1)
             * (if 0 <=? k then 10 ^ k else 1) in
  let den := (if 0 <=? e then 1 else 2 ^ (- e))
             * (if 0 <=? k then 1 else 10 ^ (- k)) in
  div_half_even num den.

(** The position of the decimal point: [10^(decpt-1) <= m * 2^e < 10^decpt]. *)
Fixpoint decpt_down (fuel : nat) (m : positive) (e : Z) (j : Z) : Z :=
  match fuel with
  | O => 1 - j
  | S fuel' =>
      if 2 ^ (- e) <=? Zpos m * 10 ^ j then 1 - j
      else decpt_down fuel' m e (j + 1)
  end.

Definition decpt_of (m : positive) (e : Z) : Z :=
  if 0 <=? e then Z.of_nat (List.length (str_of_Z (Zpos m * 2 ^ e)))
  else if 2 ^ (- e) <=? Zpos m
       then Z.of_nat (List.length (str_of_Z (Zpos m / 2 ^ (- e))))
       else decpt_down 400 m e 0.

(** The fewest significant digits [k] whose rounding [d] of [x = m * 2^e]
    reads back as [x]: ([d], [k]). *)
Fixpoint shortest (fuel : nat) (k : Z) (x : float) (m : positive) (e dp : Z)
  : Z * Z :=
  let d := scaled m e (k - dp) in
  match fuel with
  | O => (d, k)
  | S fuel' =>
      if PrimFloat.eqb (float_of_decimal (Z.to_pos d) (dp - k)) x then (d, k)
      else shortest fuel' (k + 1) x m e dp
  end.

(** Drop trailing zeros of a digit string. *)
Definition rstrip_zeros (s : str) : str :=
  rev ((fix drop (l : str) : str :=
          match l with
          | c :: l' => if char_eqb c 48%N then drop l' else l
          | [] => []
          end) (rev s)).

(** [repr(x)]: the shortest round-tripping digits, in fixed notation when
    [-4 < decpt <= 16] and in exponent notation otherwise. *)
Definition py_repr_float (x : float) : str :=
  match Prim2SF x with
  | S754_nan => py "nan"
  | S754_infinity s => sign_str s ++ py "inf"
  | S754_zero s => sign_str s ++ py "0.0"
  | S754_finite s m e =>
      let dp0 := decpt_of m e in
      let '(d, k) := shortest 16 1 (PrimFloat.abs x) m e dp0 in
      let all := str_of_Z d in
      (* a carry in the rounding makes the digit string one longer *)
      let dp := dp0 + (Z.of_nat (List.length all) - k) in
      let ds := rstrip_zeros all in
      let nd := Z.of_nat (List.length ds) in
      sign_str s ++
      if (-4 <? dp) && (dp <=? 16) then
        if dp <=? 0 then py "0." ++ zeros (Z.to_nat (- dp)) ++ ds
        else if nd <=? dp then ds ++ zeros (Z.to_nat (dp - nd)) ++ py ".0"
        else firstn (Z.to_nat dp) ds ++ py "." ++ skipn (Z.to_nat dp) ds
      else
        let ex := dp - 1 in
        firstn 1 ds
          ++ match skipn 1 ds with [] => [] | r => py "." ++ r end
          ++ py "e" ++ (if ex <? 0 then py "-" else py "+")
          ++ pad_left 2 (str_of_Z (Z.abs ex))
  end.

(** CPython's printers. *)
#[export] Instance CPythonFormat : FloatFormat :=
  {| repr_float := py_repr_float; format_fixed := py_format_fixed |}.

End PyFormat.
Export PyFormat.

(* ================================================================== *)
(** * cli.py *)
(* ================================================================== *)

Module Cli.

Local Open Scope py_scope.

(** The namespace [parser.parse_args()] returns. *)
Record args : Type := mk_args {
  a_text : str;
  a_width : num;
  a_height : num;
  a_font : str;
  a_font_size : option num;
  a_heaviness : Z;
  a_bottom_thickness : num;
  a_top_thickness : num;
  a_output_dir : str;
  a_no_auto_size : bool;
  a_debug : bool
}.

(** How a call of [main] ends. *)
Inductive outcome : Type :=
| Returned                    (* fell off the end *)
| Exited (code : Z)           (* [sys.exit(code)] *)
| Uncaught (e : exn).         (* an exception nobody handled *)


Definition CHECK_MARK : char := 9989%N.   (* U+2705 *)
Definition CROSS_MARK : char := 10060%N.  (* U+274C *)

Section WithKernel.

Context {FF : FloatFormat} {K : CadKernel}.
Variable isalnum : char -> bool.

(** The [generate_sign] call of [main]. *)
Definition main_generate (generator : SignGenerator) (a : args) : M models :=
  generate_sign generator (a_text a) (a_width a) (a_height a)
    (a_font a) (a_font_size a) (a_heaviness a)
    (a_bottom_thickness a) (a_top_thickness a)
    (negb (a_no_auto_size a)
     && match a_font_size a with None => true | Some _ => false end)
    true.

Definition main_metadata (a : args) : dict :=
  [ (py "heaviness", PNum (Int (a_heaviness a)));
    (py "font", PStr (a_font a));
    (py "width", PNum (a_width a));
    (py "height", PNum (a_height a)) ].

(** The [export_stl] call of [main]. *)
Definition main_export (generator : SignGenerator) (a : args) (m : models)
  : M (list str) :=
  export_stl isalnum generator m (a_text a) (Some (main_metadata a)).

(** [print] once per created file. *)
Definition print_files (created_files : list str) : M unit :=
  fold_right (fun file k => print (py "  - " ++ path_name file) ;;; k)
    (ret tt) created_files.

(** The body of the [try] block. *)
Definition main_try (generator : SignGenerator) (a : args) : M unit :=
  (* Generate sign *)
  log INFO (py "Generating sign: '" ++ a_text a ++ py "'") ;;;
  models <- main_generate generator a ;;
  (* Export STL files *)
  created_files <- main_export generator a models ;;
  (* Report success *)
  print ([NL; CHECK_MARK] ++ py " Successfully generated "
           ++ str_of_Z (Z.of_nat (List.length created_files))
           ++ py " files:") ;;;
  print_files created_files ;;;
  print ([NL] ++ py "Files saved to: " ++ output_dir generator).

(** What the [except] block prints on [stderr]. *)
Definition error_line (e : exn) : str :=
  [NL; CROSS_MARK] ++ py " Error: " ++ exn_str e.

(** [main()] from the point where the arguments are parsed and
    [get_logger(args.debug)] has set up the logger. *)
Definition main (a : args) (w : world) : outcome * world :=
  (* Create generator *)
  match SignGenerator_init (a_output_dir a) (a_debug a) w with
  | (Raise e, w) => (Uncaught e, w)
  | (Ok generator, w) =>
      match main_try generator a w with
      | (Ok _, w) => (Returned, w)
      | (Raise e, w) =>
          let w := set_logs w (logs w ++ [(ERROR, py "Generation failed: "
                                                   ++ exn_str e)]) in
          let w := set_stderr w (stderr w ++ [error_line e]) in
          (Exited 1, w)
      end
  end.

End WithKernel.

End Cli.
Export Cli.

(* ================================================================== *)
(** * A toy kernel, to run the embedding on concrete inputs *)
(* ================================================================== *)

Module Sim.

(** A simulated workplane: whether [val()] yields a solid, and how many
    bytes its mesh exports to. *)
Record sim_wp : Type := mk_sim_wp {
  sw_valid : bool;
  sw_mesh : N
}.

Definition sim_export (wp : sim_wp) (path : str) (w : world)
  : kernel unit * world :=
  if str_mem path (unwritable w) then (Failed (py "Permission denied"), w)
  else (Done tt, set_files w (assoc_set path (Bytes (sw_mesh wp)) (files w))).

(** Every operation succeeds; cutting a text costs the solid a byte per
    character. *)
#[export] Instance SimKernel : CadKernel :=
  {| Workplane := sim_wp;
     cq_extrude_rect := fun _ _ _ _ => Done (mk_sim_wp true 684);
     cq_fillet := fun wp _ => Done wp;
     cq_text_cut := fun wp text _ _ _ =>
       Done (mk_sim_wp (sw_valid wp) (sw_mesh wp + N.of_nat (List.length text)));
     cq_union := fun a b =>
       Done (mk_sim_wp (sw_valid a && sw_valid b) (sw_mesh a + sw_mesh b));
     cq_val := fun wp => Done (sw_valid wp);
     cq_export := sim_export |}.

(** A kernel in which nothing can be built. *)
Definition BrokenKernel : CadKernel :=
  {| Workplane := sim_wp;
     cq_extrude_rect := fun _ _ _ _ => Failed (py "BRep_API: command not done");
     cq_fillet := fun wp _ => Done wp;
     cq_text_cut := fun wp _ _ _ _ => Done wp;
     cq_union := fun a _ => Done a;
     cq_val := fun wp => Done (sw_valid wp);
     cq_export := sim_export |}.

(** An empty machine with a current directory. *)
Definition empty_world : world :=
  {| dirs := [py "."]; files := []; unwritable := [];
     stdout := []; stderr := []; logs := [] |}.

(** [signgen TEST] with every flag at its default. *)
Definition default_args (text : str) : args :=
  {| a_text := text;
     a_width := Int 100;
     a_height := Int 25;
     a_font := py "Arial";
     a_font_size := None;
     a_heaviness := 50;
     a_bottom_thickness := Float 1.0%float;
     a_top_thickness := Float 1.0%float;
     a_output_dir := py "output";
     a_no_auto_size := false;
     a_debug := false |}.

(** The generator [SignGenerator("output")] makes on the empty machine, and
    the machine it leaves. *)
Definition sim_generator : SignGenerator :=
  {| output_dir := py "output";
     validator := default_validator;
     corner_radius := 2.0%float;
     default_font := py "Arial" |}.

Definition sim_world : world :=
  {| dirs := [py "."; py "output"]; files := []; unwritable := [];
     stdout := []; stderr := []; logs := [] |}.

(** A manager on a fresh machine, as [ConfigManager(path)] leaves it. *)
Definition fresh_manager : ConfigManager :=
  mk_ConfigManager (py "cfg") (py "cfg/config.json") DEFAULT_CONFIG.

End Sim.
Export Sim.

(* ================================================================== *)
(** * config_manager.py: the other operations *)
(* ================================================================== *)

Module ConfigOps.

Local Open Scope py_scope.

(** [keys[:-1]] and [keys[-1]] of [key_path.split('.')], which is never
    empty. *)
Definition init_last (keys : list str) : list str * str :=
  (removelast keys, last keys []).

(** The walk of [set]: a missing key gets an empty dictionary, and the last
    key is assigned.  Stepping into, or assigning into, a value that is no
    dictionary is a [TypeError], whatever the value. *)
Fixpoint set_walk (init : list str) (last : str) (value : pyval) (c : dict)
  : result dict :=
  match init with
  | [] => Ok (dict_set last value c)
  | key :: init' =>
      let c := if negb (dict_mem key c) then dict_set key (PDict []) c else c in
      match dict_get key c with
      | Some (PDict sub) =>
          rbind (set_walk init' last value sub)
                (fun sub' => Ok (dict_set key (PDict sub') c))
      | _ => Raise (TypeError (py "object does not support item assignment"))
      end
  end.

(** [set(key_path, value, save)]. *)
Definition set (cm : ConfigManager) (key_path : str) (value : pyval)
    (save : bool) : M ConfigManager :=
  let '(init, last) := init_last (split_dots key_path) in
  c <- lift (set_walk init last value (config cm)) ;;
  let cm' := set_config cm c in
  (if save then save_config cm' else ret tt) ;;;
  ret cm'.

(** [v == filepath] for an element of the recent list. *)
Definition is_str (v : pyval) (s : str) : bool :=
  match v with
  | PStr t => str_eqb t s
  | _ => false
  end.

(** [if s in l: l.remove(s)]: the first equal element goes. *)
Fixpoint remove_first (s : str) (l : list pyval) : list pyval :=
  match l with
  | [] => []
  | v :: l' => if is_str v s then l' else v :: remove_first s l'
  end.

(** [l[:n]]; a negative [n] counts from the end. *)
Definition slice_to (n : Z) (l : list pyval) : list pyval :=
  if (0 <=? n)%Z then firstn (Z.to_nat n) l
  else firstn (List.length l - Z.to_nat (- n)) l.

(** [add_recent_file(filepath, max_recent)].  Only a list has [remove] and
    [insert]. *)
Definition add_recent_file (cm : ConfigManager) (filepath : str)
    (max_recent : Z) : M ConfigManager :=
  let recent :=
    match dict_get (py "recent_files") (config cm) with
    | Some v => v
    | None => PList []
    end in
  match recent with
  | PList l =>
      let recent := PStr filepath :: remove_first filepath l in
      let cm' :=
        set_config cm
          (dict_set (py "recent_files") (PList (slice_to max_recent recent))
             (config cm)) in
      save_config cm' ;;;
      ret cm'
  | PStr _ | PDict _ =>
      raise (AttributeError (py "object has no attribute 'insert'"))
  | _ => raise (TypeError (py "argument is not iterable"))
  end.

(** [export_config(filepath)]. *)
Definition export_config (cm : ConfigManager) (filepath : str) : M bool :=
  try_except (write_json filepath (PDict (config cm)) ;;; ret true)
    (fun e =>
       match e with
       | OSError _ => ret false
       | _ => raise e
       end).

(** [import_config(filepath)]: the flag it returns and the manager it
    leaves. *)
Definition import_config (cm : ConfigManager) (filepath : str)
  : M (bool * ConfigManager) :=
  try_except
    (imported <- read_json filepath ;;
     match imported with
     | PDict _ =>
         let cm' := set_config cm (_merge_configs DEFAULT_CONFIG imported) in
         save_config cm' ;;;
         ret (true, cm')
     | _ => raise (AttributeError (py "object has no attribute 'items'"))
     end)
    (fun e =>
       match e with
       | JSONDecodeError _ | OSError _ => ret (false, cm)
       | _ => raise e
       end).

End ConfigOps.
Export ConfigOps.

(* ================================================================== *)
(** * Words for the statements below *)
(* ================================================================== *)

Module Words.

(** [s.lower()] on ASCII letters. *)
Definition ascii_lower (s : str) : str :=
  List.map (fun c => if ((65 <=? c) && (c <=? 90))%N then (c + 32)%N else c) s.

(** An [int] that [float()] takes over unchanged.  Beyond these CPython's
    conversion rounds and, from 2^1024 on, raises [OverflowError], and its
    comparison of an [int] with a [float] stays exact where [to_float]
    rounds. *)
Definition exact_int (z : Z) : Prop := (Z.abs z <= 2 ^ 53)%Z.

(** A number that is a [float], or an [int] of that kind. *)
Definition exact_num (n : num) : Prop :=
  match n with
  | Int z => exact_int z
  | Float _ => True
  end.

Definition exact_opt (n : option num) : Prop :=
  match n with
  | Some n => exact_num n
  | None => True
  end.

(** One component of a path: no separator in it, not empty, not ["."]. *)
Definition component (n : str) : Prop :=
  ~ In SLASH n /\ n <> [] /\ n <> py ".".

(** What [Path(out) / name] puts before a [name] of one component. *)
Definition dir_prefix (out : str) : str :=
  path_root out ++ List.concat (List.map (fun p => p ++ [SLASH]) (path_parts out)).


(** What making directories does to the machine: directories are added,
    nothing else changes. *)
Definition dirs_added (w w' : world) : Prop :=
  files w' = files w /\ unwritable w' = unwritable w
  /\ stdout w' = stdout w /\ stderr w' = stderr w /\ logs w' = logs w
  /\ forall q, is_dir q w = true -> is_dir q w' = true.

(** The state outside the log: what a computation that only logs keeps. *)
Definition same_but_logs (w w' : world) : Prop :=
  dirs w' = dirs w /\ files w' = files w /\ unwritable w' = unwritable w
  /\ stdout w' = stdout w /\ stderr w' = stderr w.

(** A computation that only logs. *)
Definition only_logs {A} (m : M A) : Prop :=
  forall w r w', m w = (r, w') -> same_but_logs w w'.

(** An exception [generate_sign] lets out. *)
Definition generation_error (e : exn) : Prop :=
  match e with
  | ValidationError _ _ _ | ZeroDivisionError _ => True
  | GeometryError operation _ => operation = py "sign generation"
  | _ => False
  end.

(** A model [export_stl] exports: not [None], under a layer name it knows. *)
Definition exportable {W : Type} (item : str * option W) : bool :=
  match snd item with
  | Some _ =>
      str_eqb (fst item) (py "base") || str_eqb (fst item) (py "top")
      || str_eqb (fst item) (py "combined")
  | None => false
  end.

(** The width factors [_calculate_auto_font_size] can start from: the table's
    and the fall-back. *)
Definition base_width_factors : list float :=
  [0.45; 0.55; 0.65; 0.60; 0.58; 0.52]%float.

(** The divisor of [_calculate_auto_font_size] for a text of [n] characters. *)
Definition auto_divisor (n : Z) (base : float) (heaviness : Z) : float :=
  (float_of_Z n * (base + float_of_Z heaviness / float_of_Z 100 * 0.15))%float.

(** No key occurs twice, as a check. *)
Fixpoint keys_distinct (l : list str) : bool :=
  match l with
  | [] => true
  | k :: rest => negb (str_mem k rest) && keys_distinct rest
  end.

(** The integers from [lo] to [lo + n - 1]. *)
Definition Zrange (lo : Z) (n : nat) : list Z :=
  List.map (fun k => (lo + Z.of_nat k)%Z) (seq 0 n).

(** The aspect-ratio test of [validate_dimensions] on integer sizes. *)
Definition aspect_ok (w h : Z) : bool :=
  let r := (float_of_Z w / float_of_Z h)%float in
  negb ((20 <? r)%float || (r <? 0.05)%float).

End Words.
Export Words.

(* ================================================================== *)
(** * What can happen to one export, named *)
(* ================================================================== *)

Module ExportEvents.

Section WithKernel.

Context {K : CadKernel}.

(** The export call fails: the kernel's exporter raises. *)
Definition export_fails (model : Workplane) (filepath : str) (w : world) : Prop :=
  exists msg w1, cq_export model filepath w = (Failed msg, w1).

(** The export call returns and there is nothing at the path. *)
Definition no_file (model : Workplane) (filepath : str) (w : world) : Prop :=
  exists w1, cq_export model filepath w = (Done tt, w1)
             /\ path_exists filepath w1 = false.

(** The export call returns and what is at the path has size zero. *)
Definition zero_byte (model : Workplane) (filepath : str) (w : world) : Prop :=
  exists w1, cq_export model filepath w = (Done tt, w1)
             /\ path_exists filepath w1 = true
             /\ stat_size filepath w1 = Some 0%N.

(** A run ends in an [STLExportError]. *)
Definition raises_STLExportError {A} (r : result A * world) : Prop :=
  exists e, fst r = Raise e /\ is_STLExportError e = true.

(** The three failures of the error taxonomy, taken as the only ones. *)
Definition raises_exactly_on_export_failures (model : Workplane)
    (filepath layer_name : str) (w : world) : Prop :=
  raises_STLExportError (_export_single_stl model filepath layer_name w)
  <-> (export_fails model filepath w \/ no_file model filepath w
       \/ zero_byte model filepath w).

(** The exporter leaves every other path alone. *)
Definition export_frame : Prop :=
  forall model p w r w',
    cq_export model p w = (r, w') ->
    forall q, q <> p ->
      file_at q w' = file_at q w /\ is_dir q w' = is_dir q w.


End WithKernel.

(** Something of positive size is at the path. *)
Definition exported (p : str) (w : world) : Prop :=
  path_exists p w = true /\ exists n, stat_size p w = Some n /\ n <> 0%N.

(** A model whose [val()] is [None] although it has a mesh, and a machine
    on which an earlier run left the output directory. *)
Definition hollow_model : sim_wp := mk_sim_wp false 84.

Definition used_world : world :=
  {| dirs := [py "."; py "output"];
     files := [(py "output/TEST_regular_top_yellow.stl", Bytes 684)];
     unwritable := []; stdout := []; stderr := []; logs := [] |}.

End ExportEvents.
Export ExportEvents.

(* ================================================================== *)
(** * Properties: the heaviness table *)
(* ================================================================== *)

Section FontParamsFacts.

Local Open Scope float_scope.

(** The size multiplier at a heaviness, whatever the family. *)
Lemma size_multiplier_family (h : Z) (f1 f2 : str) :
  size_multiplier (_calculate_font_params h f1)
  = size_multiplier (_calculate_font_params h f2).
Proof.
  unfold _calculate_font_params.
  destruct (h <=? 25)%Z, (h <=? 50)%Z, (h <=? 75)%Z; reflexivity.
Qed.

(** C1 (the code breaks the claim): the size multiplier is not monotone on
    0..100.  The fine adjustment uses [heaviness % 25], which falls back to
    0 at 25, 50, 75 and 100, the last value of each style's range: the
    multiplier at 25 is smaller than at 24, and likewise at the other three
    range ends. *)
Theorem size_multiplier_not_monotone :
  ~ (forall (family : str) (h1 h2 : Z),
        (0 <= h1)%Z -> (h1 <= h2)%Z -> (h2 <= 100)%Z ->
        (size_multiplier (_calculate_font_params h1 family)
         <=? size_multiplier (_calculate_font_params h2 family)) = true).
Proof.
  intro H.
  specialize (H [] 24%Z 25%Z).
  assert (E : (size_multiplier (_calculate_font_params 24 [])
               <=? size_multiplier (_calculate_font_params 25 [])) = false)
    by (vm_compute; reflexivity).
  rewrite H in E by lia.
  discriminate E.
Qed.

(** The four places where the multiplier drops, evaluated. *)
Lemma size_multiplier_drops :
  List.map (fun h => (size_multiplier (_calculate_font_params h [])
                      <? size_multiplier (_calculate_font_params (h - 1) [])))
    [25; 50; 75; 100]%Z
  = [true; true; true; true].
Proof. vm_compute. reflexivity. Qed.

(** Inside a range the multiplier does grow: the slip is at the range
    ends only. *)
Lemma size_multiplier_monotone_elsewhere :
  forallb (fun h =>
             (h mod 25 =? 0)%Z
             || (size_multiplier (_calculate_font_params (h - 1) [])
                 <=? size_multiplier (_calculate_font_params h [])))
    (List.map Z.of_nat (seq 1 100))
  = true.
Proof. vm_compute. reflexivity. Qed.

(** C2: for a heaviness in 0..100 the style label is one of the four
    labels, and which one is decided by the thresholds 25, 50 and 75:
    Light iff h <= 25, Regular iff 25 < h <= 50, Bold iff 50 < h <= 75,
    ExtraBold iff h > 75. *)
Theorem style_by_thresholds (family : str) (h : Z) :
  (0 <= h <= 100)%Z ->
  let s := style (_calculate_font_params h family) in
  (s = py "Light" \/ s = py "Regular" \/ s = py "Bold" \/ s = py "ExtraBold")
  /\ (s = py "Light" <-> (h <= 25)%Z)
  /\ (s = py "Regular" <-> (25 < h <= 50)%Z)
  /\ (s = py "Bold" <-> (50 < h <= 75)%Z)
  /\ (s = py "ExtraBold" <-> (75 < h)%Z).
Proof.
  intros _. unfold _calculate_font_params.
  destruct (Z.leb_spec h 25); [|destruct (Z.leb_spec h 50);
                                 [|destruct (Z.leb_spec h 75)]];
    cbn; repeat split; intros; try lia; try discriminate; auto.
Qed.

Lemma style_by_thresholds_witness :
  (0 <= 60 <= 100)%Z /\ style (_calculate_font_params 60 (py "Arial")) = py "Bold".
Proof.
  split; [lia|].
  apply (style_by_thresholds (py "Arial") 60); lia.
Defined.

(** The file-name label follows the same thresholds. *)
Lemma weight_label_by_thresholds (h : Z) :
  _get_weight_label (Int h)
  = if (h <=? 25)%Z then py "light"
    else if (h <=? 50)%Z then py "regular"
    else if (h <=? 75)%Z then py "bold"
    else py "extrabold".
Proof. reflexivity. Qed.

End FontParamsFacts.

(* ================================================================== *)
(** * Properties: file names *)
(* ================================================================== *)

Section SanitizeFacts.

Variable P : char -> Prop.

Lemma lstrip_Forall (s : str) : Forall P s -> Forall P (lstrip s).
Proof.
  induction 1 as [|c s Hc Hs IH]; cbn; [constructor|].
  destruct (isspace c); [exact IH | constructor; assumption].
Qed.

Lemma rstrip_Forall (s : str) : Forall P s -> Forall P (rstrip s).
Proof.
  intros H. unfold rstrip.
  apply Forall_rev, lstrip_Forall, Forall_rev, H.
Qed.

Lemma strip_Forall (s : str) : Forall P s -> Forall P (strip s).
Proof. intros H. apply rstrip_Forall, lstrip_Forall, H. Qed.

Lemma firstn_Forall (n : nat) (s : str) : Forall P s -> Forall P (firstn n s).
Proof.
  intros H. revert n.
  induction H as [|c s Hc Hs IH]; intros [|n]; cbn; constructor; auto.
Qed.

End SanitizeFacts.

Lemma lstrip_length (s : str) : (List.length (lstrip s) <= List.length s)%nat.
Proof.
  induction s as [|c s IH]; cbn; [lia|].
  destruct (isspace c); cbn; lia.
Qed.

Lemma strip_length (s : str) : (List.length (strip s) <= List.length s)%nat.
Proof.
  unfold strip, rstrip.
  rewrite length_rev.
  etransitivity; [apply lstrip_length|].
  rewrite length_rev. apply lstrip_length.
Qed.

(** What [safe_char] lets through. *)
Lemma safe_char_spec (isalnum : char -> bool) (c : char) :
  let c' := safe_char isalnum c in
  isalnum c' = true \/ c' = SPACE \/ c' = HYPHEN \/ c' = UNDERSCORE.
Proof.
  unfold safe_char. cbn.
  destruct (isalnum c) eqn:Ha; cbn; [left; exact Ha|].
  unfold char_eqb.
  destruct (N.eqb_spec c SPACE); cbn; [auto|].
  destruct (N.eqb_spec c HYPHEN); cbn; [auto|].
  destruct (N.eqb_spec c UNDERSCORE); cbn; auto.
Qed.

(** C10: whatever the text, [_sanitize_filename] returns a non-empty string
    of at most 30 characters, each alphanumeric, a hyphen or an underscore
    and none a space; and it returns "sign" when nothing is left after
    cleaning.  [isalnum] is Python's [str.isalnum], known here by its ASCII
    part. *)
Theorem sanitize_filename_safe (isalnum : char -> bool) (text : str) :
  (forall c, (c < 128)%N -> isalnum c = ascii_isalnum c) ->
  let r := _sanitize_filename isalnum text in
  r <> []
  /\ (List.length r <= 30)%nat
  /\ Forall (fun c => (isalnum c = true \/ c = HYPHEN \/ c = UNDERSCORE)
                      /\ c <> SPACE) r
  /\ (replace_char SPACE UNDERSCORE
        (strip (firstn 30 (List.map (safe_char isalnum) text))) = []
      -> r = py "sign").
Proof.
  intros Hascii. unfold _sanitize_filename.
  set (cut := strip (firstn 30 (List.map (safe_char isalnum) text))).
  assert (Hcut : Forall (fun c => isalnum c = true \/ c = SPACE
                                  \/ c = HYPHEN \/ c = UNDERSCORE) cut).
  { apply strip_Forall, firstn_Forall.
    apply Forall_map, Forall_forall. intros c _. apply safe_char_spec. }
  assert (Hlen : (List.length cut <= 30)%nat).
  { unfold cut. etransitivity; [apply strip_length|]. apply firstn_le_length. }
  assert (Hrep : Forall (fun c => (isalnum c = true \/ c = HYPHEN \/ c = UNDERSCORE)
                                  /\ c <> SPACE)
                   (replace_char SPACE UNDERSCORE cut)).
  { unfold replace_char. apply Forall_map.
    eapply Forall_impl; [|exact Hcut].
    intros c Hc. cbn. unfold char_eqb.
    destruct (N.eqb_spec c SPACE) as [->|Hne].
    - split; [auto | discriminate].
    - split; [|exact Hne]. destruct Hc as [H|[H|[H|H]]]; auto; contradiction. }
  assert (Hreplen : List.length (replace_char SPACE UNDERSCORE cut)
                    = List.length cut).
  { apply length_map. }
  destruct (replace_char SPACE UNDERSCORE cut) as [|c r'] eqn:E.
  - repeat split.
    + discriminate.
    + cbn. lia.
    + change (py "sign") with [115; 105; 103; 110]%N.
      repeat (apply Forall_cons;
              [split; [left; rewrite Hascii by reflexivity; reflexivity
                      | discriminate]|]).
      apply Forall_nil.
  - repeat split.
    + discriminate.
    + rewrite Hreplen. exact Hlen.
    + exact Hrep.
    + discriminate.
Qed.

Lemma sanitize_filename_safe_witness :
  _sanitize_filename ascii_isalnum (py "  My Sign: 50% off!  ")
    = py "My_Sign__50__off_"
  /\ _sanitize_filename ascii_isalnum (py "   ") <> [].
Proof.
  split; [vm_compute; reflexivity|].
  apply (sanitize_filename_safe ascii_isalnum (py "   ")).
  intros c _. reflexivity.
Defined.

(** Blank input is what leaves nothing: the fallback name. *)
Lemma sanitize_filename_blank :
  _sanitize_filename ascii_isalnum [] = py "sign"
  /\ _sanitize_filename ascii_isalnum (py "   ") = py "sign"
  /\ _sanitize_filename ascii_isalnum (py "!?") = py "__".
Proof. vm_compute. repeat split. Qed.

(* ================================================================== *)
(** * Properties: validation *)
(* ================================================================== *)

Section ValidatorFacts.

Context {FF : FloatFormat}.

(** C8: the empty text is rejected with "Text cannot be empty", and a text
    of 101 characters with "Text too long (max 100 characters)". *)
Theorem validate_text_rejects :
  validate_text [] 100 = (false, Some (py "Text cannot be empty"))
  /\ validate_text (repeat 65%N 101) 100
     = (false, Some (py "Text too long (max 100 characters)")).
Proof. split; vm_compute; reflexivity. Qed.

(** The limit is exact: 100 characters pass. *)
Lemma validate_text_at_limit :
  validate_text (repeat 65%N 100) 100 = (true, None).
Proof. vm_compute. reflexivity. Qed.

(** C9: the reference parameters pass every check of a default validator:
    [is_valid] is [True] and there is no error (and no warning). *)
Theorem pre_validate_all_reference :
  pre_validate_all default_validator (py "TEST") (Int 100) (Int 25) (Int 16)
    50 (Float 1.0%float) (Float 1.0%float) false
  = (true, [], []).
Proof. vm_compute. reflexivity. Qed.

End ValidatorFacts.

(** C7: for "LABEL" on a 100 x 25 sign the suggested font size, 15.0, lies
    between the validator's font-size minimum and maximum. *)
Theorem suggest_parameters_in_bounds :
  exists s,
    suggest_parameters default_validator (py "LABEL") (Int 100) (Int 25) = Ok s
    /\ sg_font_size s = Float 15.0%float
    /\ num_leb (fst (font_size_range default_validator)) (sg_font_size s) = true
    /\ num_leb (sg_font_size s) (snd (font_size_range default_validator)) = true.
Proof.
  eexists. split; [vm_compute; reflexivity|].
  repeat split; vm_compute; reflexivity.
Qed.

(** A validator built from the default configuration has the default
    ranges, so the bound above is the configured one as well. *)
Lemma validator_of_default_config (dir path : str) :
  SignValidator_init (Some (mk_ConfigManager dir path DEFAULT_CONFIG))
  = Some default_validator.
Proof. vm_compute. reflexivity. Qed.

(* ================================================================== *)
(** * Properties: presets *)
(* ================================================================== *)

Lemma str_eqb_refl (s : str) : str_eqb s s = true.
Proof.
  induction s as [|c s IH]; cbn; [reflexivity|].
  unfold char_eqb. rewrite N.eqb_refl. exact IH.
Qed.

Lemma str_eqb_eq (a b : str) : str_eqb a b = true <-> a = b.
Proof.
  split; [|intros ->; apply str_eqb_refl].
  revert b. induction a as [|x a IH]; intros [|y b]; cbn; try discriminate; auto.
  unfold char_eqb. intros H. apply andb_prop in H as [Hxy Hab].
  apply N.eqb_eq in Hxy. apply IH in Hab. congruence.
Qed.

Section AssocFacts.

Context {V : Type}.

Lemma assoc_get_set_same (k : str) (v : V) (d : list (str * V)) :
  assoc_get k (assoc_set k v d) = Some v.
Proof.
  induction d as [|[k' v'] d IH]; cbn.
  - rewrite str_eqb_refl. reflexivity.
  - destruct (str_eqb k k') eqn:E; cbn.
    + rewrite str_eqb_refl. reflexivity.
    + rewrite E. exact IH.
Qed.

Lemma assoc_get_set_other (k k' : str) (v : V) (d : list (str * V)) :
  str_eqb k' k = false ->
  assoc_get k' (assoc_set k v d) = assoc_get k' d.
Proof.
  intros Hne.
  induction d as [|[k0 v0] d IH]; cbn.
  - rewrite Hne. reflexivity.
  - destruct (str_eqb k k0) eqn:E; cbn.
    + apply str_eqb_eq in E. subst k0. rewrite Hne. reflexivity.
    + rewrite IH. reflexivity.
Qed.

End AssocFacts.

(** Saving the configuration never raises: an [IOError] is printed. *)
Lemma save_config_returns (cm : ConfigManager) (w : world) :
  exists w', save_config cm w = (Ok tt, w').
Proof.
  unfold save_config, save_config_to, try_except, write_json.
  destruct (is_dir (config_path cm) w); [eexists; reflexivity|].
  destruct (str_mem (config_path cm) (unwritable w)); [eexists; reflexivity|].
  destruct (negb (is_dir (path_parent (config_path cm)) w));
    eexists; reflexivity.
Qed.

(** C3: a preset saved under a name is what loading that name returns: the
    very dictionary that was saved.  Saving returns whenever the [presets]
    entry of the configuration is missing or a dictionary, as it is in every
    configuration the defaults produce. *)
Theorem preset_round_trip (cm : ConfigManager) (name : str) (settings : dict)
    (w : world) :
  (forall cm' w',
      save_preset cm name settings w = (Ok cm', w') ->
      load_preset cm' name = Ok (PDict settings))
  /\ (presets_assignable (config cm) ->
      exists cm' w', save_preset cm name settings w = (Ok cm', w')).
Proof.
  assert (Hload : forall c presets w0 cm' w',
             assoc_get (py "presets") c = Some (PDict presets) ->
             (save_config
                (set_config cm
                   (assoc_set (py "presets")
                      (PDict (assoc_set name (PDict settings) presets)) c)) ;;;
              ret (set_config cm
                     (assoc_set (py "presets")
                        (PDict (assoc_set name (PDict settings) presets)) c)))%py
               w0 = (Ok cm', w') ->
             load_preset cm' name = Ok (PDict settings)).
  { intros c presets w0 cm' w' _. unfold bind.
    match goal with
    | |- context [save_config ?x w0] =>
        destruct (save_config_returns x w0) as [w1 Hs]; rewrite Hs
    end.
    unfold ret. intros H. injection H as <- _.
    unfold load_preset, set_config, dict_get; cbn [config].
    rewrite assoc_get_set_same. cbv beta iota.
    rewrite assoc_get_set_same. reflexivity. }
  assert (Hsave : forall c w0,
             exists cm' w',
               (save_config (set_config cm c) ;;; ret (set_config cm c))%py w0
               = (Ok cm', w')).
  { intros c w0. unfold bind.
    destruct (save_config_returns (set_config cm c) w0) as [w1 Hs].
    rewrite Hs. eexists _, _. reflexivity. }
  unfold save_preset, presets_assignable, dict_mem, assoc_mem, dict_get, dict_set.
  destruct (assoc_get (py "presets") (config cm)) as [v|] eqn:E; cbn [negb].
  - rewrite E. split.
    + intros cm' w'. destruct v; try (intros H; discriminate H).
      apply Hload. exact E.
    + destruct v; try contradiction. intros _. apply Hsave.
  - rewrite assoc_get_set_same. split.
    + intros cm' w'. apply Hload. apply assoc_get_set_same.
    + intros _. apply Hsave.
Qed.

Lemma preset_round_trip_witness :
  presets_assignable (config fresh_manager)
  /\ exists cm' w',
       save_preset fresh_manager (py "large")
         [(py "width", PNum (Int 150)); (py "height", PNum (Int 30))]
         empty_world = (Ok cm', w')
       /\ load_preset cm' (py "large")
          = Ok (PDict [(py "width", PNum (Int 150)); (py "height", PNum (Int 30))]).
Proof.
  split; [exact I|].
  destruct (preset_round_trip fresh_manager (py "large")
              [(py "width", PNum (Int 150)); (py "height", PNum (Int 30))]
              empty_world) as [Hload Hsave].
  destruct (Hsave I) as (cm' & w' & E).
  exists cm', w'. split; [exact E | exact (Hload cm' w' E)].
Defined.

(** A name that was never saved loads as [None]. *)
Lemma load_preset_missing :
  load_preset fresh_manager (py "nonexistent") = Ok PNone.
Proof. reflexivity. Qed.

(** When [presets] holds something else than a dictionary, saving raises and
    nothing is stored. *)
Lemma save_preset_not_assignable (w : world) :
  let cm := mk_ConfigManager (py "cfg") (py "cfg/config.json")
              [(py "presets", PList [])] in
  save_preset cm (py "large") [] w
  = (Raise (TypeError (py "object does not support item assignment")), w).
Proof. reflexivity. Qed.

(* ================================================================== *)
(** * Properties: exporting one layer *)
(* ================================================================== *)

Lemma path_exists_stat (p : str) (w : world) :
  path_exists p w = true -> exists n, stat_size p w = Some n.
Proof.
  unfold path_exists, stat_size, assoc_mem, file_at.
  destruct (assoc_get p (files w)) as [f|]; [eexists; reflexivity|].
  rewrite orb_false_r. intros ->. eexists; reflexivity.
Qed.

Section ExportFacts.

Context {K : CadKernel}.

(** The outcomes of [_export_single_stl], case by case. *)
Lemma export_single_stl_cases (model : Workplane) (filepath layer_name : str)
    (w : world) :
  let r := _export_single_stl model filepath layer_name w in
  (_validate_geometry model = false
   /\ exists w', r = (Raise (STLExportError layer_name (py "Invalid geometry")
                               [py "Check text size"; py "Reduce heaviness";
                                py "Increase layer thickness"]), w'))
  \/ (_validate_geometry model = true
      /\ exists msg w1 w',
           cq_export model filepath w = (Failed msg, w1)
           /\ r = (Raise (STLExportError layer_name msg
                            [py "Check parameters"; py "Try simpler text"]), w'))
  \/ (_validate_geometry model = true
      /\ exists w1 w',
           cq_export model filepath w = (Done tt, w1)
           /\ path_exists filepath w1 = false
           /\ r = (Raise (STLExportError layer_name (py "File not created")
                            [py "Try different parameters"; py "Check disk space"]),
                   w'))
  \/ (_validate_geometry model = true
      /\ exists w1 w' reason sg,
           cq_export model filepath w = (Done tt, w1)
           /\ path_exists filepath w1 = true
           /\ stat_size filepath w1 = Some 0%N
           /\ sg <> []
           /\ r = (Raise (STLExportError layer_name reason sg), w'))
  \/ (_validate_geometry model = true
      /\ exists w1 n,
           cq_export model filepath w = (Done tt, w1)
           /\ path_exists filepath w1 = true
           /\ stat_size filepath w1 = Some n
           /\ n <> 0%N
           /\ r = (Ok true,
                   set_logs w1 (logs w1 ++ [(INFO, py "Successfully exported: "
                                                    ++ path_name filepath)]))).
Proof.
  unfold _export_single_stl, try_except, bind.
  destruct (_validate_geometry model) eqn:Hv; cbn [negb].
  2:{ left. split; [reflexivity|]. cbn. eexists. reflexivity. }
  right. cbn [ret].
  destruct (cq_export model filepath w) as [[[]|msg] w1] eqn:He; cbn.
  2:{ left. split; [reflexivity|]. exists msg, w1. eexists. split; reflexivity. }
  right. unfold gets.
  destruct (path_exists filepath w1) eqn:Hex; cbn.
  2:{ left. split; [reflexivity|]. exists w1. eexists.
      repeat split; first [reflexivity | assumption]. }
  right.
  destruct (path_exists_stat _ _ Hex) as [n Hn]. rewrite Hn. cbn.
  destruct (N.eqb_spec n 0) as [->|Hnz]; cbn.
  - left. split; [reflexivity|].
    unfold unlink.
    destruct (file_at filepath w1); cbn; exists w1; eexists _, _, _; repeat split.
    all: try reflexivity.
    all: first [assumption | discriminate].
  - right. split; [reflexivity|].
    exists w1, n. repeat split; first [reflexivity | assumption].
Qed.

(** C5, as amended: [_export_single_stl] raises an [STLExportError] exactly
    when the geometry fails validation, the export call fails, nothing is at
    the path after the export, or what is there has size zero; the error
    always carries a non-empty list of suggestions; it raises nothing else;
    and when it returns, it returns [True]. *)
Theorem export_single_stl_raises_iff (model : Workplane)
    (filepath layer_name : str) (w : world) :
  let r := _export_single_stl model filepath layer_name w in
  (raises_STLExportError r
   <-> (_validate_geometry model = false
        \/ export_fails model filepath w
        \/ no_file model filepath w
        \/ zero_byte model filepath w))
  /\ (forall e, fst r = Raise e ->
                is_STLExportError e = true /\ suggestions_of e <> [])
  /\ (forall b, fst r = Ok b -> b = true).
Proof.
  intros r.
  destruct (export_single_stl_cases model filepath layer_name w)
    as [(Hv & w' & E)
       |[(Hv & msg & w1 & w' & He & E)
        |[(Hv & w1 & w' & He & Hex & E)
         |[(Hv & w1 & w' & reason & sg & He & Hex & Hst & Hsg & E)
          |(Hv & w1 & n & He & Hex & Hst & Hn & E)]]]];
    fold r in E; rewrite E; cbn [fst].
  - repeat split.
    + intros _. left. exact Hv.
    + intros _. eexists. split; reflexivity.
    + injection H as <-. reflexivity.
    + injection H as <-. discriminate.
    + discriminate.
  - repeat split.
    + intros _. right. left. exists msg, w1. exact He.
    + intros _. eexists. split; reflexivity.
    + injection H as <-. reflexivity.
    + injection H as <-. discriminate.
    + discriminate.
  - repeat split.
    + intros _. right. right. left. exists w1. split; assumption.
    + intros _. eexists. split; reflexivity.
    + injection H as <-. reflexivity.
    + injection H as <-. discriminate.
    + discriminate.
  - repeat split.
    + intros _. right. right. right. exists w1. repeat split; assumption.
    + intros _. eexists. split; reflexivity.
    + injection H as <-. reflexivity.
    + injection H as <-. exact Hsg.
    + discriminate.
  - repeat split.
    + intros (e & H & _). discriminate H.
    + intros [H|[(m & w2 & H)|[(w2 & H & H')|(w2 & H & _ & H')]]].
      * congruence.
      * congruence.
      * rewrite He in H. injection H as <-. congruence.
      * rewrite He in H. injection H as <-. congruence.
    + discriminate.
    + discriminate.
    + congruence.
Qed.

(** A successful export of one layer: [True], a non-empty file at the path,
    and, with an exporter that keeps to its path, nothing else touched. *)
Lemma export_single_stl_ok (model : Workplane) (filepath layer_name : str)
    (w w' : world) (b : bool) :
  _export_single_stl model filepath layer_name w = (Ok b, w') ->
  b = true
  /\ exported filepath w'
  /\ (export_frame -> forall q, q <> filepath ->
        file_at q w' = file_at q w /\ is_dir q w' = is_dir q w).
Proof.
  intros E.
  destruct (export_single_stl_cases model filepath layer_name w)
    as [(_ & ? & E')
       |[(_ & ? & ? & ? & _ & E')
        |[(_ & ? & ? & _ & _ & E')
         |[(_ & ? & ? & ? & ? & _ & _ & _ & _ & E')
          |(_ & w1 & n & He & Hex & Hst & Hn & E')]]]];
    cbv zeta in E'; rewrite E in E'; try discriminate E'.
  injection E' as -> ->.
  split; [reflexivity|]. split.
  - split; [exact Hex|]. exists n. split; assumption.
  - intros Hframe q Hq. exact (Hframe _ _ _ _ _ He q Hq).
Qed.

End ExportFacts.

(** C5, as the claim states it, fails: a model that does not pass
    [_validate_geometry] raises an [STLExportError] although its export would
    succeed and a non-empty file from an earlier run sits at the path. *)
Lemma export_claim_as_stated_fails :
  ~ raises_exactly_on_export_failures (K := SimKernel) hollow_model
      (py "output/TEST_regular_top_yellow.stl") (py "top") used_world.
Proof.
  unfold raises_exactly_on_export_failures. intros [H _].
  assert (R : raises_STLExportError
                (_export_single_stl (K := SimKernel) hollow_model
                   (py "output/TEST_regular_top_yellow.stl") (py "top")
                   used_world)).
  { eexists. split; [vm_compute; reflexivity | reflexivity]. }
  destruct (H R) as [(msg & w1 & E)|[(w1 & E & Hex)|(w1 & E & _ & Hst)]].
  - vm_compute in E. discriminate E.
  - vm_compute in E. injection E as <-. vm_compute in Hex. discriminate Hex.
  - vm_compute in E. injection E as <-. vm_compute in Hst. discriminate Hst.
Qed.

(** What the code does there. *)
Lemma export_hollow_model :
  fst (_export_single_stl (K := SimKernel) hollow_model
         (py "output/TEST_regular_top_yellow.stl") (py "top") used_world)
  = Raise (STLExportError (py "top") (py "Invalid geometry")
             [py "Check text size"; py "Reduce heaviness";
              py "Increase layer thickness"]).
Proof. vm_compute. reflexivity. Qed.

(* ================================================================== *)
(** * Properties: running computations *)
(* ================================================================== *)

Lemma bind_ok_inv {A B} (m : M A) (k : A -> M B) (w w' : world) (b : B) :
  bind m k w = (Ok b, w') ->
  exists a w1, m w = (Ok a, w1) /\ k a w1 = (Ok b, w').
Proof.
  unfold bind. destruct (m w) as [[a|e] w1]; [|discriminate].
  intros H. exists a, w1. split; [reflexivity | exact H].
Qed.

Lemma bind_raise_inv {A B} (m : M A) (k : A -> M B) (w w' : world) (e : exn) :
  bind m k w = (Raise e, w') ->
  m w = (Raise e, w')
  \/ exists a w1, m w = (Ok a, w1) /\ k a w1 = (Raise e, w').
Proof.
  unfold bind. destruct (m w) as [[a|e'] w1].
  - intros H. right. exists a, w1. split; [reflexivity | exact H].
  - intros H. left. injection H as -> ->. reflexivity.
Qed.

Lemma try_except_ok_inv {A} (body : M A) (handler : exn -> M A)
    (w w' : world) (a : A) :
  try_except body handler w = (Ok a, w') ->
  body w = (Ok a, w')
  \/ exists e w1, body w = (Raise e, w1) /\ handler e w1 = (Ok a, w').
Proof.
  unfold try_except. destruct (body w) as [[a'|e] w1].
  - intros H. left. exact H.
  - intros H. right. exists e, w1. split; [reflexivity | exact H].
Qed.

(** Printing and logging never touch the file system. *)
Lemma exported_set_logs (p : str) (w : world) (l : list (level * str)) :
  exported p (set_logs w l) <-> exported p w.
Proof. reflexivity. Qed.

Lemma exported_frame (p : str) (w w' : world) :
  file_at p w' = file_at p w -> is_dir p w' = is_dir p w ->
  exported p w -> exported p w'.
Proof.
  unfold exported, path_exists, stat_size, assoc_mem, file_at.
  intros Hf Hd. rewrite Hf, Hd. exact (fun H => H).
Qed.

(* ================================================================== *)
(** * Properties: paths *)
(* ================================================================== *)

Lemma split_slash_nonempty (s : str) : split_slash s <> [].
Proof.
  induction s as [|c s IH]; cbn; [discriminate|].
  destruct (char_eqb c SLASH); [discriminate|].
  destruct (split_slash s); discriminate.
Qed.

Lemma split_slash_app (a b : str) :
  split_slash (a ++ SLASH :: b) = split_slash a ++ split_slash b.
Proof.
  induction a as [|c a IH]; cbn.
  - reflexivity.
  - rewrite IH. destruct (char_eqb c SLASH); [reflexivity|].
    pose proof (split_slash_nonempty a) as Hne.
    destruct (split_slash a) as [|p ps]; [contradiction | reflexivity].
Qed.

Lemma split_slash_component (n : str) : ~ In SLASH n -> split_slash n = [n].
Proof.
  induction n as [|c n IH]; intros H; cbn; [reflexivity|].
  unfold char_eqb. destruct (N.eqb_spec c SLASH) as [->|_].
  - exfalso. apply H. left. reflexivity.
  - rewrite IH by (intros Hin; apply H; right; exact Hin). reflexivity.
Qed.

Lemma split_slash_no_slash (s : str) :
  Forall (fun p => ~ In SLASH p) (split_slash s).
Proof.
  induction s as [|c s IH]; cbn.
  - constructor; [intros []|constructor].
  - unfold char_eqb. destruct (N.eqb_spec c SLASH) as [->|Hc].
    + constructor; [intros []|exact IH].
    + destruct (split_slash s) as [|p ps]; [repeat constructor; intros [H|[]]; congruence|].
      inversion IH as [|? ? Hp Hps]; subst. constructor; [|exact Hps].
      intros [H|H]; [congruence | exact (Hp H)].
Qed.

Lemma kept_component (p : str) : ~ In SLASH p -> kept p = true -> component p.
Proof.
  intros Hs Hk. unfold kept in Hk. apply negb_true_iff in Hk.
  apply orb_false_elim in Hk as [H1 H2].
  repeat split; [exact Hs| |]; intros ->; [discriminate H1 | discriminate H2].
Qed.

Lemma component_kept (p : str) : component p -> kept p = true.
Proof.
  intros (_ & H1 & H2). unfold kept. apply negb_true_iff. apply orb_false_intro.
  - destruct (str_eqb p []) eqn:E; [|reflexivity]. apply str_eqb_eq in E. contradiction.
  - destruct (str_eqb p (py ".")) eqn:E; [|reflexivity]. apply str_eqb_eq in E. contradiction.
Qed.

Lemma path_parts_app (a b : str) :
  path_parts (a ++ SLASH :: b) = path_parts a ++ path_parts b.
Proof. unfold path_parts. rewrite split_slash_app. apply filter_app. Qed.

Lemma path_parts_slash (b : str) : path_parts (SLASH :: b) = path_parts b.
Proof. exact (path_parts_app [] b). Qed.

Lemma path_parts_component (n : str) : component n -> path_parts n = [n].
Proof.
  intros H. unfold path_parts. rewrite split_slash_component by apply H.
  cbn. rewrite (component_kept n H). reflexivity.
Qed.

Lemma path_parts_components (s : str) : Forall component (path_parts s).
Proof.
  unfold path_parts. pose proof (split_slash_no_slash s) as H.
  induction H as [|p ps Hp _ IH]; cbn; [constructor|].
  destruct (kept p) eqn:E; [|exact IH].
  constructor; [apply kept_component; assumption | exact IH].
Qed.

Lemma path_parts_join (ps : list str) :
  Forall component ps -> path_parts (join [SLASH] ps) = ps.
Proof.
  induction 1 as [|p ps Hp Hps IH]; [reflexivity|].
  destruct ps as [|q rest].
  - cbn [join]. apply path_parts_component. exact Hp.
  - change (join [SLASH] (p :: q :: rest)) with (p ++ SLASH :: join [SLASH] (q :: rest)).
    rewrite path_parts_app, IH, (path_parts_component p Hp). reflexivity.
Qed.

Lemma join_snoc (ps : list str) (n : str) :
  join [SLASH] (ps ++ [n])
  = List.concat (List.map (fun p => p ++ [SLASH]) ps) ++ n.
Proof.
  induction ps as [|p ps IH]; [reflexivity|].
  cbn [app List.map List.concat]. rewrite <- app_assoc, <- IH, <- app_assoc.
  destruct ps; reflexivity.
Qed.

Lemma component_head (n : str) : component n -> exists c x, n = c :: x /\ c <> SLASH.
Proof.
  intros (Hs & Hne & _). destruct n as [|c x]; [contradiction|].
  exists c, x. split; [reflexivity|]. intros ->. apply Hs. left. reflexivity.
Qed.

Lemma join_head (p : str) (ps : list str) :
  component p -> exists c x, join [SLASH] (p :: ps) = c :: x /\ c <> SLASH.
Proof.
  intros Hp. destruct (component_head p Hp) as (c & x & -> & Hc).
  destruct ps; cbn; eauto.
Qed.

Lemma ends_with_slash_app (a : str) (c : char) (x : str) :
  ends_with_slash (a ++ c :: x) = ends_with_slash (c :: x).
Proof.
  unfold ends_with_slash. rewrite rev_app_distr.
  cbn [rev]. destruct (rev x) as [|d y] eqn:E; reflexivity.
Qed.

Lemma ends_with_slash_component (n : str) :
  component n -> ends_with_slash n = false.
Proof.
  intros (Hs & Hne & _). unfold ends_with_slash.
  destruct (rev n) as [|d y] eqn:E.
  - reflexivity.
  - cbn. unfold char_eqb. destruct (N.eqb_spec d SLASH) as [->|]; [|reflexivity].
    exfalso. apply Hs. apply in_rev. rewrite E. left. reflexivity.
Qed.

Lemma ends_with_slash_join (p : str) (ps : list str) :
  Forall component (p :: ps) -> ends_with_slash (join [SLASH] (p :: ps)) = false.
Proof.
  revert p. induction ps as [|q rest IH]; intros p H.
  - cbn [join]. apply ends_with_slash_component. inversion H; assumption.
  - change (join [SLASH] (p :: q :: rest)) with (p ++ SLASH :: join [SLASH] (q :: rest)).
    inversion H as [|? ? Hp Hrest]; subst.
    destruct (join_head q rest) as (c & x & E & _); [inversion Hrest; assumption|].
    change (p ++ SLASH :: join [SLASH] (q :: rest))
      with (p ++ [SLASH] ++ join [SLASH] (q :: rest)).
    rewrite app_assoc. rewrite E. rewrite ends_with_slash_app. rewrite <- E.
    apply IH. exact Hrest.
Qed.

Lemma path_root_cases (s : str) :
  path_root s = [] \/ path_root s = [SLASH] \/ path_root s = [SLASH; SLASH].
Proof.
  destruct s as [|a [|b [|c s]]]; cbn; auto;
    repeat match goal with |- context [if ?b then _ else _] => destruct b end; auto.
Qed.


Lemma Path_dot_name (n : str) : component n -> Path (py "." ++ SLASH :: n) = n.
Proof.
  intros Hn. destruct (component_head n Hn) as (c0 & n' & En & Hc0).
  unfold Path. rewrite (path_parts_app (py ".") n), (path_parts_component n Hn).
  cbn. rewrite En. reflexivity.
Qed.

Lemma Path_root_name (n : str) :
  component n ->
  Path (SLASH :: n) = SLASH :: n /\ Path (SLASH :: SLASH :: n) = SLASH :: SLASH :: n.
Proof.
  intros Hn. destruct (component_head n Hn) as (c0 & n' & En & Hc0).
  assert (Hc0' : char_eqb c0 SLASH = false).
  { unfold char_eqb. apply N.eqb_neq. exact Hc0. }
  unfold Path.
  rewrite (path_parts_slash (SLASH :: n)), (path_parts_slash n),
    (path_parts_component n Hn).
  rewrite En. cbn. rewrite Hc0'. split; reflexivity.
Qed.

Lemma os_path_join_plain (d n : str) :
  starts_with_slash n = false -> d <> [] -> ends_with_slash d = false ->
  os_path_join d n = path_join d n.
Proof.
  intros Hn Hd He. unfold os_path_join. rewrite Hn.
  destruct d; [contradiction|]. rewrite He. reflexivity.
Qed.

(** Under a directory a name of one component lands right below it. *)
Lemma path_div_component (out n : str) :
  component n -> path_div (Path out) n = dir_prefix out ++ n.
Proof.
  intros Hn. pose proof (path_parts_components out) as Hps.
  destruct (component_head n Hn) as (c0 & n' & En & Hc0).
  assert (Hc0' : char_eqb c0 SLASH = false).
  { unfold char_eqb. apply N.eqb_neq. exact Hc0. }
  assert (Hstart : starts_with_slash n = false) by (rewrite En; exact Hc0').
  unfold path_div, Path at 2, dir_prefix.
  destruct (path_parts out) as [|p ps] eqn:Eps.
  - (* no component *)
    destruct (path_root_cases out) as [-> | [-> | ->]].
    + unfold os_path_join. rewrite Hstart. exact (Path_dot_name n Hn).
    + unfold os_path_join. rewrite Hstart. exact (proj1 (Path_root_name n Hn)).
    + unfold os_path_join. rewrite Hstart. exact (proj2 (Path_root_name n Hn)).
  - (* some components *)
    destruct (join_head p ps) as (c1 & x1 & Ej & Hc1); [inversion Hps; assumption|].
    assert (Hc1' : char_eqb c1 SLASH = false).
    { unfold char_eqb. apply N.eqb_neq. exact Hc1. }
    assert (Hstr : path_str (path_root out) (p :: ps)
                   = path_root out ++ join [SLASH] (p :: ps)).
    { unfold path_str. destruct (path_root out); reflexivity. }
    rewrite Hstr.
    assert (Hend : ends_with_slash (path_root out ++ join [SLASH] (p :: ps)) = false).
    { rewrite Ej, ends_with_slash_app, <- Ej. apply ends_with_slash_join. exact Hps. }
    assert (Hnil : path_root out ++ join [SLASH] (p :: ps) <> []).
    { rewrite Ej. destruct (path_root out); discriminate. }
    rewrite (os_path_join_plain _ n Hstart Hnil Hend).
    unfold path_join, Path.
    change ((path_root out ++ join [SLASH] (p :: ps)) ++ [SLASH] ++ n)
      with ((path_root out ++ join [SLASH] (p :: ps)) ++ SLASH :: n).
    rewrite (path_parts_app (path_root out ++ join [SLASH] (p :: ps)) n),
      (path_parts_component n Hn).
    assert (Hparts : path_parts (path_root out ++ join [SLASH] (p :: ps)) = p :: ps).
    { destruct (path_root_cases out) as [-> | [-> | ->]].
      - apply path_parts_join. exact Hps.
      - etransitivity; [exact (path_parts_slash (join [SLASH] (p :: ps)))|].
        apply path_parts_join. exact Hps.
      - etransitivity; [exact (path_parts_slash (SLASH :: join [SLASH] (p :: ps)))|].
        etransitivity; [exact (path_parts_slash (join [SLASH] (p :: ps)))|].
        apply path_parts_join. exact Hps. }
    rewrite Hparts.
    assert (Hroot : path_root ((path_root out ++ join [SLASH] (p :: ps)) ++ SLASH :: n)
                    = path_root out).
    { rewrite Ej.
      destruct (path_root_cases out) as [-> | [-> | ->]]; cbn; rewrite Hc1'; reflexivity. }
    rewrite Hroot.
    change ((p :: ps) ++ [n]) with (p :: (ps ++ [n])).
    assert (Hstr2 : path_str (path_root out) (p :: (ps ++ [n]))
                    = path_root out ++ join [SLASH] ((p :: ps) ++ [n])).
    { unfold path_str. destruct (path_root out); reflexivity. }
    rewrite Hstr2, join_snoc, <- app_assoc. reflexivity.
Qed.

Lemma concat_slash (p : str) (ps : list str) :
  List.concat (List.map (fun p => p ++ [SLASH]) (p :: ps))
  = join [SLASH] (p :: ps) ++ [SLASH].
Proof.
  revert p. induction ps as [|q rest IH]; intros p.
  - cbn. rewrite app_nil_r. reflexivity.
  - change (List.concat (List.map (fun p => p ++ [SLASH]) (p :: q :: rest)))
      with ((p ++ [SLASH])
            ++ List.concat (List.map (fun p => p ++ [SLASH]) (q :: rest))).
    rewrite IH.
    change (join [SLASH] (p :: q :: rest))
      with (p ++ [SLASH] ++ join [SLASH] (q :: rest)).
    rewrite <- !app_assoc. reflexivity.
Qed.

(** For a directory other than ["."] and the roots, [/] is [path_join]. *)
Lemma path_div_join (out n : str) :
  component n -> path_parts out <> [] ->
  path_div (Path out) n = path_join (Path out) n.
Proof.
  intros Hn Hps. rewrite (path_div_component out n Hn).
  unfold dir_prefix, Path, path_join.
  destruct (path_parts out) as [|p ps]; [contradiction|].
  rewrite concat_slash.
  assert (E : path_str (path_root out) (p :: ps)
              = path_root out ++ join [SLASH] (p :: ps)).
  { unfold path_str. destruct (path_root out); reflexivity. }
  rewrite E, <- !app_assoc. reflexivity.
Qed.

Lemma split_tail (Y : str) :
  ~ In SLASH Y \/ exists a t, Y = a ++ SLASH :: t /\ ~ In SLASH t.
Proof.
  induction Y as [|c Y IH].
  - left. intros [].
  - destruct IH as [H|(a & t & -> & Ht)].
    + destruct (N.eq_dec c SLASH) as [->|Hc].
      * right. exists [], Y. split; [reflexivity | exact H].
      * left. intros [E|E]; [congruence | exact (H E)].
    + right. exists (c :: a), t. split; [reflexivity | exact Ht].
Qed.

Lemma component_app (t s : str) : ~ In SLASH t -> component s -> component (t ++ s).
Proof.
  intros Ht (Hs & Hne & Hdot). repeat split.
  - intros H. apply in_app_or in H as [H|H]; contradiction.
  - destruct t; [exact Hne | discriminate].
  - destruct t as [|c [|d t]]; [exact Hdot| |discriminate].
    destruct s; [contradiction | discriminate].
Qed.

Lemma path_root_component (n : str) : component n -> path_root n = [].
Proof.
  intros Hn. destruct (component_head n Hn) as (c & x & -> & Hc).
  cbn. unfold char_eqb. destruct (N.eqb_spec c SLASH); [contradiction | reflexivity].
Qed.

Lemma path_root_app (Y s1 s2 : str) :
  component s1 -> component s2 -> path_root (Y ++ s1) = path_root (Y ++ s2).
Proof.
  intros H1 H2.
  destruct (component_head s1 H1) as (c1 & x1 & -> & Hc1).
  destruct (component_head s2 H2) as (c2 & x2 & -> & Hc2).
  apply N.eqb_neq in Hc1, Hc2.
  destruct Y as [|a [|b [|e Y]]]; cbn; unfold char_eqb;
    rewrite ?Hc1, ?Hc2; reflexivity.
Qed.

(** What [Path] leaves of a string's last component. *)
Lemma Path_tail (Y : str) :
  exists X, forall s, component s -> Path (Y ++ s) = path_root (Y ++ s) ++ X ++ s.
Proof.
  destruct (split_tail Y) as [HY|(a & t & -> & Ht)].
  - exists Y. intros s Hs.
    pose proof (component_app Y s HY Hs) as Hc.
    unfold Path. rewrite (path_parts_component _ Hc), (path_root_component _ Hc).
    reflexivity.
  - exists (List.concat (List.map (fun p => p ++ [SLASH]) (path_parts a)) ++ t).
    intros s Hs.
    pose proof (component_app t s Ht Hs) as Hc.
    unfold Path. rewrite <- app_assoc.
    change ((SLASH :: t) ++ s) with (SLASH :: (t ++ s)).
    rewrite (path_parts_app a (t ++ s)), (path_parts_component _ Hc).
    assert (E : forall r ps n, path_str r (ps ++ [n]) = r ++ join [SLASH] (ps ++ [n])).
    { intros r ps n. unfold path_str. destruct r; [|reflexivity].
      destruct ps; reflexivity. }
    rewrite E, join_snoc, <- app_assoc. reflexivity.
Qed.

Lemma os_path_join_app (d x s1 s2 : str) :
  component s1 -> component s2 ->
  exists Y, os_path_join d (x ++ s1) = Y ++ s1 /\ os_path_join d (x ++ s2) = Y ++ s2.
Proof.
  intros H1 H2.
  assert (Hs : starts_with_slash (x ++ s1) = starts_with_slash (x ++ s2)).
  { destruct x as [|c x]; [|reflexivity]. cbn [app].
    destruct (component_head s1 H1) as (c1 & x1 & -> & Hc1).
    destruct (component_head s2 H2) as (c2 & x2 & -> & Hc2).
    apply N.eqb_neq in Hc1, Hc2. cbn. unfold char_eqb. rewrite Hc1, Hc2. reflexivity. }
  unfold os_path_join. rewrite <- Hs.
  destruct (starts_with_slash (x ++ s1)).
  - exists x. split; reflexivity.
  - destruct d as [|c d]; [exists x; split; reflexivity|].
    destruct (ends_with_slash (c :: d)).
    + exists ((c :: d) ++ x). rewrite <- !app_assoc. split; reflexivity.
    + exists (path_join (c :: d) x). unfold path_join.
      rewrite <- !app_assoc. split; reflexivity.
Qed.

(** Two names that differ in their last part stay apart under a directory. *)
Lemma path_div_distinct (d x s1 s2 : str) :
  component s1 -> component s2 -> s1 <> s2 ->
  path_div d (x ++ s1) <> path_div d (x ++ s2).
Proof.
  intros H1 H2 Hne. unfold path_div.
  destruct (os_path_join_app d x s1 s2 H1 H2) as (Y & -> & ->).
  destruct (Path_tail Y) as (X & HX).
  rewrite (HX s1 H1), (HX s2 H2), (path_root_app Y s1 s2 H1 H2).
  intros E. apply app_inv_head in E. apply app_inv_head in E. contradiction.
Qed.

(* ================================================================== *)
(** * Properties: the three files of a generation *)
(* ================================================================== *)

Lemma str_mem_last (p : str) (l : list str) : str_mem p (l ++ [p]) = true.
Proof.
  unfold str_mem. rewrite existsb_app. cbn.
  rewrite str_eqb_refl. apply orb_true_iff. right. reflexivity.
Qed.

(** ** Making a directory *)

Lemma dirs_added_refl (w : world) : dirs_added w w.
Proof. repeat split. intros q H. exact H. Qed.

Lemma dirs_added_trans (w1 w2 w3 : world) :
  dirs_added w1 w2 -> dirs_added w2 w3 -> dirs_added w1 w3.
Proof.
  intros (A1 & A2 & A3 & A4 & A5 & A6) (B1 & B2 & B3 & B4 & B5 & B6).
  repeat split; try congruence. intros q H. apply B6, A6, H.
Qed.

Lemma str_mem_app_l (p : str) (l l' : list str) :
  str_mem p l = true -> str_mem p (l ++ l') = true.
Proof.
  unfold str_mem. rewrite existsb_app. intros ->. reflexivity.
Qed.

Lemma os_mkdir_spec (q : str) (up : option str) (w w' : world)
    (e : option mkdir_error) :
  os_mkdir q up w = (e, w') ->
  dirs_added w w'
  /\ match e with
     | None => is_dir q w' = true
     | Some _ => w' = w
     end.
Proof.
  unfold os_mkdir.
  assert (Hmake : forall e w',
            (if str_mem q (unwritable w) then (Some PermissionDenied, w)
             else (None, set_dirs w (dirs w ++ [q]))) = (e, w') ->
            dirs_added w w'
            /\ match e with
               | None => is_dir q w' = true
               | Some _ => w' = w
               end).
  { intros e0 w0. destruct (str_mem q (unwritable w)); intros H;
      injection H as <- <-.
    - split; [apply dirs_added_refl | reflexivity].
    - split.
      + repeat split. intros x Hx. unfold is_dir, set_dirs. cbn.
        apply str_mem_app_l. exact Hx.
      + unfold is_dir, set_dirs. cbn. apply str_mem_last. }
  destruct (is_dir q w || assoc_mem q (files w)).
  { intros H. injection H as <- <-. split; [apply dirs_added_refl | reflexivity]. }
  destruct up as [u|]; [|apply Hmake].
  destruct (is_dir u w); [apply Hmake|].
  destruct (assoc_mem u (files w)); intros H; injection H as <- <-;
    (split; [apply dirs_added_refl | reflexivity]).
Qed.

Lemma mkdir_flat_spec (q : str) (up : option str) (w w' : world)
    (r : result unit) :
  mkdir_flat q up w = (r, w') ->
  dirs_added w w' /\ (r = Ok tt -> is_dir q w' = true).
Proof.
  unfold mkdir_flat.
  destruct (os_mkdir q up w) as [[e|] w1] eqn:E;
    destruct (os_mkdir_spec _ _ _ _ _ E) as [Hd He].
  - destruct e.
    2:{ intros H. injection H as <- <-. split; [exact Hd | discriminate]. }
    all: destruct (is_dir q w1) eqn:D; intros H; injection H as <- <-;
      (split; [exact Hd | first [intros _; exact D | discriminate]]).
  - intros H. injection H as <- <-. split; [exact Hd | intros _; exact He].
Qed.

Lemma path_mkdir_spec (q : str) (ups : list str) (w w' : world)
    (r : result unit) :
  path_mkdir q ups w = (r, w') ->
  dirs_added w w' /\ (r = Ok tt -> is_dir q w' = true).
Proof.
  revert q w w' r. induction ups as [|u ups IH]; intros q w w' r; cbn [path_mkdir].
  - destruct (os_mkdir q (hd_error []) w) as [[e|] w1] eqn:E;
      destruct (os_mkdir_spec _ _ _ _ _ E) as [Hd He].
    + destruct e.
      2:{ intros H. injection H as <- <-. split; [exact Hd | discriminate]. }
      all: destruct (is_dir q w1) eqn:D; intros H; injection H as <- <-;
        (split; [exact Hd | first [intros _; exact D | discriminate]]).
    + intros H. injection H as <- <-. split; [exact Hd | intros _; exact He].
  - destruct (os_mkdir q (hd_error (u :: ups)) w) as [[e|] w1] eqn:E;
      destruct (os_mkdir_spec _ _ _ _ _ E) as [Hd He].
    + destruct e.
      2:{ destruct (path_mkdir u ups w1) as [[[]|e] w2] eqn:E2;
            destruct (IH _ _ _ _ E2) as [Hd2 _].
          - intros H. destruct (mkdir_flat_spec _ _ _ _ _ H) as [Hd3 Hq].
            split; [|exact Hq].
            eapply dirs_added_trans; [exact Hd|].
            eapply dirs_added_trans; [exact Hd2 | exact Hd3].
          - intros H. injection H as <- <-.
            split; [|discriminate].
            eapply dirs_added_trans; [exact Hd | exact Hd2]. }
      all: destruct (is_dir q w1) eqn:D; intros H; injection H as <- <-;
        (split; [exact Hd | first [intros _; exact D | discriminate]]).
    + intros H. injection H as <- <-. split; [exact Hd | intros _; exact He].
Qed.





(** The three suffixes keep the three paths apart, whatever the directory
    and the stem. *)
Lemma layer_paths_distinct (out stem s1 s2 : str) :
  component s1 -> component s2 -> s1 <> s2 ->
  path_div out (stem ++ s1) <> path_div out (stem ++ s2).
Proof. apply path_div_distinct. Qed.

Section GenerationFacts.

Context {FF : FloatFormat} {K : CadKernel}.


Variable isalnum : char -> bool.


End GenerationFacts.

(** The exporter of the toy kernel writes only where it is told. *)
Lemma sim_kernel_frame : export_frame (K := SimKernel).
Proof.
  intros wp p w r w'. cbn. unfold sim_export.
  destruct (str_mem p (unwritable w)).
  - intros H. injection H as _ <-. intros q _. split; reflexivity.
  - intros H. injection H as _ <-. intros q Hq. split; [|reflexivity].
    unfold file_at, set_files. cbn.
    apply assoc_get_set_other.
    destruct (str_eqb q p) eqn:E; [|reflexivity].
    apply str_eqb_eq in E. contradiction.
Qed.


(* ================================================================== *)
(** * Properties: the exit protocol of the CLI *)
(* ================================================================== *)


Section CliFacts.

Context {FF : FloatFormat} {K : CadKernel}.
Variable isalnum : char -> bool.


End CliFacts.


(** A failure of the export, after a generation that returned, ends the
    same way: the output file cannot be written. *)
Lemma main_export_failure :
  let w := {| dirs := [py "."]; files := [];
              unwritable := [py "output/TEST_regular_bottom_black.stl"];
              stdout := []; stderr := []; logs := [] |} in
  let run := main (FF := CPythonFormat) (K := SimKernel) ascii_isalnum
               (default_args (py "TEST")) w in
  fst run = Exited 1
  /\ stderr (snd run) = [ [NL; CROSS_MARK]
                      ++ py " Error: Failed to export base: Permission denied"
                      ++ [NL] ++ py "Suggestions:" ++ [NL]
                      ++ py "  " ++ bullet ++ py " Check parameters" ++ [NL]
                      ++ py "  " ++ bullet ++ py " Try simpler text" ].
Proof. vm_compute. split; reflexivity. Qed.

(** When the output directory cannot be made, no generation is attempted:
    the exception leaves [main] unhandled. *)
Lemma main_without_output_dir :
  let w := {| dirs := [py "."]; files := [(py "output", Bytes 3)];
              unwritable := []; stdout := []; stderr := []; logs := [] |} in
  fst (main (FF := CPythonFormat) (K := SimKernel) ascii_isalnum
         (default_args (py "TEST")) w)
  = Uncaught (OSError (py "File exists: output")).
Proof. vm_compute. reflexivity. Qed.

(* ================================================================== *)
(** * Properties: presets across a restart *)
(* ================================================================== *)

Section MergeFacts.

Context {V : Type}.


Lemma assoc_set_keys_in (k k' : str) (v : V) (d : list (str * V)) :
  In k' (List.map fst (assoc_set k v d)) -> k' = k \/ In k' (List.map fst d).
Proof.
  induction d as [|[k0 v0] d IH]; cbn.
  - intros [H|[]]. left. symmetry. exact H.
  - destruct (str_eqb k k0) eqn:E; cbn.
    + intros [H|H]; [left; symmetry; exact H | right; right; exact H].
    + intros [H|H]; [right; left; exact H|].
      destruct (IH H) as [H'|H']; [left | right; right]; exact H'.
Qed.

Lemma assoc_set_unique (k : str) (v : V) (d : list (str * V)) :
  unique_keys d -> unique_keys (assoc_set k v d).
Proof.
  unfold unique_keys.
  induction d as [|[k0 v0] d IH]; cbn; intros H.
  - constructor; [intros [] | constructor].
  - inversion H as [|? ? Hnotin Hd]; subst.
    destruct (str_eqb k k0) eqn:E; cbn.
    + apply str_eqb_eq in E. subst k0. constructor; assumption.
    + constructor; [|apply IH; exact Hd].
      intros Hin. apply assoc_set_keys_in in Hin as [->|Hin].
      * rewrite str_eqb_refl in E. discriminate E.
      * contradiction.
Qed.

End MergeFacts.

Section MergeItems.

Variable merge : dict -> pyval -> dict.

Lemma merge_items_step (result : dict) (key : str) (value : pyval)
    (rest : list (str * pyval)) :
  merge_items merge result ((key, value) :: rest)
  = merge_items merge
      (dict_set key (merged_entry merge (dict_get key result) value) result) rest.
Proof. reflexivity. Qed.

(** A key the loaded dictionary does not mention keeps its value. *)
Lemma merge_items_other (k : str) (items : list (str * pyval)) (result : dict) :
  ~ In k (List.map fst items) ->
  dict_get k (merge_items merge result items) = dict_get k result.
Proof.
  revert result. induction items as [|[key value] rest IH]; intros result H.
  - reflexivity.
  - rewrite merge_items_step, IH.
    + apply assoc_get_set_other.
      destruct (str_eqb k key) eqn:E; [|reflexivity].
      apply str_eqb_eq in E. subst key. exfalso. apply H. left. reflexivity.
    + intros Hin. apply H. right. exact Hin.
Qed.

(** A key the loaded dictionary mentions gets the merged entry. *)
Lemma merge_items_get (k : str) (v : pyval) (items : list (str * pyval))
    (result : dict) :
  unique_keys items ->
  assoc_get k items = Some v ->
  dict_get k (merge_items merge result items)
  = Some (merged_entry merge (dict_get k result) v).
Proof.
  unfold unique_keys.
  revert result. induction items as [|[key value] rest IH]; intros result Hu Hk.
  - discriminate Hk.
  - inversion Hu as [|? ? Hnotin Hrest]; subst.
    rewrite merge_items_step. cbn in Hk.
    destruct (str_eqb k key) eqn:E.
    + apply str_eqb_eq in E. subst key. injection Hk as ->.
      rewrite merge_items_other by exact Hnotin.
      apply assoc_get_set_same.
    + rewrite (IH _ Hrest Hk). f_equal. f_equal.
      apply assoc_get_set_other. exact E.
Qed.

End MergeItems.

(** Making a directory leaves the files alone. *)
Lemma mkdir_p_files (p : str) (w w' : world) :
  mkdir_p p w = (Ok tt, w') -> files w' = files w.
Proof.
  unfold mkdir_p. intros H.
  exact (proj1 (proj1 (path_mkdir_spec _ _ _ _ _ H))).
Qed.

(** The configuration [save_preset] leaves in memory. *)
Lemma save_preset_config (cm cm' : ConfigManager) (name : str) (settings : dict)
    (w w' : world) :
  save_preset cm name settings w = (Ok cm', w') ->
  exists c presets,
    config cm' = dict_set (py "presets")
                   (PDict (dict_set name (PDict settings) presets)) c
    /\ (c = config cm
        /\ dict_get (py "presets") (config cm) = Some (PDict presets)
        \/ c = dict_set (py "presets") (PDict []) (config cm)
           /\ dict_get (py "presets") (config cm) = None /\ presets = []).
Proof.
  unfold save_preset, dict_mem, assoc_mem.
  destruct (assoc_get (py "presets") (config cm)) as [v|] eqn:E; cbn [negb].
  - unfold dict_get at 1. rewrite E.
    destruct v; try (intros H; discriminate H).
    intros H. apply bind_ok_inv in H as (_ & w1 & _ & H).
    unfold ret in H. injection H as <- _.
    eexists _, _. split; [reflexivity|]. left. split; [reflexivity | exact E].
  - unfold dict_get at 1, dict_set at 1. rewrite assoc_get_set_same.
    intros H. apply bind_ok_inv in H as (_ & w1 & _ & H).
    unfold ret in H. injection H as <- _.
    exists (dict_set (py "presets") (PDict []) (config cm)), [].
    split; [reflexivity|]. right. repeat split. exact E.
Qed.

(** X29: a preset that reached the configuration file is there for the next
    [ConfigManager] on that file: [load_preset] returns the dictionary that
    was saved.  Dictionaries have each key once, as Python's have. *)
Lemma preset_survives_reload (cm cm' cm2 : ConfigManager) (name home : str)
    (settings : dict) (w w' w2 : world) :
  unique_keys (config cm) ->
  (forall presets, dict_get (py "presets") (config cm) = Some (PDict presets) ->
                   unique_keys presets) ->
  save_preset cm name settings w = (Ok cm', w') ->
  file_at (config_path cm) w' = Some (Json (PDict (config cm'))) ->
  ConfigManager_init home (Some (config_path cm)) w' = (Ok cm2, w2) ->
  load_preset cm2 name = Ok (PDict settings).
Proof.
  intros Hu Hp Hsave Hfile Hinit.
  apply save_preset_config in Hsave as (c & presets & Hc & Hcase).
  assert (Huc : unique_keys (config cm')).
  { rewrite Hc. apply assoc_set_unique.
    destruct Hcase as [[-> _]|[-> _]]; [exact Hu|].
    apply assoc_set_unique. exact Hu. }
  assert (Hup : unique_keys (dict_set name (PDict settings) presets)).
  { apply assoc_set_unique.
    destruct Hcase as [[_ E]|[_ [_ ->]]]; [exact (Hp _ E) | apply NoDup_nil]. }
  unfold ConfigManager_init in Hinit.
  apply bind_ok_inv in Hinit as ([] & w3 & Hmk & Hinit).
  apply bind_ok_inv in Hinit as (c2 & w4 & Hload & Hinit).
  unfold ret in Hinit. injection Hinit as <- _.
  apply mkdir_p_files in Hmk.
  assert (Hfile3 : file_at (config_path cm) w3 = Some (Json (PDict (config cm')))).
  { unfold file_at in *. rewrite Hmk. exact Hfile. }
  unfold load_config, bind, gets, try_except, read_json in Hload.
  assert (Hex : path_exists (config_path cm) w3 = true).
  { unfold path_exists, assoc_mem. unfold file_at in Hfile3. rewrite Hfile3.
    apply orb_true_r. }
  rewrite Hex, Hfile3 in Hload. unfold ret in Hload. injection Hload as <- _.
  unfold load_preset. cbn [config _merge_configs].
  rewrite (merge_items_get _merge_configs (py "presets")
             (PDict (dict_set name (PDict settings) presets)) _ _ Huc)
    by (rewrite Hc; apply assoc_get_set_same).
  change (dict_get (py "presets") DEFAULT_CONFIG) with (Some (PDict [])).
  cbn [merged_entry _merge_configs].
  rewrite (merge_items_get _merge_configs name (PDict settings) _ _ Hup)
    by apply assoc_get_set_same.
  reflexivity.
Qed.

(** The same, run: a preset saved on a machine with a writable configuration
    directory is loaded by a second manager. *)
Lemma preset_survives_reload_run :
  let w := {| dirs := [py "cfg"]; files := []; unwritable := [];
              stdout := []; stderr := []; logs := [] |} in
  let settings := [(py "width", PNum (Int 150)); (py "height", PNum (Int 30))] in
  match save_preset fresh_manager (py "large") settings w with
  | (Ok _, w') =>
      match ConfigManager_init (py "/home/u") (Some (py "cfg/config.json")) w' with
      | (Ok cm2, _) => load_preset cm2 (py "large") = Ok (PDict settings)
      | _ => False
      end
  | _ => False
  end.
Proof. vm_compute. reflexivity. Qed.

(* ================================================================== *)
(** * More properties: validation *)
(* ================================================================== *)

(** X1: a heaviness is valid exactly when it lies in 0..100, whatever the
    font size and the top thickness (those only add warnings); outside the
    range the message is fixed. *)
Theorem validate_heaviness_valid_iff (h : Z) (font_size top_thickness : num) :
  (fst (validate_heaviness h font_size top_thickness) = true <-> 0 <= h <= 100)
  /\ (~ (0 <= h <= 100) ->
      validate_heaviness h font_size top_thickness
      = (false, Some (py "Heaviness must be between 0-100"))).
Proof.
  unfold validate_heaviness.
  destruct (Z.leb_spec 0 h), (Z.leb_spec h 100); cbn [andb negb].
  2-4: split; [split; [discriminate | lia] | reflexivity].
  split; [|lia].
  split; [lia|]. intros _.
  destruct ((75 <? h) && num_gtb font_size (Int 20)
            && num_ltb top_thickness (Float 1.5%float));
    destruct ((90 <? h) && num_ltb top_thickness (Float 2.0%float));
    reflexivity.
Qed.

(** The collected special characters of a text without any. *)
Lemma problematic_chars_ascii (text : str) (acc : list char) :
  Forall (fun c => (c <= 127)%N) text ->
  fold_left
    (fun s c => if (127 <? c)%N && negb (char_in c accented)
                then set_add c s else s)
    text acc = acc.
Proof.
  intros H. revert acc. induction H as [|c text Hc _ IH]; intros acc; cbn.
  - reflexivity.
  - destruct (N.ltb_spec 127 c); [lia|]. cbn. apply IH.
Qed.

(** X2: a text is valid exactly when it is not blank and no longer than the
    limit; special characters never make it invalid, they only warn. *)
Theorem validate_text_valid_iff (text : str) (max_length : Z) :
  fst (validate_text text max_length)
  = negb (is_blank text) && (len text <=? max_length).
Proof.
  unfold validate_text.
  destruct (is_blank text); [reflexivity|]. cbn [negb andb].
  destruct (Z.ltb_spec max_length (len text)) as [Hlt|Hge].
  - cbn. symmetry. apply Z.leb_gt. exact Hlt.
  - match goal with
    | |- context [fold_left ?f text []] => destruct (fold_left f text [])
    end; cbn; symmetry; apply Z.leb_le; exact Hge.
Qed.

(** X3: a non-blank ASCII text within the limit passes without a warning. *)
Theorem validate_text_ascii_clean (text : str) (max_length : Z) :
  Forall (fun c => (c <= 127)%N) text ->
  is_blank text = false ->
  len text <= max_length ->
  validate_text text max_length = (true, None).
Proof.
  intros Hascii Hblank Hlen. unfold validate_text. rewrite Hblank.
  destruct (Z.ltb_spec max_length (len text)); [lia|].
  rewrite problematic_chars_ascii by exact Hascii. reflexivity.
Qed.

Lemma validate_text_ascii_clean_witness :
  validate_text (py "Exit 2 - Stairs") 100 = (true, None).
Proof.
  apply validate_text_ascii_clean.
  - repeat constructor; vm_compute; discriminate.
  - reflexivity.
  - vm_compute. discriminate.
Defined.

(** Membership in a range of integers. *)
Lemma Zrange_In (lo : Z) (n : nat) (z : Z) :
  lo <= z < lo + Z.of_nat n -> In z (Zrange lo n).
Proof.
  intros H. unfold Zrange. apply in_map_iff.
  exists (Z.to_nat (z - lo)). split; [lia|].
  apply in_seq. lia.
Qed.

(** The aspect-ratio test on every integer size the default ranges admit,
    evaluated in binary64: it passes exactly when the width is at most 20
    heights. *)
Lemma aspect_ok_table :
  forallb (fun w => forallb (fun h => Bool.eqb (aspect_ok w h) (w <=? 20 * h))
                      (Zrange 5 196))
    (Zrange 10 491) = true.
Proof. vm_compute. reflexivity. Qed.

Lemma aspect_ok_integers (w h : Z) :
  10 <= w <= 500 -> 5 <= h <= 200 -> aspect_ok w h = (w <=? 20 * h).
Proof.
  intros Hw Hh.
  pose proof aspect_ok_table as T.
  rewrite forallb_forall in T.
  specialize (T w (Zrange_In 10 491 w ltac:(lia))).
  rewrite forallb_forall in T.
  specialize (T h (Zrange_In 5 196 h ltac:(lia))).
  apply Bool.eqb_prop in T. exact T.
Qed.

Section ValidatorMore.

Context {FF : FloatFormat}.

(** X4: on whole-millimetre sizes the default validator accepts exactly the
    widths 10..500 and heights 5..200 whose width is at most 20 times the
    height. *)
Theorem validate_dimensions_integers (w h : Z) :
  fst (validate_dimensions default_validator (Int w) (Int h)) = true
  <-> 10 <= w <= 500 /\ 5 <= h <= 200 /\ w <= 20 * h.
Proof.
  unfold validate_dimensions, default_validator, num_between, num_leb, num_gtb,
    num_ltb; cbn [width_range height_range fst snd to_float].
  destruct (Z.leb_spec 10 w), (Z.leb_spec w 500), (Z.leb_spec 5 h),
    (Z.leb_spec h 200); cbn [andb negb app].
  1:{ destruct (Z.ltb_spec 0 w); [|lia]. destruct (Z.ltb_spec 0 h); [|lia].
      cbn [andb].
      pose proof (aspect_ok_integers w h ltac:(lia) ltac:(lia)) as A.
      unfold aspect_ok in A.
      destruct ((20 <? float_of_Z w / float_of_Z h)%float
                || (float_of_Z w / float_of_Z h <? 0.05)%float);
        cbn in A |- *; symmetry in A.
      - apply Z.leb_gt in A. split; [discriminate | lia].
      - apply Z.leb_le in A. split; [lia | reflexivity]. }
  all: split; [|lia].
  all: destruct ((0 <? w) && (0 <? h));
    [destruct ((20 <? float_of_Z w / float_of_Z h)%float
               || (float_of_Z w / float_of_Z h <? 0.05)%float)|];
    cbn; discriminate.
Qed.

(** X6: the parameters are valid exactly when each of the five checks
    passes, and that is exactly when the error list is empty. *)
Theorem pre_validate_all_valid_iff (v : SignValidator) (text : str)
    (width height font_size : num) (heaviness : Z)
    (bottom_thickness top_thickness : num) (auto_size : bool) :
  let r := pre_validate_all v text width height font_size heaviness
             bottom_thickness top_thickness auto_size in
  fst (fst r)
  = fst (validate_text text 100)
    && fst (validate_dimensions v width height)
    && fst (validate_font_size v font_size text width auto_size)
    && fst (validate_thickness v bottom_thickness top_thickness)
    && fst (validate_heaviness heaviness font_size top_thickness)
  /\ (fst (fst r) = true <-> snd (fst r) = []).
Proof.
  unfold pre_validate_all.
  destruct (validate_text text 100) as [[] [m1|]];
    destruct (validate_dimensions v width height) as [[] [m2|]];
    destruct (validate_font_size v font_size text width auto_size) as [[] [m3|]];
    destruct (validate_thickness v bottom_thickness top_thickness) as [[] [m4|]];
    destruct (validate_heaviness heaviness font_size top_thickness) as [[] [m5|]];
    cbn; (split; [reflexivity | split; (reflexivity || discriminate)]).
Qed.

(** With automatic sizing the font size cannot cause an error: validity
    and the error list are the same for every font size. *)
Theorem pre_validate_all_auto_size (v : SignValidator) (text : str)
    (width height fs1 fs2 : num) (heaviness : Z)
    (bottom_thickness top_thickness : num) :
  fst (pre_validate_all v text width height fs1 heaviness
         bottom_thickness top_thickness true)
  = fst (pre_validate_all v text width height fs2 heaviness
           bottom_thickness top_thickness true).
Proof.
  unfold pre_validate_all.
  change (validate_font_size v fs1 text width true) with (true, @None str).
  change (validate_font_size v fs2 text width true) with (true, @None str).
  destruct (validate_text text 100) as [[] [m1|]];
    destruct (validate_dimensions v width height) as [[] [m2|]];
    destruct (validate_thickness v bottom_thickness top_thickness) as [[] [m4|]];
    unfold validate_heaviness;
    destruct (negb ((0 <=? heaviness) && (heaviness <=? 100)));
    cbn;
    repeat match goal with
           | |- context [if ?b then _ else _] => destruct b; cbn
           end;
    reflexivity.
Qed.

End ValidatorMore.

(** X5: on floats and on ints that convert to a float unchanged, the
    cut-through prediction raises exactly when the sign has no area;
    otherwise the confidence lies in 0..100 and the verdict is "will cut
    through" exactly when the confidence reaches 60. *)
Theorem will_text_cut_through_bounds (text : str) (font_size : num)
    (heaviness : Z) (sign_width sign_height top_thickness : num) :
  exact_num font_size -> exact_int heaviness ->
  exact_num sign_width -> exact_num sign_height -> exact_num top_thickness ->
  let r := will_text_cut_through text font_size heaviness sign_width
             sign_height top_thickness in
  ((exists e, r = Raise e)
   <-> num_is_zero (num_mul sign_width sign_height) = true)
  /\ (forall b c, r = Ok (b, c) ->
                  0 <= c <= 100 /\ (b = true <-> 60 <= c)).
Proof.
  intros _ _ _ _ _.
  unfold will_text_cut_through, num_div.
  destruct (num_is_zero (num_mul sign_width sign_height)).
  - split; [split; [reflexivity | intros _; eexists; reflexivity]|].
    intros b c H. discriminate H.
  - split; [split; [intros [e H]; revert H | discriminate]|].
    + repeat match goal with
             | |- context [if ?b then _ else _] => destruct b
             end; discriminate.
    + intros b c.
      repeat match goal with
             | |- context [if ?b then _ else _] => destruct b
             end;
        cbn; intros H; injection H as <- <-;
        (split; [lia | split; intros H; first [reflexivity | lia | discriminate H]]).
Qed.

Lemma will_text_cut_through_bounds_witness :
  (exists e, will_text_cut_through (py "EXIT") (Int 12) 50 (Int 0) (Int 25)
               (Float 1.0%float) = Raise e)
  /\ (forall b c,
        will_text_cut_through (py "EXIT") (Float 30.0%float) 90 (Int 100)
          (Int 25) (Float 0.8%float) = Ok (b, c) ->
        0 <= c <= 100 /\ (b = true <-> 60 <= c)).
Proof.
  split.
  - apply (will_text_cut_through_bounds (py "EXIT") (Int 12) 50 (Int 0) (Int 25)
             (Float 1.0%float));
      first [exact I | reflexivity | vm_compute; intros H; discriminate H].
  - apply (will_text_cut_through_bounds (py "EXIT") (Float 30.0%float) 90
             (Int 100) (Int 25) (Float 0.8%float));
      first [exact I | vm_compute; intros H; discriminate H].
Defined.

(** On an empty text [suggest_parameters] divides by zero, whatever the
    validator and the dimensions. *)
Theorem suggest_parameters_empty_text (v : SignValidator) (width height : num) :
  suggest_parameters v [] width height
  = Raise (ZeroDivisionError (py "float division by zero")).
Proof. reflexivity. Qed.

(* ================================================================== *)
(** * More properties: comparing floats *)
(* ================================================================== *)

(** Comparing the other way round gives the opposite answer. *)
Lemma SFcompare_antisym (a b : spec_float) :
  SFcompare b a = option_map CompOpp (SFcompare a b).
Proof.
  destruct a as [sa|sa| |sa ma ea], b as [sb|sb| |sb mb eb];
    try (destruct sa; reflexivity); try (destruct sb; reflexivity);
    try (destruct sa, sb; reflexivity); try reflexivity.
  unfold SFcompare, option_map.
  change (Pos.compare_cont Eq ma mb) with (ma ?= mb)%positive.
  change (Pos.compare_cont Eq mb ma) with (mb ?= ma)%positive.
  rewrite (Z.compare_antisym ea eb), (Pos.compare_antisym ma mb).
  destruct sa, sb, (ea ?= eb), (ma ?= mb)%positive; reflexivity.
Qed.

Lemma ltb_leb (a b : float) : (a <? b)%float = true -> (a <=? b)%float = true.
Proof.
  rewrite ltb_spec, leb_spec. unfold SFltb, SFleb.
  destruct (SFcompare (Prim2SF a) (Prim2SF b)) as [[]|];
    (reflexivity || discriminate).
Qed.

Lemma SFcompare_some (a b : spec_float) :
  a <> S754_nan -> b <> S754_nan -> exists c, SFcompare a b = Some c.
Proof.
  intros Ha Hb.
  destruct a as [sa|sa| |sa ma ea], b as [sb|sb| |sb mb eb];
    try contradiction; cbn; eexists; reflexivity.
Qed.

Lemma SFcompare_not_nan (a b : spec_float) (c : comparison) :
  SFcompare a b = Some c -> a <> S754_nan /\ b <> S754_nan.
Proof.
  destruct a as [sa|sa| |sa ma ea], b as [sb|sb| |sb mb eb]; cbn;
    intros H; try discriminate H; split; discriminate.
Qed.

(** A float that compares with something and is not above [b] is at most
    [b]. *)
Lemma not_ltb_leb (a b x : float) :
  (a <? x)%float = true -> (b =? b)%float = true ->
  (b <? x)%float = false -> (x <=? b)%float = true.
Proof.
  rewrite !ltb_spec, eqb_spec, leb_spec. unfold SFltb, SFleb, SFeqb.
  intros Hax Hbb Hbx.
  destruct (SFcompare (Prim2SF a) (Prim2SF x)) as [cax|] eqn:Eax;
    [|discriminate Hax].
  destruct (SFcompare (Prim2SF b) (Prim2SF b)) as [cbb|] eqn:Ebb;
    [|discriminate Hbb].
  apply SFcompare_not_nan in Eax as [_ Hx].
  apply SFcompare_not_nan in Ebb as [Hb _].
  destruct (SFcompare_some _ _ Hb Hx) as [c Ec].
  rewrite (SFcompare_antisym (Prim2SF b) (Prim2SF x)), Ec.
  rewrite Ec in Hbx.
  destruct c; cbn; (reflexivity || discriminate Hbx).
Qed.

(* ================================================================== *)
(** * More properties: font sizing and labels *)
(* ================================================================== *)

(** X7: the weight label of the file names is the style label of the font
    parameters in lower case, for every heaviness. *)
Theorem weight_label_matches_style (h : Z) (family : str) :
  _get_weight_label (Int h)
  = ascii_lower (style (_calculate_font_params h family)).
Proof.
  unfold _get_weight_label, _calculate_font_params, num_leb.
  destruct (h <=? 25); [reflexivity|].
  destruct (h <=? 50); [reflexivity|].
  destruct (h <=? 75); reflexivity.
Qed.

(** X10: whenever the automatic font size is computed it lies between 5.0
    and 50.0, whatever the text, the dimensions, the font and the
    heaviness. *)
Theorem auto_font_size_clamped (text : str) (width height : num)
    (family : str) (heaviness : Z) (fs : float) :
  _calculate_auto_font_size text width height family heaviness = Ok fs ->
  (5.0 <=? fs)%float = true /\ (fs <=? 50.0)%float = true.
Proof.
  unfold _calculate_auto_font_size.
  match goal with
  | |- context [if ?c then _ else _] => destruct c; [discriminate|]
  end.
  intros H. injection H as <-.
  match goal with
  | |- context [fmin ?x 50.0%float] => generalize x
  end.
  intros x. unfold fmax, fmin.
  destruct (50.0 <? x)%float eqn:Ehi.
  - vm_compute. split; reflexivity.
  - destruct (5.0 <? x)%float eqn:Elo.
    + split; [apply ltb_leb; exact Elo|].
      apply (not_ltb_leb 5.0%float 50.0%float x Elo); [reflexivity | exact Ehi].
    + vm_compute. split; reflexivity.
Qed.

Lemma auto_font_size_clamped_witness :
  _calculate_auto_font_size (py "Hello World!") (Int 100) (Int 25)
    (py "Arial") 50 = Ok 10.0%float
  /\ (5.0 <=? 10.0)%float = true /\ (10.0 <=? 50.0)%float = true.
Proof.
  assert (E : _calculate_auto_font_size (py "Hello World!") (Int 100) (Int 25)
                (py "Arial") 50 = Ok 10.0%float)
    by (vm_compute; reflexivity).
  split; [exact E|].
  exact (auto_font_size_clamped _ _ _ _ _ _ E).
Defined.

(** The factor a font family starts from is one of six. *)
Lemma font_width_cases (family : str) :
  In (match assoc_get family font_widths with
      | Some f => f
      | None => 0.55%float
      end) base_width_factors.
Proof.
  unfold font_widths, base_width_factors. cbn [assoc_get].
  repeat match goal with
         | |- context [if ?c then _ else _] => destruct c
         end;
    cbn; tauto.
Qed.

(** For no characters the divisor is zero, at every heaviness of the
    slider. *)
Lemma auto_divisor_empty_table :
  forallb (fun b => forallb (fun h => (auto_divisor 0 b h =? 0)%float)
                      (Zrange 0 101))
    base_width_factors = true.
Proof. vm_compute. reflexivity. Qed.

(** X11: with an empty text the automatic font size divides by zero, for
    every font family, every heaviness in 0..100, every height, and every
    width that is a float or an int that converts to a float unchanged (the
    width is multiplied before the division is reached). *)
Theorem auto_font_size_empty_text (width height : num) (family : str)
    (heaviness : Z) :
  exact_num width ->
  0 <= heaviness <= 100 ->
  _calculate_auto_font_size [] width height family heaviness
  = Raise (ZeroDivisionError (py "float division by zero")).
Proof.
  intros _ Hh. unfold _calculate_auto_font_size.
  pose proof (font_width_cases family) as Hb.
  revert Hb.
  generalize (match assoc_get family font_widths with
              | Some f => f
              | None => 0.55%float
              end).
  intros b Hb.
  pose proof auto_divisor_empty_table as T.
  rewrite forallb_forall in T. specialize (T b Hb).
  rewrite forallb_forall in T.
  specialize (T heaviness (Zrange_In 0 101 heaviness ltac:(lia))).
  unfold auto_divisor in T. change (len []) with 0.
  rewrite T. reflexivity.
Qed.

Lemma auto_font_size_empty_text_witness :
  _calculate_auto_font_size [] (Int 100) (Int 25) (py "Impact") 80
  = Raise (ZeroDivisionError (py "float division by zero")).
Proof.
  apply auto_font_size_empty_text.
  - vm_compute. intros H. discriminate H.
  - lia.
Defined.

(* ================================================================== *)
(** * More properties: file names stay put *)
(* ================================================================== *)

Lemma lstrip_nothing (s : str) :
  Forall (fun c => isspace c = false) s -> lstrip s = s.
Proof.
  intros H. destruct H as [|c s Hc _]; cbn; [reflexivity|].
  rewrite Hc. reflexivity.
Qed.

Lemma strip_nothing (s : str) :
  Forall (fun c => isspace c = false) s -> strip s = s.
Proof.
  intros H. unfold strip, rstrip.
  rewrite (lstrip_nothing s H).
  rewrite lstrip_nothing by (apply Forall_rev; exact H).
  apply rev_involutive.
Qed.

Lemma map_id_Forall {A} (f : A -> A) (l : list A) :
  Forall (fun x => f x = x) l -> List.map f l = l.
Proof.
  induction 1 as [|x l Hx _ IH]; cbn; [reflexivity|].
  rewrite Hx, IH. reflexivity.
Qed.

Section SanitizeMore.

Variable isalnum : char -> bool.
Hypothesis isalnum_ascii : forall c, (c < 128)%N -> isalnum c = ascii_isalnum c.

(** The characters and the length of a sanitized name. *)
Lemma sanitize_filename_chars (text : str) :
  (List.length (_sanitize_filename isalnum text) <= 30)%nat
  /\ Forall (fun c => (isalnum c = true \/ c = HYPHEN \/ c = UNDERSCORE)
                      /\ c <> SPACE)
       (_sanitize_filename isalnum text).
Proof.
  unfold _sanitize_filename.
  set (cut := strip (firstn 30 (List.map (safe_char isalnum) text))).
  assert (Hcut : Forall (fun c => isalnum c = true \/ c = SPACE
                                  \/ c = HYPHEN \/ c = UNDERSCORE) cut).
  { apply strip_Forall, firstn_Forall, Forall_map, Forall_forall.
    intros c _. apply safe_char_spec. }
  assert (Hlen : (List.length (replace_char SPACE UNDERSCORE cut) <= 30)%nat).
  { unfold replace_char. rewrite length_map. unfold cut.
    etransitivity; [apply strip_length | apply firstn_le_length]. }
  assert (Hrep : Forall (fun c => (isalnum c = true \/ c = HYPHEN \/ c = UNDERSCORE)
                                  /\ c <> SPACE)
                   (replace_char SPACE UNDERSCORE cut)).
  { unfold replace_char. apply Forall_map.
    eapply Forall_impl; [|exact Hcut].
    intros c Hc. cbn. unfold char_eqb.
    destruct (N.eqb_spec c SPACE) as [->|Hne].
    - split; [auto | discriminate].
    - split; [|exact Hne]. destruct Hc as [H|[H|[H|H]]]; auto; contradiction. }
  destruct (replace_char SPACE UNDERSCORE cut) as [|c r].
  - split; [cbn; lia|].
    change (py "sign") with [115; 105; 103; 110]%N.
    repeat (apply Forall_cons;
            [split; [left; rewrite isalnum_ascii by reflexivity; reflexivity
                    | discriminate]|]).
    apply Forall_nil.
  - split; assumption.
Qed.


(** Alphanumeric characters are no white space (true of Python's tables). *)
Hypothesis isalnum_not_space : forall c, isalnum c = true -> isspace c = false.

(** X8: sanitizing a sanitized name changes nothing. *)
Theorem sanitize_filename_idempotent (text : str) :
  _sanitize_filename isalnum (_sanitize_filename isalnum text)
  = _sanitize_filename isalnum text.
Proof.
  destruct (sanitize_filename_chars text) as [Hlen Hc].
  set (s := _sanitize_filename isalnum text) in *.
  assert (Hne : s <> []).
  { unfold s, _sanitize_filename.
    destruct (replace_char _ _ _); discriminate. }
  unfold _sanitize_filename at 1.
  rewrite (map_id_Forall (safe_char isalnum) s).
  2:{ eapply Forall_impl; [|exact Hc]. intros c [[H|[->| ->]] _].
      - unfold safe_char. rewrite H. reflexivity.
      - unfold safe_char. cbn. rewrite orb_true_r. reflexivity.
      - unfold safe_char. cbn. rewrite !orb_true_r. reflexivity. }
  rewrite firstn_all2 by exact Hlen.
  rewrite strip_nothing.
  2:{ eapply Forall_impl; [|exact Hc]. intros c [[H|[->| ->]] _].
      - apply isalnum_not_space. exact H.
      - reflexivity.
      - reflexivity. }
  unfold replace_char. rewrite map_id_Forall.
  2:{ eapply Forall_impl; [|exact Hc]. intros c [_ H]. cbn.
      unfold char_eqb. destruct (N.eqb_spec c SPACE); [contradiction | reflexivity]. }
  destruct s; [contradiction | reflexivity].
Qed.

End SanitizeMore.


Lemma sanitize_filename_idempotent_witness :
  _sanitize_filename ascii_isalnum
    (_sanitize_filename ascii_isalnum (py "  My Sign: 50% off!  "))
  = _sanitize_filename ascii_isalnum (py "  My Sign: 50% off!  ").
Proof.
  apply sanitize_filename_idempotent.
  - intros c _. reflexivity.
  - intros c. unfold ascii_isalnum, isspace. intros H.
    destruct (N.leb_spec 48 c), (N.leb_spec c 57), (N.leb_spec 65 c),
      (N.leb_spec c 90), (N.leb_spec 97 c), (N.leb_spec c 122);
      cbn in H; try discriminate H;
      repeat match goal with
             | |- context [(?a <=? ?b)%N] => destruct (N.leb_spec a b); try lia
             | |- context [(?a =? ?b)%N] => destruct (N.eqb_spec a b); try lia
             end; reflexivity.
Defined.

(* ================================================================== *)
(** * More properties: what a generation does and lets out *)
(* ================================================================== *)

Lemma same_but_logs_refl (w : world) : same_but_logs w w.
Proof. repeat split. Qed.

Lemma same_but_logs_trans (w1 w2 w3 : world) :
  same_but_logs w1 w2 -> same_but_logs w2 w3 -> same_but_logs w1 w3.
Proof.
  unfold same_but_logs. intros (A1 & A2 & A3 & A4 & A5) (B1 & B2 & B3 & B4 & B5).
  repeat split; congruence.
Qed.

Lemma only_logs_ret {A} (a : A) : only_logs (ret a).
Proof. intros w r w' H. injection H as _ <-. apply same_but_logs_refl. Qed.

Lemma only_logs_raise {A} (e : exn) : only_logs (@raise A e).
Proof. intros w r w' H. injection H as _ <-. apply same_but_logs_refl. Qed.

Lemma only_logs_lift {A} (x : result A) : only_logs (lift x).
Proof. intros w r w' H. injection H as _ <-. apply same_but_logs_refl. Qed.

Lemma only_logs_log (l : level) (s : str) : only_logs (log l s).
Proof. intros w r w' H. injection H as _ <-. repeat split. Qed.

Lemma only_logs_bind {A B} (m : M A) (k : A -> M B) :
  only_logs m -> (forall a, only_logs (k a)) -> only_logs (bind m k).
Proof.
  intros Hm Hk w r w'. unfold bind.
  destruct (m w) as [[a|e] w1] eqn:E; intros H.
  - eapply same_but_logs_trans; [exact (Hm _ _ _ E) | exact (Hk _ _ _ _ H)].
  - injection H as _ <-. exact (Hm _ _ _ E).
Qed.

Lemma only_logs_try {A} (body : M A) (handler : exn -> M A) :
  only_logs body -> (forall e, only_logs (handler e)) ->
  only_logs (try_except body handler).
Proof.
  intros Hb Hh w r w'. unfold try_except.
  destruct (body w) as [[a|e] w1] eqn:E; intros H.
  - injection H as _ <-. exact (Hb _ _ _ E).
  - eapply same_but_logs_trans; [exact (Hb _ _ _ E) | exact (Hh _ _ _ _ H)].
Qed.

(** Logging a list of warnings returns. *)
Lemma log_warnings_returns (warnings : list str) (w : world) :
  exists w',
    fold_right (fun warning k => bind (log WARNING warning) (fun _ => k))
      (ret tt) warnings w = (Ok tt, w')
    /\ same_but_logs w w'.
Proof.
  revert w. induction warnings as [|x xs IH]; intros w.
  - exists w. split; [reflexivity | apply same_but_logs_refl].
  - cbn [fold_right]. unfold bind at 1, log, modify.
    match goal with
    | |- context [fold_right _ _ xs ?x] => destruct (IH x) as (w' & E & S)
    end.
    exists w'. split; [exact E|].
    eapply same_but_logs_trans; [|exact S]. repeat split.
Qed.

Lemma will_text_cut_through_raises (text : str) (font_size : num)
    (heaviness : Z) (sw sh tt : num) (e : exn) :
  will_text_cut_through text font_size heaviness sw sh tt = Raise e ->
  e = ZeroDivisionError (py "float division by zero").
Proof.
  unfold will_text_cut_through.
  destruct (num_div _ _); intros H; [discriminate H|].
  injection H as <-. reflexivity.
Qed.

Lemma try_except_raise_inv {A} (body : M A) (handler : exn -> M A)
    (w w' : world) (e : exn) :
  try_except body handler w = (Raise e, w') ->
  exists e1 w1, body w = (Raise e1, w1) /\ handler e1 w1 = (Raise e, w').
Proof.
  unfold try_except. destruct (body w) as [[a|e1] w1]; [discriminate|].
  intros H. exists e1, w1. split; [reflexivity | exact H].
Qed.

Section GenerationMore.

Context {FF : FloatFormat} {K : CadKernel}.

Lemma validate_parameters_only_logs (g : SignGenerator) (text : str)
    (width height : num) (font_size : option num) (heaviness : Z)
    (bottom top : num) (auto_size : bool) :
  only_logs (_validate_parameters g text width height font_size heaviness
               bottom top auto_size).
Proof.
  unfold _validate_parameters.
  destruct (pre_validate_all _ _ _ _ _ _ _ _ _) as [[is_valid errors] warnings].
  apply only_logs_bind.
  - intros w r w' H.
    destruct (log_warnings_returns warnings w) as (w1 & E & S).
    rewrite E in H. injection H as _ <-. exact S.
  - intros _. destruct (negb is_valid); [apply only_logs_raise|].
    destruct font_size as [fs|]; [|apply only_logs_ret].
    destruct (num_truthy fs); [|apply only_logs_ret].
    apply only_logs_bind; [apply only_logs_lift|].
    intros [will_cut confidence].
    destruct (will_cut && (70 <? confidence));
      [apply only_logs_log | apply only_logs_ret].
Qed.

(** The frame of [generate_sign]: from any world, to any outcome. *)
Lemma generate_sign_frame (g : SignGenerator) (text : str)
    (width height : num) (family : str) (font_size : option num)
    (heaviness : Z) (bottom top : num) (auto_size validate : bool)
    (w w' : world) (r : result models) :
  generate_sign g text width height family font_size heaviness
    bottom top auto_size validate w = (r, w') ->
  same_but_logs w w'.
Proof.
  revert w r w'.
  change (only_logs (generate_sign g text width height family font_size
                       heaviness bottom top auto_size validate)).
  unfold generate_sign.
  apply only_logs_bind; [apply only_logs_log | intros _].
  apply only_logs_bind.
  { destruct validate;
      [apply validate_parameters_only_logs | apply only_logs_ret]. }
  intros _. apply only_logs_bind.
  { destruct (if auto_size then None else font_size).
    - apply only_logs_ret.
    - apply only_logs_bind; [apply only_logs_lift | intros fs].
      apply only_logs_bind; [apply only_logs_log | intros _].
      apply only_logs_ret. }
  intros fs. apply only_logs_try.
  - apply only_logs_bind; [apply only_logs_lift | intros base].
    apply only_logs_bind; [apply only_logs_lift | intros top_layer].
    apply only_logs_bind.
    { unfold _create_combined_preview. apply only_logs_try.
      - apply only_logs_lift.
      - intros e. apply only_logs_bind; [apply only_logs_log | intros _].
        apply only_logs_ret. }
    intros combined.
    apply only_logs_bind; [apply only_logs_log | intros _].
    apply only_logs_ret.
  - intros e. apply only_logs_bind; [apply only_logs_log | intros _].
    apply only_logs_raise.
Qed.

(** X13: a generation, whether it returns or raises, changes nothing but
    the log. *)
Theorem generate_sign_only_logs (g : SignGenerator) (text : str)
    (width height : num) (family : str) (font_size : option num)
    (heaviness : Z) (bottom top : num) (auto_size validate : bool) :
  only_logs (generate_sign g text width height family font_size heaviness
               bottom top auto_size validate).
Proof.
  intros w r w'. apply generate_sign_frame.
Qed.

(** X12: parameters that fail the pre-validation never reach the kernel:
    whatever the kernel, the generation raises [ValidationError] on
    "parameters" with the errors joined by "; ". *)
Theorem generate_sign_rejects (g : SignGenerator) (text : str)
    (width height : num) (family : str) (font_size : option num)
    (heaviness : Z) (bottom top : num) (auto_size : bool) (w : world) :
  let checked :=
    pre_validate_all (validator g) text width height (or_12 font_size)
      heaviness bottom top auto_size in
  fst (fst checked) = false ->
  exists w',
    generate_sign g text width height family font_size heaviness bottom top
      auto_size true w
    = (Raise (ValidationError (py "parameters")
                (join (py "; ") (snd (fst checked))) None), w')
    /\ same_but_logs w w'.
Proof.
  intros checked Hinvalid.
  unfold generate_sign, _validate_parameters. fold checked.
  destruct checked as [[is_valid errors] warnings]. cbn in Hinvalid. subst.
  unfold bind at 1, log at 1, modify.
  unfold bind at 1. unfold bind at 1.
  match goal with
  | |- context [fold_right _ _ warnings ?x] =>
      destruct (log_warnings_returns warnings x) as (w1 & E & S)
  end.
  rewrite E. cbn. exists w1. split; [reflexivity|].
  eapply same_but_logs_trans; [|exact S]. repeat split.
Qed.

(** X14: on floats and on ints that convert to a float unchanged, a
    generation lets out a [ValidationError], a [ZeroDivisionError] of its
    own arithmetic, or a [GeometryError] on "sign generation"; whatever the
    kernel raises comes out as the latter. *)
Theorem generate_sign_errors (g : SignGenerator) (text : str)
    (width height : num) (family : str) (font_size : option num)
    (heaviness : Z) (bottom top : num) (auto_size validate : bool)
    (w w' : world) (e : exn) :
  exact_num width -> exact_num height -> exact_opt font_size ->
  exact_int heaviness -> exact_num bottom -> exact_num top ->
  generate_sign g text width height family font_size heaviness bottom top
    auto_size validate w = (Raise e, w') ->
  generation_error e.
Proof.
  intros _ _ _ _ _ _.
  unfold generate_sign. intros H.
  apply bind_raise_inv in H as [H|(_ & w1 & _ & H)]; [discriminate H|].
  apply bind_raise_inv in H as [H|(_ & w2 & _ & H)].
  { destruct validate; [|discriminate H].
    unfold _validate_parameters in H.
    destruct (pre_validate_all _ _ _ _ _ _ _ _ _) as [[is_valid errors] warnings].
    apply bind_raise_inv in H as [H|(_ & w2 & _ & H)].
    - destruct (log_warnings_returns warnings w1) as (w3 & E & _).
      rewrite E in H. discriminate H.
    - destruct (negb is_valid).
      + injection H as <- _. exact I.
      + destruct font_size as [fs|]; [|discriminate H].
        destruct (num_truthy fs); [|discriminate H].
        apply bind_raise_inv in H as [H|([b c] & w3 & _ & H)].
        * unfold lift in H. injection H as H _.
          apply will_text_cut_through_raises in H. subst e. exact I.
        * destruct (b && (70 <? c)); discriminate H. }
  apply bind_raise_inv in H as [H|(fs & w3 & _ & H)].
  { destruct (if auto_size then None else font_size); [discriminate H|].
    apply bind_raise_inv in H as [H|(x & w3 & _ & H)].
    - unfold lift, _calculate_auto_font_size in H.
      match type of H with
      | context [if ?c then _ else _] => destruct c
      end; [|discriminate H].
      injection H as <- _. exact I.
    - apply bind_raise_inv in H as [H|(_ & w4 & _ & H)]; discriminate H. }
  apply try_except_raise_inv in H as (e1 & w4 & _ & H).
  apply bind_raise_inv in H as [H|(_ & w5 & _ & H)]; [discriminate H|].
  injection H as <- _. reflexivity.
Qed.

(** X15: what a generation returns: base, top and combined, where the top
    layer passed the geometry check and the combined preview is the union
    of the two layers, or the base layer itself when the union failed. *)
Theorem generate_sign_result (g : SignGenerator) (text : str)
    (width height : num) (family : str) (font_size : option num)
    (heaviness : Z) (bottom top : num) (auto_size validate : bool)
    (w w' : world) (m : models) :
  generate_sign g text width height family font_size heaviness bottom top
    auto_size validate w = (Ok m, w') ->
  exists base_layer top_layer combined,
    m = [ (py "base", Some base_layer); (py "top", Some top_layer);
          (py "combined", Some combined) ]
    /\ _validate_geometry top_layer = true
    /\ (cq_union base_layer top_layer = Done combined
        \/ (exists msg, cq_union base_layer top_layer = Failed msg)
           /\ combined = base_layer).
Proof.
  unfold generate_sign. intros H.
  apply bind_ok_inv in H as (_ & w1 & _ & H).
  apply bind_ok_inv in H as (_ & w2 & _ & H).
  apply bind_ok_inv in H as (fs & w3 & _ & H).
  apply try_except_ok_inv in H as [H|(e & w4 & _ & H)].
  2:{ apply bind_ok_inv in H as (_ & w5 & _ & H). discriminate H. }
  apply bind_ok_inv in H as (base_layer & w4 & _ & H).
  apply bind_ok_inv in H as (top_layer & w5 & Htop & H).
  apply bind_ok_inv in H as (combined & w6 & Hc & H).
  apply bind_ok_inv in H as (_ & w7 & _ & H).
  unfold ret in H. injection H as <- _.
  exists base_layer, top_layer, combined. split; [reflexivity|]. split.
  - unfold lift in Htop. injection Htop as Htop _.
    unfold _create_top_layer, rbind in Htop.
    destruct (of_kernel (cq_extrude_rect _ _ _ _)); [|discriminate Htop].
    destruct (if (0 <? corner_radius g)%float then _ else _);
      [|discriminate Htop].
    destruct (_apply_text_cutout _ _ _ _ _ _) as [t|]; [|discriminate Htop].
    destruct (_validate_geometry t) eqn:V; cbn in Htop; [|discriminate Htop].
    injection Htop as <-. exact V.
  - unfold _create_combined_preview, try_except, lift in Hc.
    destruct (cq_union base_layer top_layer) as [u|msg]; cbn in Hc.
    + injection Hc as <- _. left. reflexivity.
    + unfold bind, log, modify, ret in Hc. injection Hc as <- _.
      right. split; [eexists; reflexivity | reflexivity].
Qed.

End GenerationMore.

Lemma generate_sign_rejects_witness :
  exists w',
    generate_sign (FF := CPythonFormat) (K := BrokenKernel) sim_generator []
      (Int 100) (Int 25) (py "Arial") None 50 (Float 1.0%float)
      (Float 1.0%float) true true sim_world
    = (Raise (ValidationError (py "parameters") (py "Text cannot be empty")
                None), w')
    /\ same_but_logs sim_world w'.
Proof.
  apply (generate_sign_rejects (FF := CPythonFormat) (K := BrokenKernel)
           sim_generator [] (Int 100) (Int 25) (py "Arial") None 50
           (Float 1.0%float) (Float 1.0%float) true sim_world).
  vm_compute. reflexivity.
Defined.

Lemma generate_sign_errors_witness :
  generation_error
    (GeometryError (py "sign generation") (py "BRep_API: command not done")).
Proof.
  eapply (generate_sign_errors (FF := CPythonFormat) (K := BrokenKernel)
            sim_generator (py "X") (Int 100) (Int 25) (py "Arial") None 50
            (Float 1.0%float) (Float 1.0%float) true true sim_world).
  - vm_compute. intros H. discriminate H.
  - vm_compute. intros H. discriminate H.
  - exact I.
  - vm_compute. intros H. discriminate H.
  - exact I.
  - exact I.
  - vm_compute. reflexivity.
Defined.

Lemma generate_sign_result_witness :
  exists base_layer top_layer combined,
    [ (py "base", Some (mk_sim_wp true 684));
      (py "top", Some (mk_sim_wp true 688));
      (py "combined", Some (mk_sim_wp true 1372)) ]
    = [ (py "base", Some base_layer); (py "top", Some top_layer);
        (py "combined", Some combined) ]
    /\ _validate_geometry (K := SimKernel) top_layer = true
    /\ (cq_union (CadKernel := SimKernel) base_layer top_layer = Done combined
        \/ (exists msg, cq_union (CadKernel := SimKernel) base_layer top_layer
                        = Failed msg)
           /\ combined = base_layer).
Proof.
  eapply (generate_sign_result (FF := CPythonFormat) (K := SimKernel)
            sim_generator (py "TEST") (Int 100) (Int 25) (py "Arial") None 80
            (Float 1.0%float) (Float 1.0%float) true true sim_world).
  vm_compute. reflexivity.
Defined.

(* ================================================================== *)
(** * More properties: exporting the layers *)
(* ================================================================== *)

Section AssocDel.

Context {V : Type}.

Lemma assoc_get_del_other (k k' : str) (d : list (str * V)) :
  k' <> k -> assoc_get k' (assoc_del k d) = assoc_get k' d.
Proof.
  intros Hne. induction d as [|[k0 v0] d IH]; cbn; [reflexivity|].
  destruct (str_eqb k k0) eqn:E; cbn.
  - apply str_eqb_eq in E. subst k0.
    destruct (str_eqb k' k) eqn:E'; [|reflexivity].
    apply str_eqb_eq in E'. contradiction.
  - rewrite IH. reflexivity.
Qed.


End AssocDel.

Section ExportMore.

Context {K : CadKernel}.

(** Whatever the outcome of exporting one layer, an exporter that keeps to
    its path leaves every other path alone. *)
Lemma export_single_stl_frame (model : Workplane) (filepath layer_name : str)
    (w w' : world) (r : result bool) :
  export_frame ->
  _export_single_stl model filepath layer_name w = (r, w') ->
  forall q, q <> filepath ->
    file_at q w' = file_at q w /\ is_dir q w' = is_dir q w.
Proof.
  intros Hframe H q Hq. revert H.
  unfold _export_single_stl, try_except, bind.
  destruct (_validate_geometry model); cbn [negb].
  2:{ cbn. intros H. injection H as _ <-. split; reflexivity. }
  cbn [ret].
  destruct (cq_export model filepath w) as [[[]|msg] w1] eqn:He; cbn.
  2:{ intros H. injection H as _ <-. exact (Hframe _ _ _ _ _ He q Hq). }
  destruct (Hframe _ _ _ _ _ He q Hq) as [Hf Hd].
  unfold gets.
  destruct (path_exists filepath w1); cbn.
  2:{ intros H. injection H as _ <-. split; assumption. }
  destruct (stat_size filepath w1) as [n|]; cbn.
  2:{ intros H. injection H as _ <-. split; assumption. }
  destruct (n =? 0)%N; cbn.
  - unfold unlink. destruct (file_at filepath w1); cbn;
      intros H; injection H as _ <-; (split; [|exact Hd]).
    + unfold file_at. cbn. rewrite assoc_get_del_other by exact Hq. exact Hf.
    + exact Hf.
  - intros H. injection H as _ <-. split; assumption.
Qed.



(** What one layer's export raises. *)
Lemma export_single_stl_raises (model : Workplane) (filepath layer_name : str)
    (w w' : world) (e : exn) :
  _export_single_stl model filepath layer_name w = (Raise e, w') ->
  is_STLExportError e = true /\ suggestions_of e <> [].
Proof.
  intros E.
  destruct (export_single_stl_cases model filepath layer_name w)
    as [(_ & ? & E')
       |[(_ & ? & ? & ? & _ & E')
        |[(_ & ? & ? & _ & _ & E')
         |[(_ & ? & ? & ? & sg & _ & _ & _ & Hsg & E')
          |(_ & ? & ? & _ & _ & _ & _ & E')]]]];
    cbv zeta in E'; rewrite E in E'; try discriminate E';
    injection E' as -> _; split; try reflexivity; try discriminate.
  exact Hsg.
Qed.


Variable isalnum : char -> bool.

Lemma export_loop_filter (g : SignGenerator) (safe_name weight_label : str)
    (items : models) (created : list str) (w : world) :
  export_loop g safe_name weight_label items created w
  = export_loop g safe_name weight_label (filter exportable items) created w.
Proof.
  revert created w. induction items as [|[name model] rest IH]; intros created w.
  - reflexivity.
  - cbn [filter]. unfold exportable at 1. cbn [fst snd].
    destruct model as [model|]; [|cbn [export_loop]; apply IH].
    cbn [export_loop]. unfold layer_filename.
    destruct (str_eqb name (py "base")) eqn:E1;
      [|destruct (str_eqb name (py "top")) eqn:E2;
        [|destruct (str_eqb name (py "combined")) eqn:E3]]; cbn [orb].
    4:{ apply IH. }
    all: cbn [export_loop]; unfold layer_filename;
      rewrite ?E1, ?E2, ?E3.
    all: unfold bind;
      match goal with
      | |- context [_export_single_stl ?a ?b ?c ?x] =>
          destruct (_export_single_stl a b c x) as [[s|e] w1]
      end; [apply IH | reflexivity].
Qed.

(** X16: models that are [None] and layer names other than base, top and
    combined are passed over: the export is that of the remaining items. *)
Theorem export_stl_skips (g : SignGenerator) (m : models) (base_filename : str)
    (metadata : option dict) (w : world) :
  export_stl isalnum g m base_filename metadata w
  = export_stl isalnum g (filter exportable m) base_filename metadata w.
Proof.
  unfold export_stl, bind.
  destruct (lift (metadata_heaviness metadata) w) as [[hv|e] w1];
    [apply export_loop_filter | reflexivity].
Qed.


Lemma export_loop_raises (g : SignGenerator) (safe_name weight_label : str)
    (items : models) (created : list str) (w w' : world) (e : exn) :
  export_loop g safe_name weight_label items created w = (Raise e, w') ->
  is_STLExportError e = true /\ suggestions_of e <> [].
Proof.
  revert created w. induction items as [|[name model] rest IH]; intros created w.
  - discriminate.
  - cbn [export_loop].
    destruct model as [model|]; [|apply IH].
    destruct (layer_filename safe_name weight_label name) as [filename|];
      [|apply IH].
    intros H. apply bind_raise_inv in H as [H|(ok & w1 & _ & H)].
    + exact (export_single_stl_raises _ _ _ _ _ _ H).
    + exact (IH _ _ H).
Qed.

(** X18: [export_stl] raises an [STLExportError] with suggestions, or, when
    the metadata's heaviness is no number, the [TypeError] of the label's
    comparison before any export; it raises nothing else. *)
Theorem export_stl_errors (g : SignGenerator) (m : models) (base_filename : str)
    (metadata : option dict) (w w' : world) (e : exn) :
  export_stl isalnum g m base_filename metadata w = (Raise e, w') ->
  (is_STLExportError e = true /\ suggestions_of e <> [])
  \/ (metadata_heaviness metadata = Raise e /\ w' = w
      /\ exists msg, e = TypeError msg).
Proof.
  unfold export_stl. intros H.
  apply bind_raise_inv in H as [H|(hv & w1 & _ & H)].
  - right. unfold lift in H. injection H as H <-.
    split; [exact H|]. split; [reflexivity|].
    unfold metadata_heaviness in H.
    destruct metadata as [d|]; [|discriminate H].
    destruct (dict_get (py "heaviness") d) as [[]|]; try discriminate H;
      injection H as <-; eexists; reflexivity.
  - left. exact (export_loop_raises _ _ _ _ _ _ _ _ H).
Qed.

(** X17: nothing is cleaned up after a failure: when the top layer fails
    after the base layer was exported, the error is the top layer's and the
    base layer's file is still there. *)
Theorem export_stl_partial_output (g : SignGenerator) (base top : Workplane)
    (rest : models) (base_filename : str) (metadata : option dict)
    (label : num) (w w1 w2 : world) (e : exn) :
  export_frame ->
  metadata_heaviness metadata = Ok label ->
  let stem := _sanitize_filename isalnum base_filename ++ py "_"
                ++ _get_weight_label label in
  let base_path := path_div (output_dir g) (stem ++ py "_bottom_black.stl") in
  let top_path := path_div (output_dir g) (stem ++ py "_top_yellow.stl") in
  _export_single_stl base base_path (py "base") w = (Ok true, w1) ->
  _export_single_stl top top_path (py "top") w1 = (Raise e, w2) ->
  export_stl isalnum g
    ((py "base", Some base) :: (py "top", Some top) :: rest)
    base_filename metadata w = (Raise e, w2)
  /\ exported base_path w2.
Proof.
  intros Hframe Hmeta stem base_path top_path Hbase Htop.
  split.
  - unfold export_stl, bind, lift. rewrite Hmeta.
    cbn [export_loop].
    change (layer_filename (_sanitize_filename isalnum base_filename)
              (_get_weight_label label) (py "base"))
      with (Some (_sanitize_filename isalnum base_filename ++ py "_"
                    ++ _get_weight_label label ++ py "_bottom_black.stl")).
    change (layer_filename (_sanitize_filename isalnum base_filename)
              (_get_weight_label label) (py "top"))
      with (Some (_sanitize_filename isalnum base_filename ++ py "_"
                    ++ _get_weight_label label ++ py "_top_yellow.stl")).
    cbv iota. unfold bind.
    replace (_sanitize_filename isalnum base_filename ++ py "_"
               ++ _get_weight_label label ++ py "_bottom_black.stl")
      with (stem ++ py "_bottom_black.stl")
      by (unfold stem; rewrite <- !app_assoc; reflexivity).
    replace (_sanitize_filename isalnum base_filename ++ py "_"
               ++ _get_weight_label label ++ py "_top_yellow.stl")
      with (stem ++ py "_top_yellow.stl")
      by (unfold stem; rewrite <- !app_assoc; reflexivity).
    fold base_path top_path. rewrite Hbase, Htop. reflexivity.
  - apply export_single_stl_ok in Hbase as (_ & X & _).
    assert (Hne : base_path <> top_path)
      by (apply layer_paths_distinct;
          first [discriminate | vm_compute; intuition discriminate]).
    destruct (export_single_stl_frame _ _ _ _ _ _ Hframe Htop base_path Hne)
      as [Hf Hd].
    exact (exported_frame _ _ _ Hf Hd X).
Qed.

End ExportMore.


Lemma export_stl_errors_witness :
  is_STLExportError
    (STLExportError (py "base") (py "Permission denied")
       [py "Check parameters"; py "Try simpler text"]) = true.
Proof.
  edestruct (export_stl_errors (K := SimKernel) ascii_isalnum sim_generator
               [(py "base", Some (mk_sim_wp true 684))] (py "TEST") None
               {| dirs := [py "."; py "output"]; files := [];
                  unwritable := [py "output/TEST_regular_bottom_black.stl"];
                  stdout := []; stderr := []; logs := [] |})
    as [[H _]|(H & _)].
  - vm_compute. reflexivity.
  - exact H.
  - discriminate H.
Defined.

Lemma export_stl_partial_output_witness :
  let w := {| dirs := [py "."; py "output"]; files := [];
              unwritable := [py "output/TEST_regular_top_yellow.stl"];
              stdout := []; stderr := []; logs := [] |} in
  exists e w2,
    export_stl (K := SimKernel) ascii_isalnum sim_generator
      [ (py "base", Some (mk_sim_wp true 684));
        (py "top", Some (mk_sim_wp true 688));
        (py "combined", Some (mk_sim_wp true 1372)) ]
      (py "TEST") None w = (Raise e, w2)
    /\ exported (py "output/TEST_regular_bottom_black.stl") w2.
Proof.
  intros w.
  eexists _, _.
  eapply (export_stl_partial_output (K := SimKernel) ascii_isalnum
            sim_generator (mk_sim_wp true 684) (mk_sim_wp true 688) _
            (py "TEST") None (Int 50) w).
  - exact sim_kernel_frame.
  - reflexivity.
  - vm_compute. reflexivity.
  - vm_compute. reflexivity.
Defined.

(* ================================================================== *)
(** * More properties: what the CLI shows *)
(* ================================================================== *)



Section CliMore.

Context {FF : FloatFormat} {K : CadKernel}.
Variable isalnum : char -> bool.

(** X20: when the generation raises, [main] ends with status 1; apart from
    the log, all it has done since the generator was made is print the
    error line: nothing is exported and nothing printed on [stdout]. *)
Theorem main_generation_failure (a : args) (w w1 w2 : world)
    (g : SignGenerator) (e : exn) :
  SignGenerator_init (a_output_dir a) (a_debug a) w = (Ok g, w1) ->
  main_generate g a
    (snd (log INFO (py "Generating sign: '" ++ a_text a ++ py "'") w1))
  = (Raise e, w2) ->
  let run := main isalnum a w in
  fst run = Exited 1
  /\ same_but_logs (snd (print_err (error_line e) w1)) (snd run).
Proof.
  intros Hinit Hgen run.
  pose proof Hgen as Hlogs. unfold main_generate in Hlogs.
  apply generate_sign_frame in Hlogs as (Gd & Gf & Gu & Go & Ge).
  cbn in Gd, Gf, Gu, Go, Ge.
  subst run. unfold main. rewrite Hinit.
  unfold main_try, bind, log, print, print_err, modify in *. cbv beta iota.
  cbn [snd] in Hgen. rewrite Hgen. cbn.
  unfold same_but_logs. cbn.
  repeat split; congruence.
Qed.


End CliMore.

Lemma main_generation_failure_witness :
  let run := main (FF := CPythonFormat) (K := BrokenKernel) ascii_isalnum
               (default_args (py "TEST")) empty_world in
  fst run = Exited 1
  /\ same_but_logs
       (snd (print_err
               (error_line (GeometryError (py "sign generation")
                              (py "BRep_API: command not done")))
               sim_world))
       (snd run).
Proof.
  assert (Hinit : SignGenerator_init (a_output_dir (default_args (py "TEST")))
                    (a_debug (default_args (py "TEST"))) empty_world
                  = (Ok sim_generator, sim_world))
    by (vm_compute; reflexivity).
  eassert (Hgen : main_generate (FF := CPythonFormat) (K := BrokenKernel)
                    sim_generator (default_args (py "TEST"))
                    (snd (log INFO (py "Generating sign: '"
                                      ++ a_text (default_args (py "TEST"))
                                      ++ py "'") sim_world))
                  = (Raise _, _))
    by (vm_compute; reflexivity).
  exact (main_generation_failure (FF := CPythonFormat) (K := BrokenKernel)
           ascii_isalnum _ _ _ _ _ _ Hinit Hgen).
Defined.



(* ================================================================== *)
(** * More properties: the configuration *)
(* ================================================================== *)

Lemma assoc_get_none_notin {V} (k : str) (d : list (str * V)) :
  assoc_get k d = None -> ~ In k (List.map fst d).
Proof.
  induction d as [|[k' v] d IH]; cbn; [intros _ []|].
  destruct (str_eqb k k') eqn:E; [discriminate|].
  intros H [Heq|Hin]; [|exact (IH H Hin)].
  subst k'. rewrite str_eqb_refl in E. discriminate E.
Qed.

Lemma assoc_mem_set {V} (k k' : str) (v : V) (d : list (str * V)) :
  assoc_mem k d = true -> assoc_mem k (assoc_set k' v d) = true.
Proof.
  unfold assoc_mem. intros H.
  destruct (str_eqb k k') eqn:E.
  - apply str_eqb_eq in E. subst k'. rewrite assoc_get_set_same. reflexivity.
  - rewrite assoc_get_set_other by exact E. exact H.
Qed.

(** X22: merging keeps a default the loaded configuration does not mention;
    an entry it does mention becomes the loaded value, or the merge of the
    two values when both are dictionaries. *)
Theorem merge_configs_entry (default : dict) (items : list (str * pyval))
    (k : str) :
  unique_keys items ->
  (assoc_get k items = None ->
   dict_get k (_merge_configs default (PDict items)) = dict_get k default)
  /\ (forall v, assoc_get k items = Some v ->
        dict_get k (_merge_configs default (PDict items))
        = Some (match dict_get k default, v with
                | Some (PDict sub), PDict _ => PDict (_merge_configs sub v)
                | _, _ => v
                end)).
Proof.
  intros Hu. cbn [_merge_configs]. split.
  - intros H. apply merge_items_other, assoc_get_none_notin, H.
  - intros v H. exact (merge_items_get _merge_configs k v items default Hu H).
Qed.

Lemma merge_configs_entry_witness :
  let loaded := [(py "defaults", PDict [(py "text", PStr (py "CUSTOM"))])] in
  let merged := _merge_configs DEFAULT_CONFIG (PDict loaded) in
  dict_get (py "window") merged = dict_get (py "window") DEFAULT_CONFIG
  /\ Config.get (mk_ConfigManager [] [] merged) (py "defaults.text") PNone
     = PStr (py "CUSTOM")
  /\ Config.get (mk_ConfigManager [] [] merged) (py "defaults.width") PNone
     = PNum (Float 100.0%float).
Proof.
  intros loaded merged.
  destruct (merge_configs_entry DEFAULT_CONFIG loaded (py "window")) as [H _].
  - repeat constructor. intros [].
  - split; [apply H; reflexivity|]. split; vm_compute; reflexivity.
Defined.

(** X23: merging never loses a key of the defaults, whatever was loaded. *)
Theorem merge_configs_keeps_keys (default : dict) (loaded : pyval) (k : str) :
  dict_mem k default = true ->
  dict_mem k (_merge_configs default loaded) = true.
Proof.
  destruct loaded as [| | | | |items]; cbn [_merge_configs]; try (intros H; exact H).
  revert default. induction items as [|[key value] rest IH]; intros default H.
  - exact H.
  - rewrite merge_items_step. apply IH.
    unfold dict_mem, dict_set. apply assoc_mem_set. exact H.
Qed.

Lemma merge_configs_keeps_keys_witness :
  dict_mem (py "validation")
    (_merge_configs DEFAULT_CONFIG (PDict [(py "validation", PNum (Int 3))]))
  = true.
Proof. apply merge_configs_keeps_keys. reflexivity. Defined.

(** X24: what loading the configuration gives, by what is at the path: a
    JSON object is merged over the defaults; any other JSON value makes it
    raise [AttributeError]; bytes that do not decode make it raise
    [UnicodeDecodeError]; neither is caught.  Anything else (text that is
    no JSON, a directory, no file) gives the defaults. *)
Theorem load_config_outcomes (path : str) (w : world) :
  match file_at path w with
  | Some (Json (PDict items)) =>
      load_config path w
      = (Ok (_merge_configs DEFAULT_CONFIG (PDict items)), w)
  | Some (Json _) =>
      exists msg, load_config path w = (Raise (AttributeError msg), w)
  | Some (Garbled _) =>
      exists msg, load_config path w = (Raise (UnicodeDecodeError msg), w)
  | Some (Bytes _) | None =>
      exists w', load_config path w = (Ok DEFAULT_CONFIG, w')
  end.
Proof.
  unfold load_config, bind, gets, path_exists, assoc_mem, try_except, read_json.
  unfold file_at.
  destruct (assoc_get path (files w)) as [[doc|n|n]|] eqn:E.
  - rewrite orb_true_r. unfold file_at. rewrite E.
    destruct doc; cbn; first [reflexivity | eexists; reflexivity].
  - rewrite orb_true_r. unfold file_at. rewrite E. cbn.
    eexists. reflexivity.
  - rewrite orb_true_r. unfold file_at. rewrite E. cbn.
    eexists. reflexivity.
  - rewrite orb_false_r. destruct (is_dir path w) eqn:D.
    + unfold file_at. rewrite E, D. cbn. eexists. reflexivity.
    + unfold save_config_to, try_except, write_json. rewrite D.
      destruct (str_mem path (unwritable w)); [cbn; eexists; reflexivity|].
      destruct (negb (is_dir (path_parent path) w)); cbn; eexists; reflexivity.
Qed.



(** The keys of a path are its first keys and its last. *)
Lemma split_dots_nonempty (s : str) : split_dots s <> [].
Proof.
  induction s as [|c s IH]; cbn; [discriminate|].
  destruct (char_eqb c 46%N); [discriminate|].
  destruct (split_dots s); [contradiction | discriminate].
Qed.

Lemma set_walk_get (init : list str) (last : str) (value default : pyval)
    (c c' : dict) :
  set_walk init last value c = Ok c' ->
  get_keys (init ++ [last]) (PDict c') default = value.
Proof.
  revert c c'. induction init as [|key init IH]; intros c c'; cbn.
  - intros H. injection H as <-. unfold dict_get, dict_set.
    rewrite assoc_get_set_same. reflexivity.
  - set (c0 := if negb (dict_mem key c) then dict_set key (PDict []) c else c).
    destruct (dict_get key c0) as [[| | | | |sub]|]; try discriminate.
    unfold rbind.
    destruct (set_walk init last value sub) as [sub'|] eqn:E; [|discriminate].
    intros H. injection H as <-. unfold dict_get, dict_set.
    rewrite assoc_get_set_same. exact (IH _ _ E).
Qed.

(** X26: a value set under a dotted path is what [get] returns for that
    path; and when [set] raises, it is a [TypeError] (a non-dictionary on
    the way) and nothing was written. *)
Theorem set_then_get (cm : ConfigManager) (key_path : str) (value default : pyval)
    (save : bool) (w : world) :
  (forall cm' w',
      set cm key_path value save w = (Ok cm', w') ->
      Config.get cm' key_path default = value)
  /\ (forall e w',
         set cm key_path value save w = (Raise e, w') ->
         w' = w /\ exists msg, e = TypeError msg).
Proof.
  unfold set, init_last.
  pose proof (split_dots_nonempty key_path) as Hne.
  pose proof (app_removelast_last [] Hne) as Hkeys.
  split.
  - intros cm' w' H.
    apply bind_ok_inv in H as (c & w1 & Hset & H).
    unfold lift in Hset. injection Hset as Hset <-.
    apply bind_ok_inv in H as (_ & w2 & _ & H).
    unfold ret in H. injection H as <- _.
    unfold Config.get. cbn [config set_config]. rewrite Hkeys.
    exact (set_walk_get _ _ _ _ _ _ Hset).
  - intros e w' H.
    apply bind_raise_inv in H as [H|(c & w1 & _ & H)].
    + unfold lift in H. injection H as H <-. split; [reflexivity|].
      clear Hkeys Hne. revert H.
      generalize (removelast (split_dots key_path)) (config cm).
      intros init. induction init as [|key init IH]; intros c; cbn;
        [discriminate|].
      destruct (dict_get key _) as [[| | | | |sub]|];
        try (intros H; injection H as <-; eexists; reflexivity).
      unfold rbind. destruct (set_walk init _ value sub) eqn:E;
        [discriminate|].
      intros H. injection H as <-. exact (IH _ E).
    + apply bind_raise_inv in H as [H|(_ & w2 & _ & H)]; [|discriminate H].
      destruct save; [|discriminate H].
      match type of H with
      | save_config ?c ?x = _ => destruct (save_config_returns c x) as [w3 E]
      end.
      rewrite E in H. discriminate H.
Qed.

Lemma set_then_get_witness :
  exists cm' w',
    set fresh_manager (py "custom.nested.value") (PNum (Int 42)) false
      empty_world = (Ok cm', w')
    /\ Config.get cm' (py "custom.nested.value") PNone = PNum (Int 42).
Proof.
  destruct (set_then_get fresh_manager (py "custom.nested.value")
              (PNum (Int 42)) PNone false empty_world) as [H _].
  eassert (E : set fresh_manager (py "custom.nested.value") (PNum (Int 42))
                 false empty_world = (Ok _, _))
    by (vm_compute; reflexivity).
  eexists _, _. split; [exact E | exact (H _ _ E)].
Defined.

(** An element [remove_first] takes is the string itself. *)
Lemma is_str_eq (v : pyval) (s : str) : is_str v s = true <-> v = PStr s.
Proof.
  destruct v; cbn; try (split; discriminate).
  rewrite str_eqb_eq. split; [intros ->; reflexivity | intros H; injection H; auto].
Qed.

Lemma remove_first_In (s : str) (l : list pyval) (x : pyval) :
  In x (remove_first s l) -> In x l.
Proof.
  induction l as [|v l IH]; cbn; [auto|].
  destruct (is_str v s); [auto|]. intros [H|H]; [left; exact H | right; auto].
Qed.

Lemma remove_first_NoDup (s : str) (l : list pyval) :
  NoDup l -> NoDup (remove_first s l) /\ ~ In (PStr s) (remove_first s l).
Proof.
  induction 1 as [|v l Hv Hl [IH1 IH2]]; cbn.
  - split; [constructor | intros []].
  - destruct (is_str v s) eqn:E.
    + apply is_str_eq in E. subst v. split; assumption.
    + split.
      * constructor; [|exact IH1]. intros Hin. apply Hv.
        exact (remove_first_In _ _ _ Hin).
      * intros [Heq|Hin]; [|exact (IH2 Hin)].
        subst v. cbn in E. rewrite str_eqb_refl in E. discriminate E.
Qed.

Lemma firstn_incl {A} (n : nat) (l : list A) (x : A) :
  In x (firstn n l) -> In x l.
Proof.
  revert n. induction l as [|y l IH]; intros [|n] H; cbn in *;
    try contradiction.
  destruct H as [H|H]; [left; exact H | right; exact (IH _ H)].
Qed.

Lemma firstn_NoDup {A} (n : nat) (l : list A) : NoDup l -> NoDup (firstn n l).
Proof.
  intros H. revert n. induction H as [|x l Hx Hl IH]; intros [|n]; cbn;
    try constructor.
  - intros Hin. apply Hx. exact (firstn_incl _ _ _ Hin).
  - apply IH.
Qed.

(** X27: after [add_recent_file] with room for at least one entry, the list
    of recent files starts with the file, holds at most [max_recent]
    entries, and names the file once if no entry was listed twice before. *)
Theorem add_recent_file_front (cm cm' : ConfigManager) (filepath : str)
    (max_recent : Z) (w w' : world) :
  1 <= max_recent ->
  add_recent_file cm filepath max_recent w = (Ok cm', w') ->
  exists old recent,
    match dict_get (py "recent_files") (config cm) with
    | Some v => v = PList old
    | None => old = []
    end
    /\ dict_get (py "recent_files") (config cm') = Some (PList recent)
    /\ hd_error recent = Some (PStr filepath)
    /\ Z.of_nat (List.length recent) <= max_recent
    /\ (NoDup old -> NoDup recent).
Proof.
  intros Hmax. unfold add_recent_file.
  set (old_value := match dict_get (py "recent_files") (config cm) with
                    | Some v => v
                    | None => PList []
                    end).
  assert (Hold : forall old, old_value = PList old ->
                 match dict_get (py "recent_files") (config cm) with
                 | Some v => v = PList old
                 | None => old = []
                 end).
  { unfold old_value. intros old.
    destruct (dict_get (py "recent_files") (config cm)); [auto|].
    intros H. injection H as <-. reflexivity. }
  destruct old_value as [| | | |old|]; try discriminate.
  intros H. apply bind_ok_inv in H as (_ & w1 & _ & H).
  unfold ret in H. injection H as <- _.
  exists old. eexists. split; [apply Hold; reflexivity|].
  split; [cbn [config set_config]; unfold dict_get, dict_set;
          apply assoc_get_set_same|].
  unfold slice_to. destruct (Z.leb_spec 0 max_recent); [|lia].
  destruct (Z.to_nat max_recent) as [|n] eqn:En; [lia|]. cbn [firstn].
  split; [reflexivity|]. split.
  - cbn [List.length]. pose proof (firstn_le_length n (remove_first filepath old)).
    lia.
  - intros Hnd. destruct (remove_first_NoDup filepath old Hnd) as [H1 H2].
    constructor.
    + intros Hin. apply H2. exact (firstn_incl _ _ _ Hin).
    + apply firstn_NoDup. exact H1.
Qed.

Lemma add_recent_file_front_witness :
  exists cm' w',
    add_recent_file
      (mk_ConfigManager (py "cfg") (py "cfg/config.json")
         [(py "recent_files",
           PList [PStr (py "a.stl"); PStr (py "b.stl"); PStr (py "c.stl")])])
      (py "b.stl") 2 empty_world = (Ok cm', w')
    /\ dict_get (py "recent_files") (config cm')
       = Some (PList [PStr (py "b.stl"); PStr (py "a.stl")]).
Proof.
  eassert (E : add_recent_file
                 (mk_ConfigManager (py "cfg") (py "cfg/config.json")
                    [(py "recent_files",
                      PList [PStr (py "a.stl"); PStr (py "b.stl");
                             PStr (py "c.stl")])])
                 (py "b.stl") 2 empty_world = (Ok _, _))
    by (vm_compute; reflexivity).
  destruct (add_recent_file_front _ _ _ 2 _ _ ltac:(lia) E)
    as (old & recent & _ & Hget & _).
  eexists _, _. split; [exact E|].
  vm_compute. reflexivity.
Defined.

(** X28: saving a preset leaves every other preset as it was. *)
Theorem save_preset_keeps_others (cm cm' : ConfigManager) (name other : str)
    (settings : dict) (w w' : world) :
  other <> name ->
  save_preset cm name settings w = (Ok cm', w') ->
  load_preset cm' other = load_preset cm other.
Proof.
  intros Hne Hsave.
  apply save_preset_config in Hsave as (c & presets & Hc & Hcase).
  assert (Hother : str_eqb other name = false).
  { destruct (str_eqb other name) eqn:E; [|reflexivity].
    apply str_eqb_eq in E. contradiction. }
  unfold load_preset. rewrite Hc. unfold dict_get, dict_set.
  rewrite assoc_get_set_same. cbv beta iota.
  rewrite (assoc_get_set_other name other _ presets Hother).
  destruct Hcase as [[_ E]|[_ [E ->]]]; unfold dict_get in E; rewrite E;
    reflexivity.
Qed.

Lemma save_preset_keeps_others_witness :
  exists cm1 w1 cm2 w2,
    save_preset fresh_manager (py "small") [(py "width", PNum (Int 50))]
      empty_world = (Ok cm1, w1)
    /\ save_preset cm1 (py "large") [(py "width", PNum (Int 200))] w1
       = (Ok cm2, w2)
    /\ load_preset cm2 (py "small") = Ok (PDict [(py "width", PNum (Int 50))]).
Proof.
  eassert (E1 : save_preset fresh_manager (py "small")
                  [(py "width", PNum (Int 50))] empty_world = (Ok _, _))
    by (vm_compute; reflexivity).
  match type of E1 with
  | _ = (Ok ?cm1, ?w1) =>
      eassert (E2 : save_preset cm1 (py "large")
                      [(py "width", PNum (Int 200))] w1 = (Ok _, _))
        by (vm_compute; reflexivity)
  end.
  eexists _, _, _, _. split; [exact E1|]. split; [exact E2|].
  rewrite (save_preset_keeps_others _ _ (py "large") (py "small") _ _ _
             ltac:(discriminate) E2).
  vm_compute. reflexivity.
Defined.

Lemma keys_distinct_NoDup (l : list str) : keys_distinct l = true -> NoDup l.
Proof.
  induction l as [|k rest IH]; cbn; [constructor|].
  intros H. apply andb_prop in H as [Hk Hrest].
  constructor; [|exact (IH Hrest)].
  intros Hin. apply negb_true_iff in Hk.
  assert (E : str_mem k rest = true).
  { unfold str_mem. apply existsb_exists. exists k.
    split; [exact Hin | apply str_eqb_refl]. }
  rewrite E in Hk. discriminate Hk.
Qed.

Lemma preset_survives_reload_witness :
  let w := {| dirs := [py "cfg"]; files := []; unwritable := [];
              stdout := []; stderr := []; logs := [] |} in
  let settings := [(py "width", PNum (Int 150)); (py "height", PNum (Int 30))] in
  exists cm' w' cm2 w2,
    save_preset fresh_manager (py "large") settings w = (Ok cm', w')
    /\ ConfigManager_init (py "/home/u") (Some (py "cfg/config.json")) w'
       = (Ok cm2, w2)
    /\ load_preset cm2 (py "large") = Ok (PDict settings).
Proof.
  intros w settings.
  eassert (E1 : save_preset fresh_manager (py "large") settings w = (Ok _, _))
    by (vm_compute; reflexivity).
  match type of E1 with
  | _ = (Ok ?cm1, ?w1) =>
      eassert (E2 : ConfigManager_init (py "/home/u")
                      (Some (py "cfg/config.json")) w1 = (Ok _, _))
        by (vm_compute; reflexivity)
  end.
  eexists _, _, _, _. split; [exact E1|]. split; [exact E2|].
  refine (preset_survives_reload fresh_manager _ _ (py "large") (py "/home/u")
            settings w _ _ _ _ E1 _ E2).
  - apply keys_distinct_NoDup. reflexivity.
  - intros presets H. vm_compute in H. injection H as <-. apply NoDup_nil.
  - vm_compute. reflexivity.
Defined.

(** X30: a configuration exported to a file and imported by another
    manager arrives merged over the defaults; the import reports success. *)
Theorem export_then_import (cm1 cm2 : ConfigManager) (filepath : str)
    (w w1 : world) :
  export_config cm1 filepath w = (Ok true, w1) ->
  exists cm2' w2,
    import_config cm2 filepath w1 = (Ok (true, cm2'), w2)
    /\ config cm2' = _merge_configs DEFAULT_CONFIG (PDict (config cm1))
    /\ config_path cm2' = config_path cm2.
Proof.
  unfold export_config, try_except, bind, write_json.
  destruct (is_dir filepath w); [discriminate|].
  destruct (str_mem filepath (unwritable w)); [discriminate|].
  destruct (negb (is_dir (path_parent filepath) w)); [discriminate|].
  cbn. intros H. injection H as <-.
  unfold import_config, try_except, bind, read_json, file_at. cbn [files set_files].
  rewrite assoc_get_set_same.
  match goal with
  | |- context [save_config ?c ?x] =>
      destruct (save_config_returns c x) as [w2 E]; rewrite E
  end.
  eexists _, _. split; [reflexivity|]. split; reflexivity.
Qed.

Lemma export_then_import_witness :
  exists w1 cm2' w2,
    export_config
      (mk_ConfigManager (py "cfg") (py "cfg/config.json")
         [(py "test", PDict [(py "export", PStr (py "exported"))])])
      (py "cfg/export.json")
      {| dirs := [py "cfg"]; files := []; unwritable := [];
         stdout := []; stderr := []; logs := [] |} = (Ok true, w1)
    /\ import_config fresh_manager (py "cfg/export.json") w1
       = (Ok (true, cm2'), w2)
    /\ Config.get cm2' (py "test.export") PNone = PStr (py "exported").
Proof.
  eassert (E : export_config
                 (mk_ConfigManager (py "cfg") (py "cfg/config.json")
                    [(py "test", PDict [(py "export", PStr (py "exported"))])])
                 (py "cfg/export.json")
                 {| dirs := [py "cfg"]; files := []; unwritable := [];
                    stdout := []; stderr := []; logs := [] |} = (Ok true, _))
    by (vm_compute; reflexivity).
  destruct (export_then_import _ fresh_manager _ _ _ E) as (cm2' & w2 & I & C & _).
  eexists _, cm2', w2. split; [exact E|]. split; [exact I|].
  unfold Config.get. rewrite C. vm_compute. reflexivity.
Defined.
